(** * Attendance statistics: a shallow embedding of [src/lib/utils/stats.ts]

    The development follows the TypeScript source function by function.
    Of the records module it embeds the document [addRecord] builds and the
    record [getRecordsForPeriod] makes of a document.

    Modelling conventions.
    - A JavaScript [Date] is either a valid date, carrying its time value in
      milliseconds, or the Invalid Date.  The code only ever reads local
      calendar fields, so the time value is kept on the local time line:
      the UTC time value shifted by the offset of the zone.  Day 0 of that
      line is 1970-01-01, and every day of it has 24 hours, which is how
      the code sees a zone for as long as its offset does not change.  The
      code formats weeks with the locale [ja]; the offset of Asia/Tokyo has
      not changed since its last daylight saving time ended on 1951-09-09.
      A statement that compares the minutes of a split with elapsed time is
      therefore made for instants from 1952-01-01 on ([zoneSettled]); it
      holds in any zone over a span in which the offset stays the same, and
      not across a change of the offset, where a local day has 23 or 25
      hours and the loop of [splitStayByDays] still books 1440 minutes.
    - The bounds of a time value (8.64e15 milliseconds either side of the
      epoch, past which [addDays] gives the Invalid Date) and the capacity
      of a [Map] in an engine are not modelled.  A statement that the code
      returns is therefore made for dates of the years 1 to 9999
      ([fourDigitYear]), which stay far inside both.
    - A JavaScript [number] that holds minutes is an integer ([Z]), so NaN,
      the infinities and fractions of a minute are left out; the one true
      division of the code ([averageTime]) is a rational ([Q]).  Sums of
      integers are exact in the code as long as they stay within 2^53 in
      absolute value; a statement that regroups or reorders a sum names
      that bound ([exactSum]).
    - A JavaScript [Map] is a list of entries in insertion order ([JsMap]):
      [set] on a present key overwrites in place, on a new key appends.
    - [throw] and the exhaustion of the fuel of the one [while] loop are the
      two abnormal outcomes of a computation ([outcome]).  Running out of
      fuel says that the loop has not ended within the steps given. *)

From Stdlib Require Import String ZArith List Bool Lia QArith.
From Stdlib Require Import Permutation Sorted.
Import ListNotations.
Open Scope Z_scope.

Set Implicit Arguments.

(* ------------------------------------------------------------------ *)
(** ** Outcomes of a computation *)

Inductive Error : Type :=
| RangeError  (* "RangeError: Invalid time value", thrown by date-fns format *).

Inductive outcome (A : Type) : Type :=
| Ret (a : A)
| Throw (e : Error)
| OutOfFuel.

Arguments Ret {A} a.
Arguments Throw {A} e.
Arguments OutOfFuel {A}.

Definition bind {A B : Type} (c : outcome A) (k : A -> outcome B) : outcome B :=
  match c with
  | Ret a => k a
  | Throw e => Throw e
  | OutOfFuel => OutOfFuel
  end.

Notation "x <- c ;; k" := (bind c (fun x => k))
  (at level 61, c at next level, right associativity).

(** [arr.forEach(f)] where [f] updates an accumulator and may throw. *)
Fixpoint forEachM {A S : Type} (f : S -> A -> outcome S) (l : list A) (s : S)
  : outcome S :=
  match l with
  | [] => Ret s
  | a :: l' => s' <- f s a ;; forEachM f l' s'
  end.

(* ------------------------------------------------------------------ *)
(** ** JavaScript [Map] and [Set], in insertion order *)

Class Key (K : Type) : Type := {
  keyEqb : K -> K -> bool;
  keyEqb_spec : forall a b, keyEqb a b = true <-> a = b
}.

Lemma prod_keyEqb_spec {A B : Type} `{Key A} `{Key B} (p q : A * B) :
  keyEqb (fst p) (fst q) && keyEqb (snd p) (snd q) = true <-> p = q.
Proof.
  rewrite andb_true_iff, !keyEqb_spec. destruct p, q; simpl. split.
  - intros [-> ->]. reflexivity.
  - intros E. inversion E. auto.
Qed.

#[export] Instance Key_Z : Key Z :=
  {| keyEqb := Z.eqb; keyEqb_spec := Z.eqb_eq |}.

#[export] Instance Key_string : Key string :=
  {| keyEqb := String.eqb; keyEqb_spec := String.eqb_eq |}.

#[export] Instance Key_prod {A B : Type} `{Key A} `{Key B} : Key (A * B) :=
  {| keyEqb := fun p q => keyEqb (fst p) (fst q) && keyEqb (snd p) (snd q);
     keyEqb_spec := prod_keyEqb_spec |}.

Module JsMap.
Section Ops.
Context {K V : Type} `{Key K}.

Definition t : Type := list (K * V).

Definition empty : t := [].

Fixpoint get (m : t) (k : K) : option V :=
    match m with
    | [] => None
    | (k', v) :: m' => if keyEqb k' k then Some v else get m' k
    end.

Definition has (m : t) (k : K) : bool :=
    match get m k with Some _ => true | None => false end.

Fixpoint set (m : t) (k : K) (v : V) : t :=
    match m with
    | [] => [(k, v)]
    | (k', v') :: m' =>
        if keyEqb k' k then (k', v) :: m' else (k', v') :: set m' k v
    end.

Definition size (m : t) : nat := length m.

Definition keys (m : t) : list K := map fst m.
End Ops.
Arguments t : clear implicits.
End JsMap.

Module JsSet.
Section Ops.
Context {K : Type} `{Key K}.

Definition t : Type := list K.

Definition empty : t := [].

Definition has (s : t) (k : K) : bool := existsb (keyEqb k) s.

Definition add (s : t) (k : K) : t := if has s k then s else s ++ [k].

Definition size (s : t) : nat := length s.
End Ops.
Arguments t : clear implicits.
End JsSet.

(* ------------------------------------------------------------------ *)
(** ** Dates and the date-fns functions the code imports *)

Inductive Date : Type :=
| ValidDate (time : Z)
| InvalidDate.

Module DateFns.

Definition millisecondsInMinute : Z := 60000.
Definition millisecondsInDay : Z := 86400000.

  (** The day of the local time line an instant falls on. *)
Definition dayNumber (time : Z) : Z := time / millisecondsInDay.

  (** Proleptic Gregorian calendar: [getFullYear], [getMonth() + 1] and
      [getDate] of the day [z], and back ([new Date(y, m - 1, d)]). *)
Definition civilFromDays (z : Z) : Z * Z * Z :=
    let z := z + 719468 in
    let era := z / 146097 in
    let doe := z - era * 146097 in
    let yoe := (doe - doe / 1460 + doe / 36524 - doe / 146096) / 365 in
    let doy := doe - (365 * yoe + yoe / 4 - yoe / 100) in
    let mp := (5 * doy + 2) / 153 in
    let d := doy - (153 * mp + 2) / 5 + 1 in
    let m := if mp <? 10 then mp + 3 else mp - 9 in
    let y := yoe + era * 400 in
    (if m <=? 2 then y + 1 else y, m, d).

Definition daysFromCivil (y m d : Z) : Z :=
    let y := if m <=? 2 then y - 1 else y in
    let era := y / 400 in
    let yoe := y - era * 400 in
    let doy := (153 * (if 2 <? m then m - 3 else m + 9) + 2) / 5 + d - 1 in
    let doe := yoe * 365 + yoe / 4 - yoe / 100 + doy in
    era * 146097 + doe - 719468.

  (** [startOfDay], [endOfDay] (23:59:59.999) and [addDays] on the time value
      of a valid date. *)
Definition startOfDay (time : Z) : Z := time - time mod millisecondsInDay.

Definition endOfDay (time : Z) : Z := startOfDay time + (millisecondsInDay - 1).

Definition addDays (time amount : Z) : Z := time + amount * millisecondsInDay.

  (** [differenceInMinutes(later, earlier)]: the difference of the time
      values in minutes, truncated toward zero (the default rounding). *)
Definition differenceInMinutes (later earlier : Z) : Z :=
    Z.quot (later - earlier) millisecondsInMinute.

  (** [isBefore(date, dateToCompare)]: a comparison of time values, false as
      soon as one is NaN. *)
Definition isBefore (date dateToCompare : Date) : bool :=
    match date, dateToCompare with
    | ValidDate a, ValidDate b => a <? b
    | _, _ => false
    end.

  (** [getDay]: 0 is Sunday; 1970-01-01 was a Thursday. *)
Definition getDay (day : Z) : Z := (day + 4) mod 7.

  (** [isWeekend(date)]: [getDay] is 0 or 6; on the Invalid Date [getDay] is
      NaN and the answer is false. *)
Definition isWeekend (date : Date) : bool :=
    match date with
    | ValidDate time =>
        let day := getDay (dayNumber time) in (day =? 0) || (day =? 6)
    | InvalidDate => false
    end.

  (** The year as the token [yyyy] prints it: the year of the era, so that
      year 0 (1 BC) prints as 0001. *)
Definition eraYear (signedYear : Z) : Z :=
    if 0 <? signedYear then signedYear else 1 - signedYear.

  (** [startOfWeek] with [weekStartsOn: 0], on day numbers. *)
Definition startOfWeek (day : Z) : Z := day - getDay day.

  (** [getWeekYear], [startOfWeekYear] and [getWeek] with the options of the
      locale [ja]: [weekStartsOn: 0], [firstWeekContainsDate: 1]. *)
Definition getWeekYear (day : Z) : Z :=
    let '(year, _, _) := civilFromDays day in
    let startOfNextYear := startOfWeek (daysFromCivil (year + 1) 1 1) in
    let startOfThisYear := startOfWeek (daysFromCivil year 1 1) in
    if startOfNextYear <=? day then year + 1
    else if startOfThisYear <=? day then year
    else year - 1.

Definition startOfWeekYear (day : Z) : Z :=
    startOfWeek (daysFromCivil (getWeekYear day) 1 1).

Definition getWeek (day : Z) : Z :=
    (startOfWeek day - startOfWeekYear day) / 7 + 1.

  (** [isLeapYearIndex] and [validateDate] of [parseISO]: the month is one
      of the twelve and the day one the month of that year has. *)
Definition isLeapYearIndex (year : Z) : bool :=
    (year mod 400 =? 0) || ((year mod 4 =? 0) && negb (year mod 100 =? 0)).

Definition daysInMonth (year month : Z) : Z :=
    if month =? 2 then (if isLeapYearIndex year then 29 else 28)
    else if (month =? 4) || (month =? 6) || (month =? 9) || (month =? 11) then 30
    else 31.

Definition validateDate (year month date : Z) : bool :=
    (1 <=? month) && (month <=? 12) && (1 <=? date)
    && (date <=? daysInMonth year month).

End DateFns.
Import DateFns.

(** Keys.  A key stands for the string the code builds; its components are
    the numbers the format tokens print, zero padding apart. *)
Definition DayKey : Type := Z * Z * Z.     (* yyyy-MM-dd *)
Definition WeekKey : Type := Z * Z.        (* yyyy-'W'ww *)
Definition MonthKey : Type := Z * Z.       (* yyyy-MM *)

(** [format(date, 'yyyy-MM-dd')] on the time value of a valid date. *)
Definition dayKey (time : Z) : DayKey :=
  let '(y, m, d) := civilFromDays (dayNumber time) in (eraYear y, m, d).

(** [format] throws a [RangeError] on the Invalid Date. *)
Definition formatDateKey (date : Date) : outcome DayKey :=
  match date with
  | ValidDate time => Ret (dayKey time)
  | InvalidDate => Throw RangeError
  end.

Definition formatWeekKey (date : Date) : outcome WeekKey :=
  match date with
  | ValidDate time =>
      let day := dayNumber time in
      let '(y, _, _) := civilFromDays day in
      Ret (eraYear y, getWeek day)
  | InvalidDate => Throw RangeError
  end.

Definition formatMonthKey (date : Date) : outcome MonthKey :=
  match date with
  | ValidDate time =>
      let '(y, m, _) := civilFromDays (dayNumber time) in Ret (eraYear y, m)
  | InvalidDate => Throw RangeError
  end.

(** [parseISO] on a day key: local midnight of the date.  A year of more
    than four digits does not parse, and a day the month of the key's year
    does not have is refused ([validateDate]); both give the Invalid Date. *)
Definition parseISO (key : DayKey) : Date :=
  let '(y, m, d) := key in
  if (y <=? 9999) && validateDate y m d
  then ValidDate (daysFromCivil y m d * millisecondsInDay)
  else InvalidDate.

(* ------------------------------------------------------------------ *)
(** ** [splitStayByDays] *)

(** The [while] loop of lines 55-58: one step per unit of fuel. *)
Fixpoint splitLoop (fuel : nat) (currentDay outTime : Z)
  (result : JsMap.t DayKey Z) : outcome (Z * JsMap.t DayKey Z) :=
  if keyEqb (dayKey currentDay) (dayKey outTime) then Ret (currentDay, result)
  else
    match fuel with
    | O => OutOfFuel
    | S fuel' =>
        splitLoop fuel' (addDays currentDay 1) outTime
          (JsMap.set result (dayKey currentDay) 1440)
    end.

Definition splitStayByDays (fuel : nat) (inTimestamp outTimestamp : Date)
  : outcome (JsMap.t DayKey Z) :=
  match inTimestamp, outTimestamp with
  | ValidDate inTime, ValidDate outTime =>
      let result : JsMap.t DayKey Z := JsMap.empty in
      if keyEqb (dayKey inTime) (dayKey outTime) then
        let duration := differenceInMinutes outTime inTime in
        Ret (JsMap.set result (dayKey inTime) duration)
      else
        let currentDay := inTime in
        let firstDayEnd := endOfDay currentDay in
        let firstDayDuration := differenceInMinutes firstDayEnd inTime in
        let result := JsMap.set result (dayKey currentDay) firstDayDuration in
        let currentDay := addDays currentDay 1 in
        st <- splitLoop fuel currentDay outTime result ;;
        let '(currentDay, result) := st in
        if keyEqb (dayKey currentDay) (dayKey outTime) then
          let lastDayStart := startOfDay outTime in
          let lastDayDuration := differenceInMinutes outTime lastDayStart in
          Ret (JsMap.set result (dayKey currentDay) lastDayDuration)
        else Ret result
  | _, _ => Throw RangeError  (* formatDateKey of line 39 throws *)
  end.

(* ------------------------------------------------------------------ *)
(** ** Records and statistics ([./types]) *)

(** [type] is compared with the strings ['in'] and ['out']; [duration] is
    optional. *)
Record Record_ : Type := {
  id : string;
  memberId : string;
  type : string;
  timestamp : Date;
  duration : option Z
}.

Record Stats : Type := {
  totalTime : Z;
  averageTime : Q;
  daysPresent : nat
}.

Record PeriodStats : Type := {
  daily : JsMap.t DayKey Stats;
  weekly : JsMap.t WeekKey Stats;
  monthly : JsMap.t MonthKey Stats;
  weekday : Stats;
  weekend : Stats;
  total : Stats
}.

(** [x ? true : false] on an optional number: [undefined] and [0] are falsy. *)
Definition truthy (x : option Z) : bool :=
  match x with
  | Some v => negb (v =? 0)
  | None => false
  end.

(** [x || 0] on an optional number. *)
Definition orZero (x : option Z) : Z :=
  match x with
  | Some v => v
  | None => 0
  end.

(** [n > 0 ? total / n : 0] *)
Definition average (total : Z) (n : nat) : Q :=
  if (0 <? n)%nat then (inject_Z total / inject_Z (Z.of_nat n))%Q else 0%Q.

(** [m.set(key, (m.get(key) || 0) + minutes)] *)
Definition addMinutes {K : Type} `{Key K} (m : JsMap.t K Z) (key : K) (minutes : Z)
  : JsMap.t K Z :=
  JsMap.set m key (orZero (JsMap.get m key) + minutes).

(** [let total = 0; m.forEach((minutes) => { total += minutes; })] *)
Definition sumMinutes {K : Type} (m : JsMap.t K Z) : Z :=
  fold_left (fun acc entry => acc + snd entry) m 0.

(** [Array.prototype.sort(compareFn)]: a stable sort. *)
Section Sort.
Context {A : Type} (compareFn : A -> A -> Z).

Fixpoint insertSorted (x : A) (l : list A) : list A :=
    match l with
    | [] => [x]
    | y :: l' => if compareFn x y <=? 0 then x :: l else y :: insertSorted x l'
    end.

Definition sort (l : list A) : list A := fold_right insertSorted [] l.
End Sort.

(* ------------------------------------------------------------------ *)
(** ** [calculateStats] *)

(** Lines 82-92: the records are sorted into ['in'] and ['out'] records. *)
Definition classify (records : list Record_) : list Record_ * list Record_ :=
  fold_left
    (fun acc record =>
       let '(inRecords, outRecords) := acc in
       if String.eqb (type record) "in" then (inRecords ++ [record], outRecords)
       else if String.eqb (type record) "out" then (inRecords, outRecords ++ [record])
       else (inRecords, outRecords))
    records ([], []).

(** [(a, b) => b.timestamp.getTime() - a.timestamp.getTime()]; a NaN result
    counts as 0 for [sort]. *)
Definition byTimeDesc (a b : Record_) : Z :=
  match timestamp b, timestamp a with
  | ValidDate tb, ValidDate ta => tb - ta
  | _, _ => 0
  end.

(** Lines 99-101. *)
Definition matchingInRecord (inRecords : list Record_) (outRecord : Record_)
  : option Record_ :=
  hd_error
    (sort byTimeDesc
       (filter (fun inRecord => isBefore (timestamp inRecord) (timestamp outRecord))
          inRecords)).

(** Lines 95-116: the body of [outRecords.forEach]. *)
Definition processOut (fuel : nat) (inRecords : list Record_)
  (dailyMinutes : JsMap.t DayKey Z) (outRecord : Record_)
  : outcome (JsMap.t DayKey Z) :=
  if negb (truthy (duration outRecord)) then Ret dailyMinutes
  else
    match matchingInRecord inRecords outRecord with
    | Some matching =>
        dailySplits <- splitStayByDays fuel (timestamp matching) (timestamp outRecord) ;;
        Ret (fold_left (fun dm entry => addMinutes dm (fst entry) (snd entry))
               dailySplits dailyMinutes)
    | None =>
        day <- formatDateKey (timestamp outRecord) ;;
        Ret (addMinutes dailyMinutes day (orZero (duration outRecord)))
    end.

(** The [dailyMinutes] map of [calculateStats] (lines 81-116). *)
Definition statsDailyMinutes (fuel : nat) (records : list Record_)
  : outcome (JsMap.t DayKey Z) :=
  let '(inRecords, outRecords) := classify records in
  forEachM (processOut fuel inRecords) outRecords JsMap.empty.

Definition zeroStats : Stats :=
  {| totalTime := 0; averageTime := 0%Q; daysPresent := 0 |}.

Definition calculateStats (fuel : nat) (records : list Record_) : outcome Stats :=
  if (length records =? 0)%nat then Ret zeroStats
  else
    dailyMinutes <- statsDailyMinutes fuel records ;;
    let '(totalTime, longestStay) :=
      fold_left
        (fun acc entry =>
           let '(totalTime, longestStay) := acc in
           (totalTime + snd entry, Z.max longestStay (snd entry)))
        dailyMinutes (0, 0) in
    let daysPresent := JsMap.size dailyMinutes in
    Ret {| totalTime := totalTime;
           averageTime := average totalTime daysPresent;
           daysPresent := daysPresent |}.

(* ------------------------------------------------------------------ *)
(** ** [calculatePeriodStats] *)

(** Lines 138-148: the duration of every ['out'] record goes to the day of
    the record. *)
Definition periodDailyMinutes (records : list Record_) : outcome (JsMap.t DayKey Z) :=
  forEachM
    (fun dailyMinutes record =>
       if String.eqb (type record) "out" && truthy (duration record) then
         day <- formatDateKey (timestamp record) ;;
         Ret (addMinutes dailyMinutes day (orZero (duration record)))
       else Ret dailyMinutes)
    records JsMap.empty.

(** Lines 153-160. *)
Definition dailyStats (dailyMinutes : JsMap.t DayKey Z) : JsMap.t DayKey Stats :=
  fold_left
    (fun daily entry =>
       let '(dateKey, minutes) := entry in
       JsMap.set daily dateKey
         {| totalTime := minutes; averageTime := inject_Z minutes; daysPresent := 1 |})
    dailyMinutes JsMap.empty.

(** Lines 162-210: the weekly and the monthly rollup are the same code up
    to the key, [formatWeekKey] or [formatMonthKey]. *)
Section Rollup.
Context {G : Type} `{Key G} (formatKey : Date -> outcome G).

  (** The body of the [try]: [format] throws before anything is written, and
      the [catch] only logs. *)
Definition groupStep (acc : JsMap.t G Z * JsMap.t G (JsSet.t DayKey))
    (entry : DayKey * Z) : JsMap.t G Z * JsMap.t G (JsSet.t DayKey) :=
    let '(totals, days) := acc in
    let '(dateKey, minutes) := entry in
    let date := parseISO dateKey in
    match formatKey date with
    | Ret key =>
        let totals := addMinutes totals key minutes in
        let days := if negb (JsMap.has days key) then JsMap.set days key JsSet.empty
                    else days in
        let days := match JsMap.get days key with
                    | Some s => JsMap.set days key (JsSet.add s dateKey)
                    | None => days
                    end in
        (totals, days)
    | _ => (totals, days)
    end.

Definition rollup (dailyMinutes : JsMap.t DayKey Z) : JsMap.t G Stats :=
    let '(totals, groupDays) :=
      fold_left groupStep dailyMinutes (JsMap.empty, JsMap.empty) in
    fold_left
      (fun stats entry =>
         let '(key, total) := entry in
         let days := match JsMap.get groupDays key with
                     | Some s => JsSet.size s
                     | None => O
                     end in
         JsMap.set stats key
           {| totalTime := total; averageTime := average total days;
              daysPresent := days |})
      totals JsMap.empty.
End Rollup.

(** Lines 212-226: [parseISO] and [isWeekend] do not throw. *)
Definition partitionStep (acc : JsMap.t DayKey Z * JsMap.t DayKey Z)
  (entry : DayKey * Z) : JsMap.t DayKey Z * JsMap.t DayKey Z :=
  let '(weekdayMinutes, weekendMinutes) := acc in
  let '(dateKey, minutes) := entry in
  let date := parseISO dateKey in
  if isWeekend date then (weekdayMinutes, JsMap.set weekendMinutes dateKey minutes)
  else (JsMap.set weekdayMinutes dateKey minutes, weekendMinutes).

Definition partitionDays (dailyMinutes : JsMap.t DayKey Z)
  : JsMap.t DayKey Z * JsMap.t DayKey Z :=
  fold_left partitionStep dailyMinutes (JsMap.empty, JsMap.empty).

(** Lines 150-254: everything after [dailyMinutes] is built. *)
Definition periodRollup (dailyMinutes : JsMap.t DayKey Z) : PeriodStats :=
  let '(weekdayMinutes, weekendMinutes) := partitionDays dailyMinutes in
  let weekdayTotal := sumMinutes weekdayMinutes in
  let weekendTotal := sumMinutes weekendMinutes in
  let totalTime := sumMinutes dailyMinutes in
  {| daily := dailyStats dailyMinutes;
     weekly := rollup formatWeekKey dailyMinutes;
     monthly := rollup formatMonthKey dailyMinutes;
     weekday := {| totalTime := weekdayTotal;
                   averageTime := average weekdayTotal (JsMap.size weekdayMinutes);
                   daysPresent := JsMap.size weekdayMinutes |};
     weekend := {| totalTime := weekendTotal;
                   averageTime := average weekendTotal (JsMap.size weekendMinutes);
                   daysPresent := JsMap.size weekendMinutes |};
     total := {| totalTime := totalTime;
                 averageTime := average totalTime (JsMap.size dailyMinutes);
                 daysPresent := JsMap.size dailyMinutes |} |}.

Definition calculatePeriodStats (records : list Record_) (startDate endDate : Date)
  : outcome PeriodStats :=
  dailyMinutes <- periodDailyMinutes records ;;
  Ret (periodRollup dailyMinutes).

(* ------------------------------------------------------------------ *)
(** ** [compareMembersStats] *)

Definition compareMembersStats (membersStats : JsMap.t string Stats)
  : list (string * Z) :=
  let result :=
    fold_left
      (fun result entry =>
         let '(memberId, stats) := entry in result ++ [(memberId, totalTime stats)])
      membersStats [] in
  sort (fun a b => snd b - snd a) result.


(* ------------------------------------------------------------------ *)
(** ** Notions the statements below are written with *)

(** The records [classify] keeps. *)
Definition isIn (record : Record_) : bool := String.eqb (type record) "in".
Definition isOut (record : Record_) : bool := String.eqb (type record) "out".

(** Minutes a map attributes to a day: [m.get(day) || 0]. *)
Definition minutesOn (m : JsMap.t DayKey Z) (day : DayKey) : Z :=
  orZero (JsMap.get m day).

(** [Math.round(ms / 60000)]: the nearest integer, a half rounded up. *)
Definition roundMinutes (ms : Z) : Z := (ms + 30000) / millisecondsInMinute.

(** The ['out'] records [calculatePeriodStats] books on [day]. *)
Definition bookedOn (day : DayKey) (record : Record_) : bool :=
  String.eqb (type record) "out" && truthy (duration record)
  && match formatDateKey (timestamp record) with
     | Ret key => keyEqb key day
     | _ => false
     end.

Definition sumDurations (records : list Record_) : Z :=
  fold_right (fun record acc => orZero (duration record) + acc) 0 records.

(** The daily mapping as the specification words it (section 3,
    DailyMinutes): the stay intervals of the interval reconstructor, each
    clipped to the 24 hours of the day. *)
Definition startOfDayKey (day : DayKey) : Z :=
  let '(y, m, d) := day in daysFromCivil y m d * millisecondsInDay.

Definition clippedMinutes (checkIn checkOut : Z) (day : DayKey) : Z :=
  let dayStart := startOfDayKey day in
  let dayEnd := dayStart + millisecondsInDay in
  Z.max 0 (Z.min checkOut dayEnd - Z.max checkIn dayStart) / millisecondsInMinute.

Definition stayIntervals (records : list Record_) : list (Z * Z) :=
  let '(inRecords, outRecords) := classify records in
  flat_map
    (fun outRecord =>
       match matchingInRecord inRecords outRecord with
       | Some inRecord =>
           match timestamp inRecord, timestamp outRecord with
           | ValidDate checkIn, ValidDate checkOut => [(checkIn, checkOut)]
           | _, _ => []
           end
       | None => []
       end)
    outRecords.

Definition specDailyMinutes (records : list Record_) (day : DayKey) : Z :=
  fold_right (fun stay acc => clippedMinutes (fst stay) (snd stay) day + acc) 0
    (stayIntervals records).

(** The invariant of a [Stats] value (section 3). *)
Definition statsInvariant (s : Stats) : Prop :=
  if (0 <? daysPresent s)%nat
  then (averageTime s == inject_Z (totalTime s) / inject_Z (Z.of_nat (daysPresent s)))%Q
  else (averageTime s == 0)%Q.

Definition allValues {K V : Type} (P : V -> Prop) (m : JsMap.t K V) : Prop :=
  Forall (fun entry => P (snd entry)) m.

Definition allStats (P : Stats -> Prop) (p : PeriodStats) : Prop :=
  allValues P (daily p) /\ allValues P (weekly p) /\ allValues P (monthly p)
  /\ P (weekday p) /\ P (weekend p) /\ P (total p).

(** The test of lines 217-218 on an entry of [dailyMinutes]. *)
Definition onWeekend (entry : DayKey * Z) : bool := isWeekend (parseISO (fst entry)).

(** The day key of a day number; 0001-01-01, the first day whose key no
    earlier day shares (the keys of year 0 and before repeat those of the
    years 1 and after, see [eraYear]). *)
Definition keyOfDay (day : Z) : DayKey :=
  let '(y, m, d) := civilFromDays day in (eraYear y, m, d).

Definition firstDayOfYear1 : Z := -719162.

Definition startOfYear1 : Z := firstDayOfYear1 * millisecondsInDay.

(** 10000-01-01, the first day whose key [parseISO] does not read, and the
    dates of the years 1 to 9999, 3652059 days in all. *)
Definition firstDayOfYear10000 : Z := 2932897.

Definition startOfYear10000 : Z := firstDayOfYear10000 * millisecondsInDay.

Definition fourDigitYear (date : Date) : Prop :=
  match date with
  | ValidDate time => startOfYear1 <= time < startOfYear10000
  | InvalidDate => False
  end.

Definition daysOfFourDigitYears : Z := 3652059.

(** A sum of integers the code computes exactly in whatever order and
    grouping: the absolute values add up to 2^53 at most. *)
Definition exactSum (values : list Z) : Prop :=
  fold_right (fun v acc => Z.abs v + acc) 0 values <= 2 ^ 53.

(** The keys of a map are keys of days from year 1 on and before [bound]. *)
Definition keysBefore (bound : Z) (m : JsMap.t DayKey Z) : Prop :=
  forall k, In k (JsMap.keys m) ->
    exists j, firstDayOfYear1 <= j < bound /\ k = keyOfDay j.

(** A check of the calendar functions over one 400-year cycle (146097 days). *)
Fixpoint allFrom (n : nat) (i : Z) (p : Z -> bool) : bool :=
  match n with
  | O => true
  | S n' => p i && allFrom n' (i + 1) p
  end.

Definition cycleCheck (i : Z) : bool :=
  let '(y, m, d) := civilFromDays (i - 719468) in
  (daysFromCivil y m d =? i - 719468) && (0 <=? y) && ((i <? 306) || (1 <=? y)).

Definition cycleCheckDate (i : Z) : bool :=
  let '(y, m, d) := civilFromDays (i - 719468) in
  validateDate y m d && (y <=? 400) && ((146037 <=? i) || (y <=? 399)).

(** Inputs of the runs below: a local date and time of day, and records. *)
Definition at_ (y m d hh mm ss ms : Z) : Z :=
  daysFromCivil y m d * millisecondsInDay
  + ((hh * 60 + mm) * 60 + ss) * 1000 + ms.

(** 1952-01-01 00:00: from here on the offset of the zone no longer changes
    (see the conventions), so that every local day has its 24 hours of
    elapsed time; the dates from then to the end of the year 9999. *)
Definition zoneSettled : Z := at_ 1952 1 1 0 0 0 0.

Definition settledDate (date : Date) : Prop :=
  match date with
  | ValidDate time => zoneSettled <= time < startOfYear10000
  | InvalidDate => False
  end.

Definition mkIn (time : Z) : Record_ :=
  {| id := ""; memberId := "m"; type := "in"; timestamp := ValidDate time;
     duration := None |}.

Definition mkOut (time : Z) (minutes : option Z) : Record_ :=
  {| id := ""; memberId := "m"; type := "out"; timestamp := ValidDate time;
     duration := minutes |}.

(** A stay from 23:00 to 01:00 of the next day, its duration stored. *)
Definition overnight : list Record_ :=
  [mkIn (at_ 2024 3 10 23 0 0 0); mkOut (at_ 2024 3 11 1 0 0 0) (Some 120)].

(** An ['out'] record whose timestamp is the Invalid Date. *)
Definition invalidOut : Record_ :=
  {| id := ""; memberId := "m"; type := "out"; timestamp := InvalidDate;
     duration := Some 5 |}.

Ltac zdiv := Z.div_mod_to_equations; lia.

(* ------------------------------------------------------------------ *)
(** ** [addRecord] and the records read back (the records module) *)

(** The document [addRecord] hands to [addDoc]: [timestamp] is the time
    value of the date given, [lastInRecord] the timestamp of the record
    [getLastInRecord] found, if it found one.  What the store does with the
    document is not modelled. *)
Record RecordDoc : Type := {
  docType : string;
  docTimestamp : Z;
  docMemberId : string;
  docDeleted : bool;
  docDuration : option Z;
  docInTimestamp : option Z
}.

Definition newRecordDoc (lastInRecord : option Z) (memberId type : string)
  (timestamp : Z) : RecordDoc :=
  let record :=
    {| docType := type; docTimestamp := timestamp; docMemberId := memberId;
       docDeleted := false; docDuration := None; docInTimestamp := None |} in
  if String.eqb type "out" then
    match lastInRecord with
    | Some lastIn =>
        let durationMinutes := roundMinutes (timestamp - lastIn) in
        {| docType := type; docTimestamp := timestamp; docMemberId := memberId;
           docDeleted := false; docDuration := Some (Z.max 0 durationMinutes);
           docInTimestamp := Some lastIn |}
    | None =>
        {| docType := type; docTimestamp := timestamp; docMemberId := memberId;
           docDeleted := false; docDuration := Some 0; docInTimestamp := None |}
    end
  else record.

(** The record [getRecordsForPeriod] makes of a document it read. *)
Definition toRecord (docId : string) (data : RecordDoc) : Record_ :=
  {| id := docId; memberId := docMemberId data; type := docType data;
     timestamp := ValidDate (docTimestamp data); duration := docDuration data |}.

(* ------------------------------------------------------------------ *)
(** ** Notions of the further statements *)

(** The [{name, totalTime}] pairs of the entries of a map, in its order. *)
Definition memberTotals (membersStats : JsMap.t string Stats) : list (string * Z) :=
  map (fun entry => (fst entry, totalTime (snd entry))) membersStats.

(** The comparison [(a, b) => key(b) - key(a)]. *)
Definition keyDesc {A : Type} (key : A -> Z) (a b : A) : Z := key b - key a.

(** [n] full days from day [first] on: 1440 minutes each. *)
Definition fullDays (first : Z) (n : nat) : JsMap.t DayKey Z :=
  map (fun i => (keyOfDay (first + Z.of_nat i), 1440)) (seq 0 n).

(** The split of a stay by calendar days, written out: the part of the
    first day up to 23:59:59.999, the full days in between, the part of the
    last day. *)
Definition calendarSplit (inTime outTime : Z) : JsMap.t DayKey Z :=
  let first := dayNumber inTime in
  let last := dayNumber outTime in
  if first =? last then [(keyOfDay first, (outTime - inTime) / millisecondsInMinute)]
  else
    (keyOfDay first,
     (millisecondsInDay - 1 - inTime mod millisecondsInDay) / millisecondsInMinute)
    :: fullDays (first + 1) (Z.to_nat (last - first - 1))
    ++ [(keyOfDay last, (outTime mod millisecondsInDay) / millisecondsInMinute)].

Definition nonNegative (v : Z) : Prop := 0 <= v.

Definition minutesOfADay (v : Z) : Prop := 0 <= v <= 1440.

Definition durationsNonNegative (records : list Record_) : Prop :=
  forall r d, In r records -> duration r = Some d -> 0 <= d.

(** [dailyMinutes.set(day, (dailyMinutes.get(day) || 0) + minutes)] for an
    entry [(day, minutes)]. *)
Definition addEntry (dailyMinutes : JsMap.t DayKey Z) (entry : DayKey * Z)
  : JsMap.t DayKey Z :=
  addMinutes dailyMinutes (fst entry) (snd entry).

(** What one ['out'] record adds to the daily mapping of [calculateStats],
    and what all of them add, in their order. *)
Definition contributions (fuel : nat) (inRecords : list Record_) (outRecord : Record_)
  : outcome (list (DayKey * Z)) :=
  if negb (truthy (duration outRecord)) then Ret []
  else
    match matchingInRecord inRecords outRecord with
    | Some matching =>
        splitStayByDays fuel (timestamp matching) (timestamp outRecord)
    | None =>
        day <- formatDateKey (timestamp outRecord) ;;
        Ret [(day, orZero (duration outRecord))]
    end.

Fixpoint allContributions (fuel : nat) (inRecords outRecords : list Record_)
  : outcome (list (DayKey * Z)) :=
  match outRecords with
  | [] => Ret []
  | outRecord :: rest =>
      c <- contributions fuel inRecords outRecord ;;
      cs <- allContributions fuel inRecords rest ;;
      Ret (c ++ cs)
  end.

(** The records [calculatePeriodStats] reads, and the step of its
    [records.forEach]. *)
Definition counted (record : Record_) : bool :=
  isOut record && truthy (duration record).

Definition periodStep (dailyMinutes : JsMap.t DayKey Z) (record : Record_)
  : outcome (JsMap.t DayKey Z) :=
  if String.eqb (type record) "out" && truthy (duration record) then
    day <- formatDateKey (timestamp record) ;;
    Ret (addMinutes dailyMinutes day (orZero (duration record)))
  else Ret dailyMinutes.

(** The days of a daily mapping whose key [parseISO] reads (a day that
    exists, of a year of at most four digits). *)
Definition parses (entry : DayKey * Z) : bool :=
  match parseISO (fst entry) with
  | ValidDate _ => true
  | InvalidDate => false
  end.

(** The days of a daily mapping that [formatKey] puts in group [g]; a day
    whose key does not parse is in no group. *)
Definition inGroup {G : Type} `{Key G} (formatKey : Date -> outcome G) (g : G)
  (entry : DayKey * Z) : bool :=
  match formatKey (parseISO (fst entry)) with
  | Ret g' => keyEqb g' g
  | _ => false
  end.

Definition groupDaysOf {G : Type} `{Key G} (formatKey : Date -> outcome G) (g : G)
  (dailyMinutes : JsMap.t DayKey Z) : JsMap.t DayKey Z :=
  filter (inGroup formatKey g) dailyMinutes.

(** The statistics of a group of days: nothing for no day. *)
Definition groupStats (days : JsMap.t DayKey Z) : option Stats :=
  match days with
  | [] => None
  | _ => Some {| totalTime := sumMinutes days;
                 averageTime := average (sumMinutes days) (length days);
                 daysPresent := length days |}
  end.

(** The state of the loop of lines 166-176 after the days [seen]. *)
Definition groupState {G : Type} `{Key G} (formatKey : Date -> outcome G)
  (seen : JsMap.t DayKey Z) (st : JsMap.t G Z * JsMap.t G (JsSet.t DayKey)) : Prop :=
  NoDup (JsMap.keys (fst st))
  /\ forall g,
       JsMap.get (fst st) g
       = match groupDaysOf formatKey g seen with
         | [] => None
         | days => Some (sumMinutes days)
         end
       /\ JsMap.get (snd st) g
          = match groupDaysOf formatKey g seen with
            | [] => None
            | days => Some (JsMap.keys days)
            end.

(** Sums over the entries of a map of statistics. *)
Definition sumTotalTime {K : Type} (m : JsMap.t K Stats) : Z :=
  fold_right (fun entry acc => totalTime (snd entry) + acc) 0 m.

Definition sumDaysPresent {K : Type} (m : JsMap.t K Stats) : nat :=
  fold_right (fun entry acc => (daysPresent (snd entry) + acc)%nat) O m.

(* ================================================================== *)
(** * Runs of the model *)

Example civil_epoch : civilFromDays 0 = (1970, 1, 1).
Proof. reflexivity. Qed.

Example year_bounds :
  daysFromCivil 1 1 1 = firstDayOfYear1
  /\ daysFromCivil 10000 1 1 = firstDayOfYear10000
  /\ firstDayOfYear10000 - firstDayOfYear1 = daysOfFourDigitYears
  /\ dayKey zoneSettled = (1952, 1, 1).
Proof. repeat split. Qed.

Example dayKey_2024 : dayKey (at_ 2024 3 10 23 0 0 0) = (2024, 3, 10).
Proof. reflexivity. Qed.

Example dayKey_1bc_repeats :
  dayKey (at_ 0 6 1 12 0 0 0) = dayKey (at_ 1 6 1 12 0 0 0).
Proof. reflexivity. Qed.

Example weekKey_jan1 :
  formatWeekKey (ValidDate (at_ 2024 1 1 0 0 0 0)) = Ret (2024, 1).
Proof. reflexivity. Qed.

Example weekKey_jun :
  formatWeekKey (ValidDate (at_ 2025 6 15 0 0 0 0)) = Ret (2025, 25).
Proof. reflexivity. Qed.

Example weekend_saturday : isWeekend (ValidDate (at_ 2024 3 9 12 0 0 0)) = true.
Proof. reflexivity. Qed.

Example parseISO_roundtrip :
  formatDateKey (parseISO (2024, 3, 10)) = Ret (2024, 3, 10).
Proof. reflexivity. Qed.

Example stats_overnight :
  calculateStats 5 overnight
  = Ret {| totalTime := 119; averageTime := 119 # 2; daysPresent := 2 |}.
Proof. reflexivity. Qed.

Example period_overnight :
  calculatePeriodStats overnight InvalidDate InvalidDate
  = Ret {| daily := [((2024, 3, 11),
                      {| totalTime := 120; averageTime := 120 # 1; daysPresent := 1 |})];
           weekly := [((2024, 11),
                       {| totalTime := 120; averageTime := 120 # 1; daysPresent := 1 |})];
           monthly := [((2024, 3),
                        {| totalTime := 120; averageTime := 120 # 1; daysPresent := 1 |})];
           weekday := {| totalTime := 120; averageTime := 120 # 1; daysPresent := 1 |};
           weekend := zeroStats;
           total := {| totalTime := 120; averageTime := 120 # 1; daysPresent := 1 |} |}.
Proof. reflexivity. Qed.

Example compare_example :
  compareMembersStats
    [("A"%string, {| totalTime := 120; averageTime := 0; daysPresent := 1 |});
     ("B"%string, {| totalTime := 300; averageTime := 0; daysPresent := 1 |});
     ("C"%string, {| totalTime := 300; averageTime := 0; daysPresent := 1 |})]
  = [("B"%string, 300); ("C"%string, 300); ("A"%string, 120)].
Proof. reflexivity. Qed.

Example five_digit_year :
  calculatePeriodStats [mkOut (at_ 10000 1 1 10 0 0 0) (Some 30)]
    InvalidDate InvalidDate
  = Ret {| daily := [((10000, 1, 1),
                      {| totalTime := 30; averageTime := 30 # 1; daysPresent := 1 |})];
           weekly := [];
           monthly := [];
           weekday := {| totalTime := 30; averageTime := 30 # 1; daysPresent := 1 |};
           weekend := zeroStats;
           total := {| totalTime := 30; averageTime := 30 # 1; daysPresent := 1 |} |}
  /\ getDay (dayNumber (at_ 10000 1 1 10 0 0 0)) = 6.
Proof. split; reflexivity. Qed.

(** Before year 1 the keys repeat ([yyyy] prints the year of the era): a
    stay from 1 May of 2 BC to 3 May of 2 AD, three years long, has the keys
    of a stay of two days, and the loop stops on the first 3 May. *)
Example split_before_year1 :
  splitStayByDays 5 (ValidDate (at_ (-1) 5 1 12 0 0 0))
                    (ValidDate (at_ 2 5 3 12 0 0 0))
  = Ret [((2, 5, 1), 719); ((2, 5, 2), 1440); ((2, 5, 3), 720)].
Proof. reflexivity. Qed.

(** 29 February of 9 BC prints as 0009-02-29, a day the year 9 does not
    have: [parseISO] gives the Invalid Date, and the day counts as a
    weekday and in no week and no month. *)
Example leap_day_before_year1 :
  dayKey (at_ (-8) 2 29 10 0 0 0) = (9, 2, 29)
  /\ parseISO (9, 2, 29) = InvalidDate
  /\ calculatePeriodStats [mkOut (at_ (-8) 2 29 10 0 0 0) (Some 30)]
       InvalidDate InvalidDate
     = Ret {| daily := [((9, 2, 29),
                         {| totalTime := 30; averageTime := 30 # 1; daysPresent := 1 |})];
              weekly := [];
              monthly := [];
              weekday := {| totalTime := 30; averageTime := 30 # 1; daysPresent := 1 |};
              weekend := zeroStats;
              total := {| totalTime := 30; averageTime := 30 # 1; daysPresent := 1 |} |}.
Proof. repeat split. Qed.

Example addRecord_overnight :
  newRecordDoc (Some (at_ 2024 3 10 23 0 0 0)) "m" "out" (at_ 2024 3 11 1 0 0 0)
  = {| docType := "out"; docTimestamp := at_ 2024 3 11 1 0 0 0; docMemberId := "m";
       docDeleted := false; docDuration := Some 120;
       docInTimestamp := Some (at_ 2024 3 10 23 0 0 0) |}.
Proof. reflexivity. Qed.

(* ================================================================== *)
(** * Lemmas *)

(* ------------------------------------------------------------------ *)
(** ** Calendar: one cycle checked, then shifted *)

Lemma allFrom_spec n : forall i p, allFrom n i p = true ->
  forall j, i <= j < i + Z.of_nat n -> p j = true.
Proof.
  induction n as [|n IH]; simpl; intros i p Hall j Hj; [lia|].
  apply andb_true_iff in Hall as [Hn Hrest].
  destruct (Z.eq_dec j i) as [->|Hne]; [assumption|].
  apply (IH (i + 1) p Hrest). lia.
Qed.

Lemma cycle_checked : allFrom (Z.to_nat 146097) 0 cycleCheck = true.
Proof. vm_cast_no_check (eq_refl true). Qed.

Lemma civilFromDays_shift z e :
  civilFromDays (z + e * 146097) =
  let '(y, m, d) := civilFromDays z in (y + 400 * e, m, d).
Proof.
  unfold civilFromDays.
  replace (z + e * 146097 + 719468) with (z + 719468 + e * 146097) by lia.
  rewrite Z.div_add by lia.
  set (era := (z + 719468) / 146097).
  replace (z + 719468 + e * 146097 - (era + e) * 146097)
    with (z + 719468 - era * 146097) by lia.
  cbv zeta.
  match goal with |- context [if ?c then _ else _] => destruct c end;
    f_equal; f_equal; lia.
Qed.

Lemma daysFromCivil_shift y m d e :
  daysFromCivil (y + 400 * e) m d = daysFromCivil y m d + e * 146097.
Proof.
  unfold daysFromCivil. cbv zeta.
  assert (E : (if m <=? 2 then y + 400 * e - 1 else y + 400 * e)
              = (if m <=? 2 then y - 1 else y) + e * 400)
    by (destruct (m <=? 2); lia).
  rewrite E. set (y' := if m <=? 2 then y - 1 else y).
  rewrite Z.div_add by lia.
  replace (y' + e * 400 - (y' / 400 + e) * 400) with (y' - y' / 400 * 400) by lia.
  lia.
Qed.

Lemma cycle_spec i : 0 <= i < 146097 -> cycleCheck i = true.
Proof.
  intros Hi. eapply allFrom_spec; [exact cycle_checked|lia].
Qed.

Lemma civil_decompose z :
  exists i e, 0 <= i < 146097 /\ z = (i - 719468) + e * 146097
              /\ (firstDayOfYear1 <= z -> 0 <= e /\ (e = 0 -> 306 <= i)).
Proof.
  exists ((z + 719468) mod 146097), ((z + 719468) / 146097).
  pose proof (Z.mod_pos_bound (z + 719468) 146097 ltac:(lia)).
  pose proof (Z.div_mod (z + 719468) 146097 ltac:(lia)).
  unfold firstDayOfYear1. repeat split; lia.
Qed.

Lemma daysFromCivil_civilFromDays z :
  let '(y, m, d) := civilFromDays z in daysFromCivil y m d = z.
Proof.
  destruct (civil_decompose z) as (i & e & Hi & -> & _).
  rewrite civilFromDays_shift.
  pose proof (cycle_spec Hi) as Hc. unfold cycleCheck in Hc.
  destruct (civilFromDays (i - 719468)) as [[y m] d].
  rewrite daysFromCivil_shift.
  rewrite !andb_true_iff in Hc. destruct Hc as [[Hc _] _].
  apply Z.eqb_eq in Hc. lia.
Qed.

Lemma year_positive z :
  firstDayOfYear1 <= z -> 1 <= fst (fst (civilFromDays z)).
Proof.
  intros Hz. destruct (civil_decompose z) as (i & e & Hi & Ez & He).
  destruct (He Hz) as [He0 He1]. subst z. rewrite civilFromDays_shift.
  pose proof (cycle_spec Hi) as Hc. unfold cycleCheck in Hc.
  destruct (civilFromDays (i - 719468)) as [[y m] d]. cbn [fst].
  rewrite !andb_true_iff, orb_true_iff in Hc. destruct Hc as [[_ Hy] Hy1].
  apply Z.leb_le in Hy.
  destruct (Z.eq_dec e 0) as [E0|E0].
  - specialize (He1 E0).
    destruct Hy1 as [Hlt|Hle]; [apply Z.ltb_lt in Hlt; lia|apply Z.leb_le in Hle; lia].
  - lia.
Qed.

Lemma dayKey_keyOfDay t : dayKey t = keyOfDay (dayNumber t).
Proof. reflexivity. Qed.

Lemma keyOfDay_inj a b :
  firstDayOfYear1 <= a -> firstDayOfYear1 <= b -> keyOfDay a = keyOfDay b -> a = b.
Proof.
  intros Ha Hb E. unfold keyOfDay in E.
  pose proof (year_positive Ha) as Ya. pose proof (year_positive Hb) as Yb.
  pose proof (daysFromCivil_civilFromDays a) as Ra.
  pose proof (daysFromCivil_civilFromDays b) as Rb.
  destruct (civilFromDays a) as [[ya ma] da], (civilFromDays b) as [[yb mb] db].
  simpl in Ya, Yb. unfold eraYear in E.
  destruct (0 <? ya) eqn:Pa; [|apply Z.ltb_ge in Pa; lia].
  destruct (0 <? yb) eqn:Pb; [|apply Z.ltb_ge in Pb; lia].
  inversion E; subst. reflexivity.
Qed.

(* ------------------------------------------------------------------ *)
(** ** Maps, sums and the loop of [splitStayByDays] *)

Section KeyFacts.
Context {K : Type} `{Key K}.

Lemma keyEqb_refl (k : K) : keyEqb k k = true.
Proof. apply keyEqb_spec. reflexivity. Qed.

Lemma keyEqb_neq (a b : K) : a <> b -> keyEqb a b = false.
Proof.
    intros Hne. destruct (keyEqb a b) eqn:E; [|reflexivity].
    apply keyEqb_spec in E. contradiction.
Qed.

Lemma keyEqb_false (a b : K) : keyEqb a b = false -> a <> b.
Proof.
    intros E ->. rewrite keyEqb_refl in E. discriminate.
Qed.
End KeyFacts.

Section JsMapFacts.
Context {K V : Type} `{Key K}.
Implicit Types (m : JsMap.t K V) (k : K) (v : V).

Lemma get_set_same m k v : JsMap.get (JsMap.set m k v) k = Some v.
Proof.
    induction m as [|[k' v'] m IH]; simpl.
    - rewrite keyEqb_refl. reflexivity.
    - destruct (keyEqb k' k) eqn:E; simpl; rewrite E; auto.
Qed.

Lemma get_set_other m k k' v :
    k <> k' -> JsMap.get (JsMap.set m k v) k' = JsMap.get m k'.
Proof.
    intros Hne. induction m as [|[k0 v0] m IH]; simpl.
    - rewrite (keyEqb_neq Hne). reflexivity.
    - destruct (keyEqb k0 k) eqn:E; simpl.
      + apply keyEqb_spec in E. subst k0. rewrite (keyEqb_neq Hne). reflexivity.
      + destruct (keyEqb k0 k'); auto.
Qed.

Lemma get_None_keys m k : JsMap.get m k = None <-> ~ In k (JsMap.keys m).
Proof.
    induction m as [|[k' v'] m IH]; simpl.
    - tauto.
    - destruct (keyEqb k' k) eqn:E.
      + apply keyEqb_spec in E. split; [discriminate|]. intros Hn. exfalso. auto.
      + apply keyEqb_false in E. rewrite IH. tauto.
Qed.

Lemma set_fresh m k v : JsMap.get m k = None -> JsMap.set m k v = m ++ [(k, v)].
Proof.
    induction m as [|[k' v'] m IH]; simpl; [reflexivity|].
    destruct (keyEqb k' k); [discriminate|]. intros E. rewrite IH; auto.
Qed.

Lemma set_present m k v :
    JsMap.get m k <> None -> JsMap.keys (JsMap.set m k v) = JsMap.keys m.
Proof.
    induction m as [|[k' v'] m IH]; simpl; [congruence|].
    destruct (keyEqb k' k); simpl; [reflexivity|].
    intros E. rewrite IH; auto.
Qed.

Lemma keys_set m k v :
    JsMap.keys (JsMap.set m k v)
    = if JsMap.has m k then JsMap.keys m else JsMap.keys m ++ [k].
Proof.
    unfold JsMap.has. destruct (JsMap.get m k) eqn:E.
    - apply set_present. congruence.
    - rewrite set_fresh by assumption. unfold JsMap.keys. rewrite map_app. reflexivity.
Qed.

Lemma NoDup_keys_set m k v :
    NoDup (JsMap.keys m) -> NoDup (JsMap.keys (JsMap.set m k v)).
Proof.
    intros Hnd. rewrite keys_set. unfold JsMap.has.
    destruct (JsMap.get m k) eqn:E; [assumption|].
    apply get_None_keys in E.
    apply NoDup_rev in Hnd. rewrite <- (rev_involutive (_ ++ _)).
    apply NoDup_rev. rewrite rev_app_distr. simpl. constructor; [|assumption].
    rewrite <- in_rev. assumption.
Qed.
End JsMapFacts.

Section SumFacts.
Context {K : Type} `{Key K}.
Implicit Types (m : JsMap.t K Z) (k : K).

Lemma fold_sum (l : list (K * Z)) : forall a,
    fold_left (fun acc entry => acc + snd entry) l a = a + sumMinutes l.
Proof.
    unfold sumMinutes. induction l as [|e l IH]; simpl; intros a; [lia|].
    rewrite IH, (IH (snd e)). lia.
Qed.

Lemma sumMinutes_app m1 m2 : sumMinutes (m1 ++ m2) = sumMinutes m1 + sumMinutes m2.
Proof.
    unfold sumMinutes at 1. rewrite fold_left_app, fold_sum. reflexivity.
Qed.

Lemma sumMinutes_cons e (m : list (K * Z)) : sumMinutes (e :: m) = snd e + sumMinutes m.
Proof. apply (sumMinutes_app [e] m). Qed.

Lemma sumMinutes_set m k v :
    sumMinutes (JsMap.set m k v) = sumMinutes m - orZero (JsMap.get m k) + v.
Proof.
    induction m as [|[k' v'] m IH]; simpl.
    - unfold sumMinutes. simpl. lia.
    - destruct (keyEqb k' k); rewrite !sumMinutes_cons; simpl; [lia|].
      rewrite IH. lia.
Qed.

Lemma sumMinutes_addMinutes m k x :
    sumMinutes (addMinutes m k x) = sumMinutes m + x.
Proof. unfold addMinutes. rewrite sumMinutes_set. lia. Qed.
End SumFacts.

(** Days and keys. *)
Lemma dayNumber_addDays t n : dayNumber (addDays t n) = dayNumber t + n.
Proof. unfold dayNumber, addDays, millisecondsInDay. rewrite Z.div_add by lia. reflexivity. Qed.

Lemma addDays_addDays t a b : addDays (addDays t a) b = addDays t (a + b).
Proof. unfold addDays. lia. Qed.

Lemma dayNumber_mono a b : a <= b -> dayNumber a <= dayNumber b.
Proof. intros. unfold dayNumber, millisecondsInDay. apply Z.div_le_mono; lia. Qed.

Lemma dayKey_same_day a b : dayNumber a = dayNumber b -> keyEqb (dayKey a) (dayKey b) = true.
Proof. intros E. rewrite !dayKey_keyOfDay, E. apply keyEqb_refl. Qed.

Lemma dayKey_other_day a b :
  keyEqb (dayKey a) (dayKey b) = false -> dayNumber a <> dayNumber b.
Proof. intros E E'. rewrite (dayKey_same_day _ _ E') in E. discriminate. Qed.

Lemma keysBefore_fresh bound m day :
  keysBefore bound m -> firstDayOfYear1 <= day -> bound <= day ->
  JsMap.get m (keyOfDay day) = None.
Proof.
  intros Hk Hd Hb. apply get_None_keys. intros Hin.
  destruct (Hk _ Hin) as (j & Hj & E).
  apply keyOfDay_inj in E; lia.
Qed.

Lemma keysBefore_set bound m day v :
  keysBefore bound m -> firstDayOfYear1 <= day -> bound <= day ->
  keysBefore (day + 1) (JsMap.set m (keyOfDay day) v).
Proof.
  intros Hk Hd Hb k Hin.
  rewrite set_fresh in Hin by (eapply keysBefore_fresh; eauto).
  unfold JsMap.keys in Hin. rewrite map_app in Hin. apply in_app_or in Hin.
  destruct Hin as [Hin|[<-|[]]].
  - destruct (Hk _ Hin) as (j & Hj & E). exists j. split; [lia|assumption].
  - exists day. split; [lia|reflexivity].
Qed.

Lemma splitLoop_eq fuel currentDay outTime result :
  splitLoop fuel currentDay outTime result =
  if keyEqb (dayKey currentDay) (dayKey outTime) then Ret (currentDay, result)
  else
    match fuel with
    | O => OutOfFuel
    | S fuel' =>
        splitLoop fuel' (addDays currentDay 1) outTime
          (JsMap.set result (dayKey currentDay) 1440)
    end.
Proof. destruct fuel; reflexivity. Qed.

Lemma splitLoop_run n : forall fuel currentDay outTime result,
  firstDayOfYear1 <= dayNumber currentDay ->
  dayNumber outTime = dayNumber currentDay + Z.of_nat n ->
  (n <= fuel)%nat ->
  keysBefore (dayNumber currentDay) result ->
  exists currentDay' result',
    splitLoop fuel currentDay outTime result = Ret (currentDay', result')
    /\ dayNumber currentDay' = dayNumber outTime
    /\ sumMinutes result' = sumMinutes result + 1440 * Z.of_nat n
    /\ keysBefore (dayNumber outTime) result'.
Proof.
  induction n as [|n IH]; intros fuel cur out result Hce Hday Hfuel Hkeys.
  - exists cur, result.
    assert (E : dayNumber cur = dayNumber out) by lia.
    rewrite splitLoop_eq, (dayKey_same_day _ _ E). repeat split; auto; try lia.
    rewrite <- E; assumption.
  - destruct fuel as [|fuel]; [lia|].
    assert (Hne : keyEqb (dayKey cur) (dayKey out) = false).
    { apply keyEqb_neq. rewrite !dayKey_keyOfDay. intros E.
      apply keyOfDay_inj in E; lia. }
    rewrite splitLoop_eq, Hne.
    destruct (IH fuel (addDays cur 1) out (JsMap.set result (dayKey cur) 1440))
      as (cur' & result' & Hrun & Hd' & Hsum & Hk').
    + rewrite dayNumber_addDays. lia.
    + rewrite dayNumber_addDays. lia.
    + lia.
    + rewrite dayNumber_addDays, dayKey_keyOfDay.
      apply keysBefore_set with (bound := dayNumber cur); auto; lia.
    + exists cur', result'. repeat split; auto.
      rewrite Hsum, sumMinutes_set, dayKey_keyOfDay.
      rewrite (keysBefore_fresh (bound := dayNumber cur)); auto; try lia.
      cbn [orZero]. lia.
Qed.

(* ------------------------------------------------------------------ *)
(** ** The sum of a split *)

Lemma keysBefore_singleton day v :
  firstDayOfYear1 <= day -> keysBefore (day + 1) [(keyOfDay day, v)].
Proof.
  intros Hd k [<-|[]]. exists day. split; [lia|reflexivity].
Qed.

Lemma dayNumber_startOfYear1 t : startOfYear1 <= t <-> firstDayOfYear1 <= dayNumber t.
Proof.
  unfold startOfYear1, dayNumber, firstDayOfYear1, millisecondsInDay. zdiv.
Qed.

Lemma differenceInMinutes_nonneg later earlier :
  earlier <= later ->
  differenceInMinutes later earlier = (later - earlier) / millisecondsInMinute.
Proof.
  intros Hle. unfold differenceInMinutes, millisecondsInMinute.
  apply Z.quot_div_nonneg; lia.
Qed.

(** The sum of the split of a stay that starts in year 1 or later. *)
Lemma splitStayByDays_sum inTime outTime :
  startOfYear1 <= inTime -> inTime < outTime ->
  forall fuel, (Z.to_nat (dayNumber outTime - dayNumber inTime) <= fuel)%nat ->
  exists m,
    splitStayByDays fuel (ValidDate inTime) (ValidDate outTime) = Ret m
    /\ roundMinutes (outTime - inTime) - 2 <= sumMinutes m
       <= roundMinutes (outTime - inTime).
Proof.
  intros Hce Hlt fuel Hfuel.
  pose proof (proj1 (dayNumber_startOfYear1 inTime) Hce) as Hce'.
  pose proof (dayNumber_mono (a := inTime) (b := outTime) ltac:(lia)) as Hmono.
  unfold splitStayByDays.
  destruct (keyEqb (dayKey inTime) (dayKey outTime)) eqn:Esame.
  - eexists. split; [reflexivity|].
    cbn [JsMap.set JsMap.empty]. unfold sumMinutes. cbn [fold_left snd].
    rewrite differenceInMinutes_nonneg by lia.
    unfold roundMinutes, millisecondsInMinute. zdiv.
  - pose proof (dayKey_other_day _ _ Esame) as Hne.
    set (n := Z.to_nat (dayNumber outTime - dayNumber inTime - 1)).
    destruct (@splitLoop_run n fuel (addDays inTime 1) outTime
                (JsMap.set JsMap.empty (dayKey inTime)
                   (differenceInMinutes (endOfDay inTime) inTime)))
      as (cur' & result' & Hrun & Hd' & Hsum & Hk').
    + rewrite dayNumber_addDays. lia.
    + rewrite dayNumber_addDays. lia.
    + lia.
    + rewrite dayNumber_addDays, dayKey_keyOfDay. cbn [JsMap.set JsMap.empty].
      apply keysBefore_singleton. assumption.
    + rewrite Hrun. cbn [bind]. rewrite (dayKey_same_day _ _ Hd').
      eexists. split; [reflexivity|].
      rewrite sumMinutes_set, dayKey_keyOfDay, Hd'.
      rewrite (keysBefore_fresh (bound := dayNumber outTime)); auto; try lia.
      rewrite Hsum. cbn [JsMap.set JsMap.empty orZero].
      unfold sumMinutes. cbn [fold_left snd].
      assert (Ha : 0 <= inTime mod millisecondsInDay < millisecondsInDay)
        by (apply Z.mod_pos_bound; reflexivity).
      assert (Hb : 0 <= outTime mod millisecondsInDay < millisecondsInDay)
        by (apply Z.mod_pos_bound; reflexivity).
      rewrite !differenceInMinutes_nonneg
        by (unfold endOfDay, startOfDay; lia).
      unfold endOfDay, startOfDay, roundMinutes.
      replace (Z.of_nat n) with (dayNumber outTime - dayNumber inTime - 1) by lia.
      unfold dayNumber, millisecondsInDay, millisecondsInMinute in *.
      zdiv.
Qed.

(* ------------------------------------------------------------------ *)
(** ** Matching and termination *)

Lemma classify_filter records :
  classify records = (filter isIn records, filter isOut records).
Proof.
  unfold classify.
  enough (G : forall l a b,
    fold_left
      (fun acc record =>
         let '(inRecords, outRecords) := acc in
         if String.eqb (type record) "in" then (inRecords ++ [record], outRecords)
         else if String.eqb (type record) "out" then (inRecords, outRecords ++ [record])
         else (inRecords, outRecords)) l (a, b)
    = (a ++ filter isIn l, b ++ filter isOut l)) by apply (G records [] []).
  induction l as [|r l IH]; intros a b; simpl.
  - rewrite !app_nil_r. reflexivity.
  - unfold isIn, isOut.
    destruct (String.eqb (type r) "in") eqn:Ein.
    + apply String.eqb_eq in Ein. rewrite Ein. simpl.
      rewrite IH, <- app_assoc. reflexivity.
    + destruct (String.eqb (type r) "out") eqn:Eout; rewrite IH.
      * rewrite <- app_assoc. reflexivity.
      * reflexivity.
Qed.

Section SortFacts.
Context {A : Type} (compareFn : A -> A -> Z).

Lemma in_insertSorted x a l : In x (insertSorted compareFn a l) <-> x = a \/ In x l.
Proof.
    induction l as [|y l IH]; simpl.
    - intuition congruence.
    - destruct (compareFn a y <=? 0); simpl; [intuition congruence|].
      rewrite IH. intuition congruence.
Qed.

Lemma in_sort x l : In x (sort compareFn l) <-> In x l.
Proof.
    induction l as [|y l IH]; simpl; [tauto|].
    rewrite in_insertSorted, IH. intuition congruence.
Qed.

Lemma sort_nil l : sort compareFn l = [] -> l = [].
Proof.
    destruct l as [|y l]; [reflexivity|]. intros E.
    assert (Hin : In y (sort compareFn (y :: l))) by (apply in_sort; left; reflexivity).
    rewrite E in Hin. destruct Hin.
Qed.

Lemma hd_insertSorted a l :
    hd_error (insertSorted compareFn a l)
    = match hd_error l with
      | Some y => if compareFn a y <=? 0 then Some a else Some y
      | None => Some a
      end.
Proof.
    destruct l as [|y l]; simpl; [reflexivity|].
    destruct (compareFn a y <=? 0); reflexivity.
Qed.
End SortFacts.

(** The head of a list of valid records sorted by descending time is one of
    the latest. *)
Lemma isBefore_true a b :
  isBefore a b = true <-> exists ta tb, a = ValidDate ta /\ b = ValidDate tb /\ ta < tb.
Proof.
  destruct a as [ta|], b as [tb|]; simpl; split.
  - intros E. apply Z.ltb_lt in E. eauto.
  - intros (ta' & tb' & Ea & Eb & Hlt). inversion Ea; inversion Eb; subst.
    apply Z.ltb_lt. assumption.
  - discriminate.
  - intros (? & ? & _ & E & _). discriminate.
  - discriminate.
  - intros (? & ? & E & _). discriminate.
  - discriminate.
  - intros (? & ? & E & _). discriminate.
Qed.

Lemma hd_sort_latest l :
  Forall (fun r => timestamp r <> InvalidDate) l ->
  forall m, hd_error (sort byTimeDesc l) = Some m ->
  forall r, In r l -> isBefore (timestamp m) (timestamp r) = false.
Proof.
  induction l as [|a l IH]; intros Hvalid m Hm r Hr; [destruct Hr|].
  inversion Hvalid as [|? ? Ha Hl]; subst.
  simpl in Hm. rewrite hd_insertSorted in Hm.
  assert (Hvm : forall x, In x (a :: l) -> exists t, timestamp x = ValidDate t).
  { intros x Hx. rewrite Forall_forall in Hvalid. specialize (Hvalid x Hx).
    destruct (timestamp x) as [t|]; [eauto|congruence]. }
  destruct (Hvm r Hr) as [tr Er].
  destruct (Hvm a (or_introl eq_refl)) as [ta Ea].
  destruct (hd_error (sort byTimeDesc l)) as [y|] eqn:Ehd.
  - assert (Hy : In y l).
    { apply (in_sort byTimeDesc). destruct (sort byTimeDesc l); inversion Ehd; subst.
      left; reflexivity. }
    destruct (Hvm y (or_intror Hy)) as [ty Ey].
    assert (Hyr : forall x, In x l -> isBefore (timestamp y) (timestamp x) = false)
      by (apply IH; auto).
    unfold byTimeDesc in Hm. rewrite Ey, Ea in Hm.
    destruct (ty - ta <=? 0) eqn:Ecmp; inversion Hm; subst m.
    + apply Z.leb_le in Ecmp. rewrite Ea, Er. simpl. apply Z.ltb_ge.
      destruct Hr as [<-|Hr].
      * rewrite Ea in Er. inversion Er. lia.
      * specialize (Hyr r Hr). rewrite Ey, Er in Hyr. simpl in Hyr.
        apply Z.ltb_ge in Hyr. lia.
    + apply Z.leb_gt in Ecmp. destruct Hr as [<-|Hr]; [|apply Hyr; assumption].
      rewrite Ey, Ea. simpl. apply Z.ltb_ge. lia.
  - inversion Hm; subst m.
    assert (El : l = []).
    { apply (sort_nil byTimeDesc). destruct (sort byTimeDesc l); [reflexivity|discriminate]. }
    subst l. destruct Hr as [<-|[]]. rewrite Ea. simpl. apply Z.ltb_irrefl.
Qed.

Lemma matchingInRecord_Some inRecords outRecord m :
  matchingInRecord inRecords outRecord = Some m ->
  In m inRecords
  /\ isBefore (timestamp m) (timestamp outRecord) = true
  /\ forall r, In r inRecords ->
       isBefore (timestamp r) (timestamp outRecord) = true ->
       isBefore (timestamp m) (timestamp r) = false.
Proof.
  unfold matchingInRecord. intros Hm.
  set (earlier := filter (fun inRecord => isBefore (timestamp inRecord) (timestamp outRecord))
                    inRecords) in *.
  assert (Hin : In m earlier).
  { apply (in_sort byTimeDesc). destruct (sort byTimeDesc earlier); inversion Hm; subst.
    left; reflexivity. }
  apply filter_In in Hin as [Hin Hb].
  repeat split; auto.
  intros r Hr Hrb. apply (@hd_sort_latest earlier); auto.
  - apply Forall_forall. intros x Hx. apply filter_In in Hx as [_ Hx].
    apply isBefore_true in Hx as (tx & _ & Ex & _). congruence.
  - apply filter_In. auto.
Qed.

Lemma matchingInRecord_None inRecords outRecord :
  matchingInRecord inRecords outRecord = None <->
  forall r, In r inRecords -> isBefore (timestamp r) (timestamp outRecord) = false.
Proof.
  unfold matchingInRecord.
  set (earlier := filter (fun inRecord => isBefore (timestamp inRecord) (timestamp outRecord))
                    inRecords).
  split.
  - intros Hn r Hr.
    assert (El : earlier = []).
    { apply (sort_nil byTimeDesc). destruct (sort byTimeDesc earlier); [reflexivity|discriminate]. }
    destruct (isBefore (timestamp r) (timestamp outRecord)) eqn:E; [|reflexivity].
    assert (Hin : In r earlier) by (apply filter_In; auto).
    rewrite El in Hin. destruct Hin.
  - intros Hall.
    assert (El : earlier = []).
    { destruct earlier as [|x l] eqn:E; [reflexivity|].
      assert (Hx : In x earlier) by (rewrite E; left; reflexivity).
      apply filter_In in Hx as [Hx Hb]. rewrite (Hall x Hx) in Hb. discriminate. }
    rewrite El. reflexivity.
Qed.

(** Termination of the loop: a step per day up to the day of the check-out. *)
Lemma splitLoop_terminates n : forall fuel currentDay outTime result,
  dayNumber outTime = dayNumber currentDay + Z.of_nat n ->
  (n <= fuel)%nat ->
  exists st, splitLoop fuel currentDay outTime result = Ret st.
Proof.
  induction n as [|n IH]; intros fuel cur out result Hday Hfuel;
    rewrite splitLoop_eq.
  - rewrite dayKey_same_day by lia. eauto.
  - destruct (keyEqb (dayKey cur) (dayKey out)); [eauto|].
    destruct fuel as [|fuel]; [lia|].
    apply IH; [rewrite dayNumber_addDays|]; lia.
Qed.

Lemma splitStayByDays_terminates inTime outTime :
  inTime < outTime ->
  forall fuel, (Z.to_nat (dayNumber outTime - dayNumber inTime) <= fuel)%nat ->
  exists m, splitStayByDays fuel (ValidDate inTime) (ValidDate outTime) = Ret m.
Proof.
  intros Hlt fuel Hfuel.
  pose proof (dayNumber_mono (a := inTime) (b := outTime) ltac:(lia)) as Hmono.
  unfold splitStayByDays.
  destruct (keyEqb (dayKey inTime) (dayKey outTime)) eqn:Esame; [eauto|].
  pose proof (dayKey_other_day _ _ Esame) as Hne.
  destruct (@splitLoop_terminates
              (Z.to_nat (dayNumber outTime - dayNumber inTime - 1)) fuel
              (addDays inTime 1) outTime
              (JsMap.set JsMap.empty (dayKey inTime)
                 (differenceInMinutes (endOfDay inTime) inTime)))
    as [[cur' result'] Hrun].
  - rewrite dayNumber_addDays. lia.
  - lia.
  - rewrite Hrun. cbn [bind].
    destruct (keyEqb (dayKey cur') (dayKey outTime)); eauto.
Qed.

Lemma periodDailyMinutes_total records :
  (forall r, In r records -> timestamp r <> InvalidDate) ->
  exists dm, periodDailyMinutes records = Ret dm.
Proof.
  unfold periodDailyMinutes. generalize (@JsMap.empty DayKey Z).
  induction records as [|r l IH]; intros dm Hvalid; simpl; [eauto|].
  destruct (String.eqb (type r) "out" && truthy (duration r)).
  - destruct (timestamp r) eqn:E;
      [|exfalso; apply (Hvalid r (or_introl eq_refl)); assumption].
    simpl. apply IH. intros; apply Hvalid; right; assumption.
  - simpl. apply IH. intros; apply Hvalid; right; assumption.
Qed.

(* ------------------------------------------------------------------ *)
(** ** Daily minutes, skipped records and averages *)

Lemma minutesOn_addMinutes m key minutes day :
  minutesOn (addMinutes m key minutes) day
  = minutesOn m day + (if keyEqb key day then minutes else 0).
Proof.
  unfold minutesOn, addMinutes.
  destruct (keyEqb key day) eqn:E.
  - apply keyEqb_spec in E. subst day. rewrite get_set_same. reflexivity.
  - apply keyEqb_false in E. rewrite get_set_other by assumption. lia.
Qed.

Lemma periodDailyMinutes_minutesOn records : forall dm0 dm,
  forEachM
    (fun dailyMinutes record =>
       if String.eqb (type record) "out" && truthy (duration record) then
         day <- formatDateKey (timestamp record) ;;
         Ret (addMinutes dailyMinutes day (orZero (duration record)))
       else Ret dailyMinutes)
    records dm0 = Ret dm ->
  forall day,
    minutesOn dm day = minutesOn dm0 day + sumDurations (filter (bookedOn day) records).
Proof.
  induction records as [|r l IH]; intros dm0 dm Hrun day; simpl in Hrun.
  - inversion Hrun. simpl. lia.
  - simpl. unfold bookedOn at 1.
    destruct (String.eqb (type r) "out" && truthy (duration r)); cbn [andb].
    + destruct (formatDateKey (timestamp r)) as [key| |]; simpl in Hrun; try discriminate.
      rewrite (IH _ _ Hrun day), minutesOn_addMinutes.
      destruct (keyEqb key day); simpl; lia.
    + simpl in Hrun. apply (IH _ _ Hrun day).
Qed.

Lemma forEachM_app {A S : Type} (f : S -> A -> outcome S) l1 l2 s :
  forEachM f (l1 ++ l2) s = (s' <- forEachM f l1 s ;; forEachM f l2 s').
Proof.
  revert s. induction l1 as [|a l1 IH]; intros s; simpl; [reflexivity|].
  destruct (f s a); simpl; auto.
Qed.

Lemma statsDailyMinutes_skip fuel before outRecord after :
  type outRecord = "out"%string -> duration outRecord = None ->
  statsDailyMinutes fuel (before ++ outRecord :: after)
  = statsDailyMinutes fuel (before ++ after).
Proof.
  intros Etype Edur. unfold statsDailyMinutes.
  rewrite !classify_filter, !filter_app. simpl.
  unfold isIn at 2, isOut at 2. rewrite Etype. simpl.
  rewrite !forEachM_app. simpl.
  destruct (forEachM _ (filter isOut before) JsMap.empty); simpl; auto.
  unfold processOut at 1. rewrite Edur. simpl. reflexivity.
Qed.

Lemma processOut_unmatched fuel inRecords dailyMinutes outRecord time minutes :
  timestamp outRecord = ValidDate time ->
  duration outRecord = Some minutes ->
  (forall r, In r inRecords -> isBefore (timestamp r) (timestamp outRecord) = false) ->
  exists dm',
    processOut fuel inRecords dailyMinutes outRecord = Ret dm'
    /\ forall day, minutesOn dm' day
         = minutesOn dailyMinutes day + (if keyEqb (dayKey time) day then minutes else 0).
Proof.
  intros Ets Edur Hnone. unfold processOut.
  rewrite Edur. simpl truthy.
  destruct (minutes =? 0) eqn:E0; simpl negb; cbv iota.
  - apply Z.eqb_eq in E0. subst minutes. exists dailyMinutes. split; [reflexivity|].
    intros day. destruct (keyEqb (dayKey time) day); lia.
  - apply matchingInRecord_None in Hnone. rewrite Hnone, Ets. simpl.
    eexists. split; [reflexivity|]. intros day. apply minutesOn_addMinutes.
Qed.

Lemma average_invariant total n :
  statsInvariant {| totalTime := total; averageTime := average total n; daysPresent := n |}.
Proof.
  unfold statsInvariant, average. simpl.
  destruct (0 <? n)%nat; reflexivity.
Qed.

Lemma day_invariant minutes :
  statsInvariant
    {| totalTime := minutes; averageTime := inject_Z minutes; daysPresent := 1 |}.
Proof.
  unfold statsInvariant. simpl. unfold Qeq, Qdiv, Qmult, Qinv, inject_Z. simpl. lia.
Qed.

Lemma allValues_set {K V : Type} `{Key K} (P : V -> Prop) (m : JsMap.t K V) k v :
  allValues P m -> P v -> allValues P (JsMap.set m k v).
Proof.
  unfold allValues. intros Hm Hv. induction m as [|[k' v'] m IH]; simpl.
  - constructor; auto.
  - inversion Hm; subst. destruct (keyEqb k' k); constructor; auto.
Qed.

Lemma dailyStats_invariant dailyMinutes : allValues statsInvariant (dailyStats dailyMinutes).
Proof.
  unfold dailyStats.
  assert (Hacc : allValues statsInvariant (@JsMap.empty DayKey Stats)) by constructor.
  revert Hacc. generalize (@JsMap.empty DayKey Stats).
  induction dailyMinutes as [|[k v] l IH]; intros acc Hacc; simpl; [assumption|].
  apply IH. apply allValues_set; [assumption|apply day_invariant].
Qed.

Lemma rollup_invariant {G : Type} `{Key G} (formatKey : Date -> outcome G) dailyMinutes :
  allValues statsInvariant (rollup formatKey dailyMinutes).
Proof.
  unfold rollup.
  destruct (fold_left (groupStep formatKey) dailyMinutes (JsMap.empty, JsMap.empty))
    as [totals groupDays].
  assert (Hacc : allValues statsInvariant (@JsMap.empty G Stats)) by constructor.
  revert Hacc. generalize (@JsMap.empty G Stats).
  induction totals as [|[k v] l IH]; intros acc Hacc; simpl; [assumption|].
  apply IH. apply allValues_set; [assumption|apply average_invariant].
Qed.

Lemma periodRollup_invariant dailyMinutes : allStats statsInvariant (periodRollup dailyMinutes).
Proof.
  unfold periodRollup. destruct (partitionDays dailyMinutes) as [wd we].
  repeat split; simpl.
  - apply dailyStats_invariant.
  - apply rollup_invariant.
  - apply rollup_invariant.
  - apply average_invariant.
  - apply average_invariant.
  - apply average_invariant.
Qed.

Lemma calculateStats_invariant fuel records stats :
  calculateStats fuel records = Ret stats -> statsInvariant stats.
Proof.
  unfold calculateStats. destruct (length records =? 0)%nat.
  - intros E. inversion E. unfold statsInvariant. simpl. reflexivity.
  - destruct (statsDailyMinutes fuel records) as [dm| |]; simpl; try discriminate.
    destruct (fold_left _ dm (0, 0)) as [totalTime longestStay].
    intros E. inversion E. apply average_invariant.
Qed.

(* ------------------------------------------------------------------ *)
(** ** Weekdays and weekends *)

Lemma forEachM_invariant {A S : Type} (P : S -> Prop) (f : S -> A -> outcome S) l :
  (forall s a s', P s -> f s a = Ret s' -> P s') ->
  forall s s', P s -> forEachM f l s = Ret s' -> P s'.
Proof.
  intros Hstep. induction l as [|a l IH]; intros s s' Hs Hrun; simpl in Hrun.
  - inversion Hrun; subst; assumption.
  - destruct (f s a) as [s1| |] eqn:E; simpl in Hrun; try discriminate.
    apply (IH s1); [apply (Hstep s a)|]; assumption.
Qed.

Lemma periodDailyMinutes_NoDup records dm :
  periodDailyMinutes records = Ret dm -> NoDup (JsMap.keys dm).
Proof.
  unfold periodDailyMinutes.
  apply (@forEachM_invariant _ _ (fun m : JsMap.t DayKey Z => NoDup (JsMap.keys m))).
  - intros s r s' Hs. destruct (String.eqb (type r) "out" && truthy (duration r)).
    + destruct (formatDateKey (timestamp r)); simpl; try discriminate.
      intros E; inversion E; subst. apply NoDup_keys_set. assumption.
    + intros E; inversion E; subst. assumption.
  - constructor.
Qed.

Lemma get_Some_keys {K V : Type} `{Key K} (m : JsMap.t K V) k v :
  JsMap.get m k = Some v -> In k (JsMap.keys m).
Proof.
  induction m as [|[k' v'] m IH]; simpl; [discriminate|].
  destruct (keyEqb k' k) eqn:E; [|auto].
  apply keyEqb_spec in E. auto.
Qed.

Lemma in_keys_set {K V : Type} `{Key K} (m : JsMap.t K V) k v x :
  In x (JsMap.keys (JsMap.set m k v)) <-> In x (JsMap.keys m) \/ x = k.
Proof.
  rewrite keys_set. unfold JsMap.has.
  destruct (JsMap.get m k) eqn:E.
  - apply get_Some_keys in E. split; [auto|]. intros [Hx| ->]; assumption.
  - rewrite in_app_iff. simpl. intuition congruence.
Qed.

Lemma periodDailyMinutes_forEach records :
  periodDailyMinutes records = forEachM periodStep records JsMap.empty.
Proof. reflexivity. Qed.

(** The days of the daily mapping are the days of the check-outs that
    count. *)
Lemma forEachM_periodStep_keys records : forall dm0 dm,
  forEachM periodStep records dm0 = Ret dm ->
  forall key,
    In key (JsMap.keys dm)
    <-> In key (JsMap.keys dm0)
        \/ exists r, In r records /\ counted r = true
                     /\ formatDateKey (timestamp r) = Ret key.
Proof.
  induction records as [|r l IH]; intros dm0 dm Hrun key; simpl in Hrun.
  - inversion Hrun; subst. split; [auto|]. intros [H|(r & [] & _)]. assumption.
  - unfold periodStep at 1 in Hrun.
    assert (Ec : counted r = String.eqb (type r) "out" && truthy (duration r))
      by reflexivity.
    destruct (String.eqb (type r) "out" && truthy (duration r)).
    + destruct (formatDateKey (timestamp r)) as [k| |] eqn:Ek; simpl in Hrun;
        try discriminate.
      rewrite (IH _ _ Hrun key). unfold addMinutes. rewrite in_keys_set. split.
      * intros [[H| ->]|(r' & Hr' & Hc & Hk)]; [auto| |].
        -- right. exists r. simpl. auto.
        -- right. exists r'. simpl. auto.
      * intros [H|(r' & [<-|Hr'] & Hc & Hk)]; [auto| |].
        -- left. right. congruence.
        -- right. exists r'. auto.
    + simpl in Hrun. rewrite (IH _ _ Hrun key). split.
      * intros [H|(r' & Hr' & Hc & Hk)]; [auto|]. right. exists r'. simpl. auto.
      * intros [H|(r' & [<-|Hr'] & Hc & Hk)]; [auto|congruence|].
        right. exists r'. auto.
Qed.

Lemma periodDailyMinutes_keys records dm :
  periodDailyMinutes records = Ret dm ->
  forall key,
    In key (JsMap.keys dm)
    <-> exists r, In r records /\ counted r = true
                  /\ formatDateKey (timestamp r) = Ret key.
Proof.
  intros Hrun key. rewrite periodDailyMinutes_forEach in Hrun.
  rewrite (forEachM_periodStep_keys _ _ Hrun key). simpl. tauto.
Qed.

Lemma partition_fold l : forall weekdayMinutes weekendMinutes,
  NoDup (JsMap.keys l) ->
  (forall k, In k (JsMap.keys l) ->
     ~ In k (JsMap.keys weekdayMinutes) /\ ~ In k (JsMap.keys weekendMinutes)) ->
  fold_left partitionStep l (weekdayMinutes, weekendMinutes)
  = (weekdayMinutes ++ filter (fun e => negb (onWeekend e)) l,
     weekendMinutes ++ filter onWeekend l).
Proof.
  induction l as [|[k v] l IH]; intros wd we Hnd Hfresh; simpl.
  - rewrite !app_nil_r. reflexivity.
  - inversion Hnd as [|? ? Hk Hl]; subst.
    destruct (Hfresh k (or_introl eq_refl)) as [Hwd Hwe].
    assert (Eon : onWeekend (k, v) = isWeekend (parseISO k)) by reflexivity.
    rewrite !Eon.
    destruct (isWeekend (parseISO k)) eqn:Ew; cbn [negb].
    + rewrite set_fresh by (apply get_None_keys; assumption).
      rewrite IH; [rewrite <- app_assoc; reflexivity|assumption|].
      intros k' Hk'. destruct (Hfresh k' (or_intror Hk')) as [H1 H2].
      split; [assumption|]. unfold JsMap.keys. rewrite map_app, in_app_iff. simpl.
      intros [Hin|[<-|[]]]; [apply H2; assumption|apply Hk; assumption].
    + rewrite set_fresh by (apply get_None_keys; assumption).
      rewrite IH; [rewrite <- app_assoc; reflexivity|assumption|].
      intros k' Hk'. destruct (Hfresh k' (or_intror Hk')) as [H1 H2].
      split; [|assumption]. unfold JsMap.keys. rewrite map_app, in_app_iff. simpl.
      intros [Hin|[<-|[]]]; [apply H1; assumption|apply Hk; assumption].
Qed.

Lemma partitionDays_filter dailyMinutes :
  NoDup (JsMap.keys dailyMinutes) ->
  partitionDays dailyMinutes
  = (filter (fun e => negb (onWeekend e)) dailyMinutes, filter onWeekend dailyMinutes).
Proof.
  intros Hnd. unfold partitionDays. rewrite partition_fold; auto.
Qed.

Lemma filter_length_split {A : Type} (p : A -> bool) l :
  (length (filter (fun x => negb (p x)) l) + length (filter p l) = length l)%nat.
Proof.
  induction l as [|a l IH]; simpl; [reflexivity|].
  destruct (p a); simpl; lia.
Qed.

Lemma has_filter_key {K V : Type} `{Key K} (q : K -> bool) (m : JsMap.t K V) k :
  JsMap.has (filter (fun e => q (fst e)) m) k = q k && JsMap.has m k.
Proof.
  unfold JsMap.has. induction m as [|[k' v] m IH]; simpl.
  - rewrite andb_false_r. reflexivity.
  - destruct (keyEqb k' k) eqn:E.
    + apply keyEqb_spec in E. subst k'. destruct (q k) eqn:Eq; simpl.
      * rewrite keyEqb_refl. reflexivity.
      * exact IH.
    + destruct (q k'); simpl; [rewrite E|]; exact IH.
Qed.

Lemma has_key {K V : Type} `{Key K} (m : JsMap.t K V) k : In k (JsMap.keys m) -> JsMap.has m k = true.
Proof.
  intros Hin. unfold JsMap.has. destruct (JsMap.get m k) eqn:E; [reflexivity|].
  apply get_None_keys in E. contradiction.
Qed.

Lemma NoDup_keys_filter {K V : Type} (p : K * V -> bool) (m : JsMap.t K V) :
  NoDup (JsMap.keys m) -> NoDup (JsMap.keys (filter p m)).
Proof.
  unfold JsMap.keys. induction m as [|e m IH]; simpl; intros Hnd; [constructor|].
  inversion Hnd as [|? ? Hk Hm]; subst.
  destruct (p e); simpl; [constructor|]; auto.
  intros Hin. apply Hk. apply in_map_iff in Hin as (x & Ex & Hx).
  apply in_map_iff. exists x. split; [assumption|]. apply filter_In in Hx. tauto.
Qed.

Lemma partition_complete records dm :
  periodDailyMinutes records = Ret dm ->
  let weekdayMinutes := fst (partitionDays dm) in
  let weekendMinutes := snd (partitionDays dm) in
  (forall day, In day (JsMap.keys dm) ->
     JsMap.has weekdayMinutes day = negb (isWeekend (parseISO day))
     /\ JsMap.has weekendMinutes day = isWeekend (parseISO day))
  /\ NoDup (JsMap.keys weekdayMinutes) /\ NoDup (JsMap.keys weekendMinutes)
  /\ (JsMap.size weekdayMinutes + JsMap.size weekendMinutes = JsMap.size dm)%nat.
Proof.
  intros Hrun. pose proof (periodDailyMinutes_NoDup _ Hrun) as Hnd.
  cbv zeta. rewrite partitionDays_filter by assumption. cbn [fst snd].
  unfold onWeekend.
  repeat split.
  - rewrite (has_filter_key (fun k => negb (isWeekend (parseISO k)))), has_key by assumption.
    apply andb_true_r.
  - rewrite (has_filter_key (fun k => isWeekend (parseISO k))), has_key by assumption.
    apply andb_true_r.
  - apply NoDup_keys_filter. assumption.
  - apply NoDup_keys_filter. assumption.
  - apply filter_length_split.
Qed.

(* ------------------------------------------------------------------ *)
(** ** Dates of the years 1 to 9999 *)

Lemma cycle_checked_date : allFrom (Z.to_nat 146097) 0 cycleCheckDate = true.
Proof. vm_cast_no_check (eq_refl true). Qed.

Lemma cycle_spec_date i : 0 <= i < 146097 -> cycleCheckDate i = true.
Proof.
  intros Hi. eapply allFrom_spec; [exact cycle_checked_date|lia].
Qed.

Lemma isLeapYearIndex_shift y e : isLeapYearIndex (y + 400 * e) = isLeapYearIndex y.
Proof.
  unfold isLeapYearIndex.
  replace ((y + 400 * e) mod 400) with (y mod 400) by zdiv.
  replace ((y + 400 * e) mod 4) with (y mod 4) by zdiv.
  replace ((y + 400 * e) mod 100) with (y mod 100) by zdiv.
  reflexivity.
Qed.

Lemma validateDate_shift y m d e : validateDate (y + 400 * e) m d = validateDate y m d.
Proof.
  unfold validateDate, daysInMonth. rewrite isLeapYearIndex_shift. reflexivity.
Qed.

(** The day of a day number is a day its month has. *)
Lemma validateDate_civilFromDays z :
  let '(y, m, d) := civilFromDays z in validateDate y m d = true.
Proof.
  destruct (civil_decompose z) as (i & e & Hi & -> & _).
  rewrite civilFromDays_shift.
  pose proof (cycle_spec_date Hi) as Hc. unfold cycleCheckDate in Hc.
  destruct (civilFromDays (i - 719468)) as [[y m] d].
  rewrite validateDate_shift. rewrite !andb_true_iff in Hc. tauto.
Qed.

Lemma year_four_digits z :
  z < firstDayOfYear10000 -> fst (fst (civilFromDays z)) <= 9999.
Proof.
  intros Hz. destruct (civil_decompose z) as (i & e & Hi & Ez & _).
  subst z. rewrite civilFromDays_shift.
  pose proof (cycle_spec_date Hi) as Hc. unfold cycleCheckDate in Hc.
  destruct (civilFromDays (i - 719468)) as [[y m] d]. cbn [fst].
  rewrite !andb_true_iff, orb_true_iff in Hc. destruct Hc as [[_ Hy] Hy1].
  apply Z.leb_le in Hy. unfold firstDayOfYear10000 in Hz.
  destruct Hy1 as [Hi'|Hy']; [apply Z.leb_le in Hi'|apply Z.leb_le in Hy']; lia.
Qed.

Lemma dayNumber_startOfYear10000 t :
  t < startOfYear10000 <-> dayNumber t < firstDayOfYear10000.
Proof.
  unfold startOfYear10000, dayNumber, firstDayOfYear10000, millisecondsInDay. zdiv.
Qed.

Lemma zoneSettled_year1 : startOfYear1 <= zoneSettled.
Proof. vm_compute. discriminate. Qed.

(** A stay within the years 1 to 9999 spans fewer days than they have. *)
Lemma days_of_a_stay a b :
  startOfYear1 <= a -> b < startOfYear10000 ->
  dayNumber b - dayNumber a < daysOfFourDigitYears.
Proof.
  intros Ha Hb. apply dayNumber_startOfYear1 in Ha.
  apply dayNumber_startOfYear10000 in Hb.
  unfold firstDayOfYear1, firstDayOfYear10000, daysOfFourDigitYears in *. lia.
Qed.

Lemma startOfDay_dayNumber t : startOfDay t = dayNumber t * millisecondsInDay.
Proof. unfold startOfDay, dayNumber, millisecondsInDay. zdiv. Qed.

Lemma dayNumber_startOfDay t : dayNumber (startOfDay t) = dayNumber t.
Proof.
  rewrite startOfDay_dayNumber. unfold dayNumber, millisecondsInDay.
  apply Z.div_mul. lia.
Qed.

Lemma parseISO_dayKey t :
  startOfYear1 <= t -> fst (fst (dayKey t)) <= 9999 ->
  parseISO (dayKey t) = ValidDate (startOfDay t).
Proof.
  intros Hce Hy. apply dayNumber_startOfYear1 in Hce.
  pose proof (year_positive Hce) as Hpos.
  pose proof (daysFromCivil_civilFromDays (dayNumber t)) as Hround.
  pose proof (validateDate_civilFromDays (dayNumber t)) as Hvalid.
  rewrite dayKey_keyOfDay in *. unfold keyOfDay in *.
  destruct (civilFromDays (dayNumber t)) as [[y m] d]. cbn [fst] in *.
  unfold eraYear in *. destruct (0 <? y) eqn:Ey; [|apply Z.ltb_ge in Ey; lia].
  unfold parseISO. rewrite Hvalid, andb_true_r.
  destruct (y <=? 9999) eqn:E9; [|apply Z.leb_gt in E9; lia].
  rewrite Hround, startOfDay_dayNumber. reflexivity.
Qed.

Lemma dayKey_four_digits t :
  startOfYear1 <= t < startOfYear10000 -> fst (fst (dayKey t)) <= 9999.
Proof.
  intros [Hce Hlt]. apply dayNumber_startOfYear1 in Hce.
  apply dayNumber_startOfYear10000 in Hlt.
  pose proof (year_positive Hce) as Hpos.
  pose proof (year_four_digits Hlt) as Hy.
  rewrite dayKey_keyOfDay. unfold keyOfDay.
  destruct (civilFromDays (dayNumber t)) as [[y m] d]. cbn [fst] in *.
  unfold eraYear. destruct (0 <? y) eqn:Ey; [assumption|apply Z.ltb_ge in Ey; lia].
Qed.

(** The key of a date of the years 1 to 9999 reads back as its day. *)
Lemma parseISO_fourDigitYear t :
  startOfYear1 <= t < startOfYear10000 ->
  parseISO (dayKey t) = ValidDate (startOfDay t).
Proof.
  intros Ht. apply parseISO_dayKey; [lia|apply dayKey_four_digits; assumption].
Qed.

Lemma isWeekend_fourDigitYear t :
  startOfYear1 <= t < startOfYear10000 ->
  isWeekend (parseISO (dayKey t)) = isWeekend (ValidDate t).
Proof.
  intros Ht. rewrite parseISO_fourDigitYear by assumption.
  unfold isWeekend. rewrite dayNumber_startOfDay. reflexivity.
Qed.

(* ------------------------------------------------------------------ *)
(** ** Returning on dates of the years 1 to 9999 *)

Lemma forEachM_returns {A S : Type} (f : S -> A -> outcome S) (l : list A) :
  (forall a, In a l -> forall s, exists s', f s a = Ret s') ->
  forall s, exists s', forEachM f l s = Ret s'.
Proof.
  induction l as [|a l IH]; intros Hall s; simpl; [eauto|].
  destruct (Hall a (or_introl eq_refl) s) as [s' ->]. cbn [bind].
  apply IH. intros x Hx. apply Hall. right. assumption.
Qed.

Lemma fourDigitYear_valid date :
  fourDigitYear date -> exists time,
    date = ValidDate time /\ startOfYear1 <= time < startOfYear10000.
Proof. destruct date as [time|]; simpl; [eauto|tauto]. Qed.

Lemma processOut_returns inRecords outRecord fuel :
  (forall r, In r inRecords -> fourDigitYear (timestamp r)) ->
  fourDigitYear (timestamp outRecord) ->
  daysOfFourDigitYears <= Z.of_nat fuel ->
  forall dm, exists dm', processOut fuel inRecords dm outRecord = Ret dm'.
Proof.
  intros Hins Hout Hfuel dm. unfold processOut.
  destruct (negb (truthy (duration outRecord))); [eauto|].
  destruct (matchingInRecord inRecords outRecord) as [m|] eqn:Em.
  - apply matchingInRecord_Some in Em as (Hm & Hb & _).
    destruct (fourDigitYear_valid _ (Hins m Hm)) as (ti & Ei & Hi).
    destruct (fourDigitYear_valid _ Hout) as (to & Eo & Ho).
    rewrite Ei, Eo in *. simpl in Hb. apply Z.ltb_lt in Hb.
    pose proof (dayNumber_mono (a := ti) (b := to) ltac:(lia)) as Hmono.
    pose proof (@days_of_a_stay ti to ltac:(lia) ltac:(lia)) as Hdays.
    destruct (@splitStayByDays_terminates ti to Hb fuel ltac:(lia)) as [splits ->].
    cbn [bind]. eauto.
  - destruct (fourDigitYear_valid _ Hout) as (to & -> & _). simpl. eauto.
Qed.

Lemma calculateStats_returns records fuel :
  (forall r, In r records -> fourDigitYear (timestamp r)) ->
  daysOfFourDigitYears <= Z.of_nat fuel ->
  exists stats, calculateStats fuel records = Ret stats.
Proof.
  intros Hdates Hfuel. unfold calculateStats.
  destruct (length records =? 0)%nat; [eauto|].
  unfold statsDailyMinutes. rewrite classify_filter.
  destruct (@forEachM_returns _ _ (processOut fuel (filter isIn records))
              (filter isOut records)) with (s := @JsMap.empty DayKey Z)
    as [dm ->].
  { intros o Ho. apply processOut_returns; [|apply Hdates|assumption].
    - intros r Hr. apply Hdates. apply filter_In in Hr. tauto.
    - apply filter_In in Ho. tauto. }
  cbn [bind]. destruct (fold_left _ dm (0, 0)). eauto.
Qed.

Lemma length_insertSorted {A : Type} (compareFn : A -> A -> Z) x l :
  length (insertSorted compareFn x l) = S (length l).
Proof.
  induction l as [|y l IH]; simpl; [reflexivity|].
  destruct (compareFn x y <=? 0); simpl; [reflexivity|]. rewrite IH. reflexivity.
Qed.

Lemma length_sort {A : Type} (compareFn : A -> A -> Z) l :
  length (sort compareFn l) = length l.
Proof.
  induction l as [|x l IH]; simpl; [reflexivity|].
  rewrite length_insertSorted, IH. reflexivity.
Qed.

Lemma compareMembersStats_length membersStats :
  length (compareMembersStats membersStats) = JsMap.size membersStats.
Proof.
  unfold compareMembersStats, JsMap.size. rewrite length_sort.
  enough (G : forall l (acc : list (string * Z)),
    length (fold_left
              (fun (result : list (string * Z)) (entry : string * Stats) =>
                 let '(memberId, stats) := entry in
                 result ++ [(memberId, totalTime stats)])
              l acc)
    = (length acc + length l)%nat) by (rewrite G; reflexivity).
  induction l as [|[k v] l IH]; intros acc; simpl; [lia|].
  rewrite IH, length_app. simpl. lia.
Qed.

(* ------------------------------------------------------------------ *)
(** ** What a matched check-out books *)

Lemma minutesOn_fold_addEntry splits : forall dailyMinutes day,
  minutesOn (fold_left addEntry splits dailyMinutes) day
  = minutesOn dailyMinutes day
    + sumMinutes (filter (fun entry => keyEqb (fst entry) day) splits).
Proof.
  induction splits as [|e splits IH]; intros dm day; cbn [fold_left filter].
  - unfold sumMinutes. simpl. lia.
  - rewrite IH. unfold addEntry. rewrite minutesOn_addMinutes.
    destruct (keyEqb (fst e) day); [rewrite sumMinutes_cons|]; lia.
Qed.

Lemma processOut_matched fuel inRecords dailyMinutes outRecord matching :
  truthy (duration outRecord) = true ->
  matchingInRecord inRecords outRecord = Some matching ->
  processOut fuel inRecords dailyMinutes outRecord
  = (splits <- splitStayByDays fuel (timestamp matching) (timestamp outRecord) ;;
     Ret (fold_left addEntry splits dailyMinutes)).
Proof.
  intros Hd Hm. unfold processOut. rewrite Hd, Hm. reflexivity.
Qed.

(* ================================================================== *)
(** * The claims *)

(** C1 (as stated, refuted).  [calculatePeriodStats] does not apportion a
    stay across the days it spans: for the stay from 23:00 on 2024-03-10 to
    01:00 on 2024-03-11 with its 120 minutes stored on the check-out, the
    daily mapping is {2024-03-11: 120}, so 2024-03-10 gets 0 minutes where
    the clipped stay gives it 60 (and 2024-03-11 gets 120 where the clipped
    stay gives it 60). *)
Lemma periodDailyMinutes_not_apportioned :
  periodDailyMinutes overnight = Ret [((2024, 3, 11), 120)]
  /\ minutesOn [((2024, 3, 11), 120)] (2024, 3, 10) = 0
  /\ specDailyMinutes overnight (2024, 3, 10) = 60
  /\ minutesOn [((2024, 3, 11), 120)] (2024, 3, 11) = 120
  /\ specDailyMinutes overnight (2024, 3, 11) = 60.
Proof. repeat split; reflexivity. Qed.

(** C1 (amended).  In the daily mapping [calculatePeriodStats] builds, the
    minutes of a day are the sum of the stored durations of the ['out']
    records with a non-zero duration whose own timestamp falls on that day:
    every check-out's duration goes wholly to the check-out's day. *)
Theorem periodDailyMinutes_books_out_day :
  forall (records : list Record_) (dailyMinutes : JsMap.t DayKey Z),
    periodDailyMinutes records = Ret dailyMinutes ->
    forall day,
      minutesOn dailyMinutes day = sumDurations (filter (bookedOn day) records).
Proof.
  intros records dm Hrun day. unfold periodDailyMinutes in Hrun.
  rewrite (periodDailyMinutes_minutesOn _ _ Hrun day). reflexivity.
Qed.

Lemma periodDailyMinutes_books_out_day_witness :
  minutesOn [((2024, 3, 11), 120)] (2024, 3, 11)
  = sumDurations (filter (bookedOn (2024, 3, 11)) overnight).
Proof.
  apply (@periodDailyMinutes_books_out_day overnight [((2024, 3, 11), 120)]).
  reflexivity.
Defined.

(** C2 (the code at the example of the claim).  For a check-in at 23:00 and
    a check-out at 01:00 two days later the code returns three entries, but
    the first day gets 59 minutes, not 60: [endOfDay] is 23:59:59.999 and
    [differenceInMinutes] truncates. *)
Theorem splitStayByDays_23h_to_01h :
  forall fuel,
    splitStayByDays (S fuel) (ValidDate (at_ 2024 3 10 23 0 0 0))
                             (ValidDate (at_ 2024 3 12 1 0 0 0))
    = Ret [((2024, 3, 10), 59); ((2024, 3, 11), 1440); ((2024, 3, 12), 60)].
Proof. intros fuel. destruct fuel; reflexivity. Qed.

(** C3 (as stated, refuted).  From 23:59:15 to 00:00:45 of the next day the
    elapsed time is 1.5 minutes, which rounds to 2, and both parts of the
    split are truncated to 0: the sum is 2 minutes short, more than the
    tolerance of 1 minute. *)
Lemma splitStayByDays_loses_two_minutes :
  (forall fuel,
     splitStayByDays fuel (ValidDate (at_ 2024 3 10 23 59 15 0))
                          (ValidDate (at_ 2024 3 11 0 0 45 0))
     = Ret [((2024, 3, 10), 0); ((2024, 3, 11), 0)])
  /\ sumMinutes [((2024, 3, 10), 0); ((2024, 3, 11), 0)] = 0
  /\ roundMinutes (at_ 2024 3 11 0 0 45 0 - at_ 2024 3 10 23 59 15 0) = 2.
Proof.
  repeat split. intros fuel. destruct fuel; reflexivity.
Qed.

(** C3 (amended).  For a check-in from 1952-01-01 on (from where on the
    offset of the zone does not change, so that every local day has 24
    hours) and a later check-out before the year 10000, [splitStayByDays]
    returns after fewer loop steps than the years 1 to 9999 have days, and
    the sum of its minutes is at most the rounded elapsed minutes and at
    least two minutes less: no minute is counted twice, and truncating the
    part of the first and of the last day loses less than a minute each. *)
Theorem splitStayByDays_conservation :
  forall inTime outTime : Z,
    zoneSettled <= inTime -> inTime < outTime -> outTime < startOfYear10000 ->
    exists n,
      Z.of_nat n < daysOfFourDigitYears
      /\ forall fuel, (n <= fuel)%nat ->
           exists m,
             splitStayByDays fuel (ValidDate inTime) (ValidDate outTime) = Ret m
             /\ roundMinutes (outTime - inTime) - 2 <= sumMinutes m
                <= roundMinutes (outTime - inTime).
Proof.
  intros inTime outTime Hzone Hlt Hend.
  pose proof zoneSettled_year1 as Hy1.
  pose proof (dayNumber_mono (a := inTime) (b := outTime) ltac:(lia)) as Hmono.
  pose proof (@days_of_a_stay inTime outTime ltac:(lia) Hend) as Hdays.
  exists (Z.to_nat (dayNumber outTime - dayNumber inTime)). split; [lia|].
  intros fuel Hfuel. apply splitStayByDays_sum; [lia|assumption|assumption].
Qed.

Lemma splitStayByDays_conservation_witness :
  exists n,
    Z.of_nat n < daysOfFourDigitYears
    /\ forall fuel, (n <= fuel)%nat ->
         exists m,
           splitStayByDays fuel (ValidDate (at_ 2024 3 10 23 0 0 0))
                                (ValidDate (at_ 2024 3 12 1 0 0 0)) = Ret m
           /\ roundMinutes (at_ 2024 3 12 1 0 0 0 - at_ 2024 3 10 23 0 0 0) - 2
              <= sumMinutes m
              <= roundMinutes (at_ 2024 3 12 1 0 0 0 - at_ 2024 3 10 23 0 0 0).
Proof.
  apply splitStayByDays_conservation.
  - vm_compute. discriminate.
  - reflexivity.
  - reflexivity.
Defined.

(** C4.  In [calculateStats] every check-out is processed against the same,
    whole list of ['in'] records, and the record it is matched with is an
    ['in'] record strictly earlier than the check-out than which no other
    such record is later; there is no match exactly when no ['in'] record is
    strictly earlier.  The match depends on the check-out through its
    timestamp only: an ['in'] record is not used up by a match.  The
    minutes a check-out with a duration books are those of the stay from
    the timestamp of its match to its own timestamp, split by days and
    added day by day to the daily mapping.  So two check-outs after the
    same latest check-in are both counted from that check-in: with
    check-ins at 09:00 and 09:30 and check-outs at 10:00 and 12:00 the day
    gets 30 + 150 minutes (pairing the second check-out with the first
    check-in would give 30 + 180). *)
Theorem matchingInRecord_latest_preceding :
  forall (fuel : nat) (records : list Record_) (outRecord : Record_),
    let inRecords := fst (classify records) in
    statsDailyMinutes fuel records
    = forEachM (processOut fuel inRecords) (snd (classify records)) JsMap.empty
    /\ (forall r, In r inRecords <-> In r records /\ type r = "in"%string)
    /\ (forall matching,
          matchingInRecord inRecords outRecord = Some matching ->
          In matching records /\ type matching = "in"%string
          /\ isBefore (timestamp matching) (timestamp outRecord) = true
          /\ forall r, In r records -> type r = "in"%string ->
               isBefore (timestamp r) (timestamp outRecord) = true ->
               isBefore (timestamp matching) (timestamp r) = false)
    /\ (matchingInRecord inRecords outRecord = None <->
        forall r, In r records -> type r = "in"%string ->
          isBefore (timestamp r) (timestamp outRecord) = false)
    /\ (forall other, timestamp other = timestamp outRecord ->
          matchingInRecord inRecords other = matchingInRecord inRecords outRecord)
    /\ (forall matching dailyMinutes,
          truthy (duration outRecord) = true ->
          matchingInRecord inRecords outRecord = Some matching ->
          processOut fuel inRecords dailyMinutes outRecord
          = (splits <- splitStayByDays fuel (timestamp matching)
                         (timestamp outRecord) ;;
             Ret (fold_left addEntry splits dailyMinutes))
          /\ forall splits day,
               splitStayByDays fuel (timestamp matching) (timestamp outRecord)
               = Ret splits ->
               exists dailyMinutes',
                 processOut fuel inRecords dailyMinutes outRecord = Ret dailyMinutes'
                 /\ minutesOn dailyMinutes' day
                    = minutesOn dailyMinutes day
                      + sumMinutes
                          (filter (fun entry => keyEqb (fst entry) day) splits))
    /\ statsDailyMinutes fuel
         [mkIn (at_ 2024 3 10 9 0 0 0); mkIn (at_ 2024 3 10 9 30 0 0);
          mkOut (at_ 2024 3 10 10 0 0 0) (Some 1);
          mkOut (at_ 2024 3 10 12 0 0 0) (Some 1)]
       = Ret [((2024, 3, 10), 30 + 150)].
Proof.
  intros fuel records outRecord inRecords.
  assert (Hin : forall r, In r inRecords <-> In r records /\ type r = "in"%string).
  { intros r. subst inRecords. rewrite classify_filter. cbn [fst].
    rewrite filter_In. unfold isIn. rewrite String.eqb_eq. reflexivity. }
  split; [|split; [exact Hin|split; [|split; [|split; [|split]]]]].
  - unfold statsDailyMinutes. subst inRecords.
    destruct (classify records). reflexivity.
  - intros matching Hm.
    apply matchingInRecord_Some in Hm as (Hm & Hb & Hlatest).
    apply Hin in Hm as [Hm Ht]. repeat split; auto.
    intros r Hr Hrt Hrb. apply Hlatest; [apply Hin; auto|assumption].
  - rewrite matchingInRecord_None. split.
    + intros Hall r Hr Ht. apply Hall. apply Hin. auto.
    + intros Hall r Hr. apply Hin in Hr as [Hr Ht]. auto.
  - intros other Ets. unfold matchingInRecord. rewrite Ets. reflexivity.
  - intros matching dailyMinutes Hd Hm.
    rewrite (@processOut_matched fuel inRecords dailyMinutes outRecord matching Hd Hm).
    split; [reflexivity|]. intros splits day Hsplits. rewrite Hsplits.
    eexists. split; [reflexivity|]. apply minutesOn_fold_addEntry.
  - destruct fuel; reflexivity.
Qed.

(** C5.  In [calculateStats] (a) an ['out'] record without a duration can be
    taken out of the record list without changing the daily mapping,
    whatever the other records are; (b) a check-out with a duration and a
    valid timestamp that no ['in'] record strictly precedes adds exactly its
    duration to the minutes of its own day and nothing to any other day (a
    duration of 0 adds nothing and makes no entry); (c) the single record
    {type: "out", timestamp: 2024-03-10 10:00, duration: 30} gives the daily
    mapping {2024-03-10: 30}, totalTime 30 and daysPresent 1. *)
Theorem checkout_duration_rules :
  forall fuel : nat,
    (forall before outRecord after,
       type outRecord = "out"%string -> duration outRecord = None ->
       statsDailyMinutes fuel (before ++ outRecord :: after)
       = statsDailyMinutes fuel (before ++ after))
    /\ (forall inRecords dailyMinutes outRecord time minutes,
          timestamp outRecord = ValidDate time ->
          duration outRecord = Some minutes ->
          (forall r, In r inRecords ->
             isBefore (timestamp r) (timestamp outRecord) = false) ->
          exists dailyMinutes',
            processOut fuel inRecords dailyMinutes outRecord = Ret dailyMinutes'
            /\ forall day,
                 minutesOn dailyMinutes' day
                 = minutesOn dailyMinutes day
                   + (if keyEqb (dayKey time) day then minutes else 0))
    /\ statsDailyMinutes fuel [mkOut (at_ 2024 3 10 10 0 0 0) (Some 30)]
       = Ret [((2024, 3, 10), 30)]
    /\ calculateStats fuel [mkOut (at_ 2024 3 10 10 0 0 0) (Some 30)]
       = Ret {| totalTime := 30; averageTime := 30 # 1; daysPresent := 1 |}.
Proof.
  intros fuel. split; [|split; [|split]].
  - intros before outRecord after. apply statsDailyMinutes_skip.
  - intros inRecords dailyMinutes outRecord time minutes.
    apply processOut_unmatched.
  - reflexivity.
  - reflexivity.
Qed.

Lemma checkout_duration_rules_witness :
  statsDailyMinutes 5 ([mkIn (at_ 2024 3 10 9 0 0 0)]
                         ++ mkOut (at_ 2024 3 10 10 0 0 0) None :: [])
  = statsDailyMinutes 5 ([mkIn (at_ 2024 3 10 9 0 0 0)] ++ [])
  /\ exists dailyMinutes',
       processOut 5 [mkIn (at_ 2024 3 10 11 0 0 0)] [((2024, 3, 10), 7)]
         (mkOut (at_ 2024 3 10 10 0 0 0) (Some 30)) = Ret dailyMinutes'
       /\ forall day,
            minutesOn dailyMinutes' day
            = minutesOn [((2024, 3, 10), 7)] day
              + (if keyEqb (dayKey (at_ 2024 3 10 10 0 0 0)) day then 30 else 0).
Proof.
  destruct (checkout_duration_rules 5) as (Hskip & Hunmatched & _).
  split.
  - apply Hskip; reflexivity.
  - apply Hunmatched; try reflexivity.
    intros r [<-|[]]. reflexivity.
Defined.

(** C6 (as stated, refuted).  On the record list with the one ['out'] record
    of duration 5 whose timestamp is the Invalid Date, [format] throws a
    RangeError out of [calculateStats] and out of [calculatePeriodStats]. *)
Lemma stats_throw_on_invalid_date :
  (forall fuel, calculateStats fuel [invalidOut] = Throw RangeError)
  /\ calculatePeriodStats [invalidOut] InvalidDate InvalidDate = Throw RangeError.
Proof. split; reflexivity. Qed.

(** C6 (amended).  On every list of records whose timestamps are valid
    dates of the years 1 to 9999, [calculateStats] (given a loop step for
    every day of those years) and [calculatePeriodStats] return a result
    and throw nothing; [compareMembersStats] returns one pair for every
    entry of its map, whatever the map; and for every check-out of the list
    and its matching check-in the loop of [splitStayByDays] ends after
    fewer steps than those years have days. *)
Theorem stats_total_on_valid_dates :
  forall (records : list Record_) (startDate endDate : Date)
         (membersStats : JsMap.t string Stats),
    (forall r, In r records -> fourDigitYear (timestamp r)) ->
    (forall fuel, daysOfFourDigitYears <= Z.of_nat fuel ->
       exists stats, calculateStats fuel records = Ret stats)
    /\ (exists periodStats,
          calculatePeriodStats records startDate endDate = Ret periodStats)
    /\ length (compareMembersStats membersStats) = JsMap.size membersStats
    /\ (forall inRecord outRecord,
          In outRecord records ->
          matchingInRecord (fst (classify records)) outRecord = Some inRecord ->
          exists n,
            Z.of_nat n < daysOfFourDigitYears
            /\ forall fuel, (n <= fuel)%nat ->
                 exists splits,
                   splitStayByDays fuel (timestamp inRecord) (timestamp outRecord)
                   = Ret splits).
Proof.
  intros records startDate endDate membersStats Hdates.
  split; [|split; [|split]].
  - intros fuel Hfuel. apply calculateStats_returns; assumption.
  - destruct (@periodDailyMinutes_total records) as [dm Hdm].
    { intros r Hr. destruct (fourDigitYear_valid _ (Hdates r Hr)) as (t & -> & _).
      discriminate. }
    exists (periodRollup dm). unfold calculatePeriodStats. rewrite Hdm. reflexivity.
  - apply compareMembersStats_length.
  - intros inRecord outRecord Hout Hm.
    apply matchingInRecord_Some in Hm as (Hin & Hb & _).
    rewrite classify_filter in Hin. cbn [fst] in Hin. apply filter_In in Hin as [Hin _].
    destruct (fourDigitYear_valid _ (Hdates _ Hin)) as (ti & Ei & Hi).
    destruct (fourDigitYear_valid _ (Hdates _ Hout)) as (to & Eo & Ho).
    rewrite Ei, Eo in *. simpl in Hb. apply Z.ltb_lt in Hb.
    pose proof (dayNumber_mono (a := ti) (b := to) ltac:(lia)) as Hmono.
    pose proof (@days_of_a_stay ti to ltac:(lia) ltac:(lia)) as Hdays.
    exists (Z.to_nat (dayNumber to - dayNumber ti)). split; [lia|].
    intros fuel Hfuel. apply splitStayByDays_terminates; assumption.
Qed.

Lemma stats_total_on_valid_dates_witness :
  (forall fuel, daysOfFourDigitYears <= Z.of_nat fuel ->
     exists stats, calculateStats fuel overnight = Ret stats)
  /\ (exists periodStats,
        calculatePeriodStats overnight InvalidDate InvalidDate = Ret periodStats)
  /\ length (compareMembersStats [("A"%string, zeroStats)])
     = JsMap.size [("A"%string, zeroStats)]
  /\ (forall inRecord outRecord,
        In outRecord overnight ->
        matchingInRecord (fst (classify overnight)) outRecord = Some inRecord ->
        exists n,
          Z.of_nat n < daysOfFourDigitYears
          /\ forall fuel, (n <= fuel)%nat ->
               exists splits,
                 splitStayByDays fuel (timestamp inRecord) (timestamp outRecord)
                 = Ret splits).
Proof.
  apply stats_total_on_valid_dates.
  intros r [<-|[<-|[]]]; simpl; split; vm_compute; congruence.
Defined.

(** C7.  Every [Stats] value [calculateStats] and [calculatePeriodStats]
    return (each entry of daily, weekly and monthly, and weekday, weekend
    and total) has averageTime = totalTime / daysPresent when daysPresent is
    positive, and averageTime = 0 when it is 0. *)
Theorem stats_average_invariant :
  forall (fuel : nat) (records : list Record_) (startDate endDate : Date),
    (forall stats, calculateStats fuel records = Ret stats -> statsInvariant stats)
    /\ (forall periodStats,
          calculatePeriodStats records startDate endDate = Ret periodStats ->
          allStats statsInvariant periodStats).
Proof.
  intros fuel records startDate endDate. split.
  - intros stats. apply calculateStats_invariant.
  - intros periodStats. unfold calculatePeriodStats.
    destruct (periodDailyMinutes records) as [dm| |]; simpl; try discriminate.
    intros E. inversion E. apply periodRollup_invariant.
Qed.

Lemma stats_average_invariant_witness :
  statsInvariant {| totalTime := 119; averageTime := 119 # 2; daysPresent := 2 |}
  /\ allStats statsInvariant (periodRollup [((2024, 3, 11), 120)]).
Proof.
  destruct (stats_average_invariant 5 overnight InvalidDate InvalidDate)
    as [Hstats Hperiod].
  split.
  - apply Hstats. reflexivity.
  - apply Hperiod. reflexivity.
Defined.

(** C8 (as stated, refuted).  The partition is not always by the calendar
    date: 10000-01-01 is a Saturday, and a check-out on it is counted in
    weekday, because [parseISO] does not read the key 10000-01-01 and
    [isWeekend] answers false on the Invalid Date. *)
Lemma weekend_partition_not_by_date :
  isWeekend (ValidDate (at_ 10000 1 1 10 0 0 0)) = true
  /\ exists periodStats,
       calculatePeriodStats [mkOut (at_ 10000 1 1 10 0 0 0) (Some 30)]
         InvalidDate InvalidDate = Ret periodStats
       /\ daysPresent (weekend periodStats) = 0%nat
       /\ daysPresent (weekday periodStats) = 1%nat
       /\ daysPresent (total periodStats) = 1%nat.
Proof.
  split; [reflexivity|]. eexists. split; [reflexivity|]. repeat split.
Qed.

(** C8 (amended).  In the result of [calculatePeriodStats] every day key of
    the daily mapping is in exactly one of the weekday and the weekend
    mapping, the weekend one exactly when the date [parseISO] reads from
    the key is a weekend day (a key it does not read goes to weekday); each
    mapping holds a key once; the daysPresent of weekday, weekend and total
    are the sizes of the three mappings, and weekday.daysPresent +
    weekend.daysPresent = total.daysPresent.  The day keys are those of the
    check-outs with a non-zero duration, and for a check-out of the years 1
    to 9999 the partition is by its calendar date: its day is in the
    weekend mapping exactly when the date of the check-out is a Saturday or
    a Sunday. *)
Theorem weekend_partition_complete :
  forall (records : list Record_) (startDate endDate : Date)
         (periodStats : PeriodStats),
    calculatePeriodStats records startDate endDate = Ret periodStats ->
    exists dailyMinutes,
      periodDailyMinutes records = Ret dailyMinutes
      /\ (forall day, In day (JsMap.keys dailyMinutes) ->
            JsMap.has (fst (partitionDays dailyMinutes)) day
            = negb (isWeekend (parseISO day))
            /\ JsMap.has (snd (partitionDays dailyMinutes)) day
               = isWeekend (parseISO day))
      /\ NoDup (JsMap.keys (fst (partitionDays dailyMinutes)))
      /\ NoDup (JsMap.keys (snd (partitionDays dailyMinutes)))
      /\ daysPresent (weekday periodStats)
         = JsMap.size (fst (partitionDays dailyMinutes))
      /\ daysPresent (weekend periodStats)
         = JsMap.size (snd (partitionDays dailyMinutes))
      /\ daysPresent (total periodStats) = JsMap.size dailyMinutes
      /\ (daysPresent (weekday periodStats) + daysPresent (weekend periodStats)
          = daysPresent (total periodStats))%nat
      /\ (forall day,
            In day (JsMap.keys dailyMinutes)
            <-> exists r, In r records /\ counted r = true
                          /\ formatDateKey (timestamp r) = Ret day)
      /\ (forall r time,
            In r records -> counted r = true -> timestamp r = ValidDate time ->
            startOfYear1 <= time < startOfYear10000 ->
            JsMap.has (fst (partitionDays dailyMinutes)) (dayKey time)
            = negb (isWeekend (ValidDate time))
            /\ JsMap.has (snd (partitionDays dailyMinutes)) (dayKey time)
               = isWeekend (ValidDate time)).
Proof.
  intros records startDate endDate periodStats. unfold calculatePeriodStats.
  destruct (periodDailyMinutes records) as [dm| |] eqn:Hdm; cbn [bind];
    try discriminate.
  intros E. inversion E as [Ep]. clear E. exists dm.
  destruct (partition_complete _ Hdm) as (Hone & Hwd & Hwe & Hsize).
  pose proof (periodDailyMinutes_keys _ Hdm) as Hkeys.
  unfold periodRollup.
  destruct (partitionDays dm) as [weekdayMinutes weekendMinutes]; cbn [fst snd] in *.
  cbn [weekday weekend total daysPresent].
  split; [reflexivity|]. split; [exact Hone|]. split; [exact Hwd|].
  split; [exact Hwe|]. split; [reflexivity|]. split; [reflexivity|].
  split; [reflexivity|]. split; [exact Hsize|]. split; [exact Hkeys|].
  intros r time Hr Hc Ets Hyears.
  rewrite <- (isWeekend_fourDigitYear Hyears). apply Hone.
  apply Hkeys. exists r. rewrite Ets. auto.
Qed.

Lemma weekend_partition_complete_witness :
  exists dailyMinutes,
    periodDailyMinutes overnight = Ret dailyMinutes
    /\ (forall day, In day (JsMap.keys dailyMinutes) ->
          JsMap.has (fst (partitionDays dailyMinutes)) day
          = negb (isWeekend (parseISO day))
          /\ JsMap.has (snd (partitionDays dailyMinutes)) day
             = isWeekend (parseISO day))
    /\ NoDup (JsMap.keys (fst (partitionDays dailyMinutes)))
    /\ NoDup (JsMap.keys (snd (partitionDays dailyMinutes)))
    /\ daysPresent (weekday (periodRollup [((2024, 3, 11), 120)]))
       = JsMap.size (fst (partitionDays dailyMinutes))
    /\ daysPresent (weekend (periodRollup [((2024, 3, 11), 120)]))
       = JsMap.size (snd (partitionDays dailyMinutes))
    /\ daysPresent (total (periodRollup [((2024, 3, 11), 120)]))
       = JsMap.size dailyMinutes
    /\ (daysPresent (weekday (periodRollup [((2024, 3, 11), 120)]%Z))
        + daysPresent (weekend (periodRollup [((2024, 3, 11), 120)]%Z))
        = daysPresent (total (periodRollup [((2024, 3, 11), 120)]%Z)))%nat
    /\ (forall day,
          In day (JsMap.keys dailyMinutes)
          <-> exists r, In r overnight /\ counted r = true
                        /\ formatDateKey (timestamp r) = Ret day)
    /\ (forall r time,
          In r overnight -> counted r = true -> timestamp r = ValidDate time ->
          startOfYear1 <= time < startOfYear10000 ->
          JsMap.has (fst (partitionDays dailyMinutes)) (dayKey time)
          = negb (isWeekend (ValidDate time))
          /\ JsMap.has (snd (partitionDays dailyMinutes)) (dayKey time)
             = isWeekend (ValidDate time)).
Proof.
  apply (@weekend_partition_complete overnight InvalidDate InvalidDate).
  reflexivity.
Defined.

(** C9.  On the empty record list [calculateStats] returns
    {totalTime: 0, averageTime: 0, daysPresent: 0} at once (the early return
    of lines 72-78, before any mapping is built), and [calculatePeriodStats]
    returns empty daily, weekly and monthly maps with weekday, weekend and
    total all {totalTime: 0, averageTime: 0, daysPresent: 0}. *)
Theorem empty_input_stats :
  forall (fuel : nat) (startDate endDate : Date),
    calculateStats fuel [] = Ret zeroStats
    /\ calculatePeriodStats [] startDate endDate
       = Ret {| daily := []; weekly := []; monthly := [];
                weekday := zeroStats; weekend := zeroStats; total := zeroStats |}.
Proof. intros fuel startDate endDate. split; reflexivity. Qed.

(** C10.  The result of [calculatePeriodStats] does not depend on
    [startDate] and [endDate]: two calls on the same records return the same
    outcome whatever the two ranges, so no record is left out for lying
    outside the range. *)
Theorem calculatePeriodStats_ignores_range :
  forall (records : list Record_) (startDate endDate startDate' endDate' : Date),
    calculatePeriodStats records startDate endDate
    = calculatePeriodStats records startDate' endDate'.
Proof. intros. reflexivity. Qed.

(* ================================================================== *)
(** * Further lemmas *)

(* ------------------------------------------------------------------ *)
(** ** Sorting *)

Section SortMore.
Context {A : Type} (compareFn : A -> A -> Z).

Lemma insertSorted_perm x l : Permutation (insertSorted compareFn x l) (x :: l).
Proof.
  induction l as [|y l IH]; simpl; [reflexivity|].
  destruct (compareFn x y <=? 0); [reflexivity|].
  rewrite IH. apply perm_swap.
Qed.

Lemma sort_perm l : Permutation (sort compareFn l) l.
Proof.
  induction l as [|x l IH]; simpl; [reflexivity|].
  rewrite insertSorted_perm. constructor. assumption.
Qed.
End SortMore.

Section SortByKey.
Context {A : Type} (key : A -> Z).

Lemma insertSorted_sorted x l :
  StronglySorted (fun a b => key b <= key a) l ->
  StronglySorted (fun a b => key b <= key a) (insertSorted (keyDesc key) x l).
Proof.
  induction l as [|y l IH]; simpl; intros Hs.
  - repeat constructor.
  - inversion Hs as [|? ? Hl Hy]; subst.
    destruct (keyDesc key x y <=? 0) eqn:E; unfold keyDesc in E.
    + apply Z.leb_le in E. constructor; [assumption|].
      constructor; [lia|]. rewrite Forall_forall in *. intros z Hz.
      specialize (Hy z Hz). lia.
    + apply Z.leb_gt in E. constructor; [apply IH; assumption|].
      rewrite Forall_forall in *. intros z Hz.
      apply in_insertSorted in Hz as [->|Hz]; [lia|apply Hy; assumption].
Qed.

Lemma sort_sorted l : StronglySorted (fun a b => key b <= key a) (sort (keyDesc key) l).
Proof.
  induction l as [|x l IH]; simpl; [constructor|].
  apply insertSorted_sorted. assumption.
Qed.

Lemma insertSorted_stable t x l :
  filter (fun a => key a =? t) (insertSorted (keyDesc key) x l)
  = filter (fun a => key a =? t) (x :: l).
Proof.
  induction l as [|y l IH]; simpl; [reflexivity|].
  destruct (keyDesc key x y <=? 0) eqn:E; [reflexivity|].
  apply Z.leb_gt in E. unfold keyDesc in E. simpl. rewrite IH. simpl.
  destruct (key x =? t) eqn:Ex, (key y =? t) eqn:Ey; try reflexivity.
  apply Z.eqb_eq in Ex, Ey. lia.
Qed.

Lemma sort_stable t l :
  filter (fun a => key a =? t) (sort (keyDesc key) l) = filter (fun a => key a =? t) l.
Proof.
  induction l as [|x l IH]; simpl; [reflexivity|].
  rewrite insertSorted_stable. simpl. rewrite IH. reflexivity.
Qed.
End SortByKey.

Lemma compareMembersStats_eq membersStats :
  compareMembersStats membersStats = sort (keyDesc snd) (memberTotals membersStats).
Proof.
  unfold compareMembersStats, memberTotals.
  enough (G : forall l acc,
    fold_left
      (fun (result : list (string * Z)) (entry : string * Stats) =>
         let '(memberId, stats) := entry in result ++ [(memberId, totalTime stats)])
      l acc
    = acc ++ map (fun entry => (fst entry, totalTime (snd entry))) l)
    by (rewrite G; reflexivity).
  induction l as [|[k s] l IH]; intros acc; simpl.
  - rewrite app_nil_r. reflexivity.
  - rewrite IH, <- app_assoc. reflexivity.
Qed.

(* ------------------------------------------------------------------ *)
(** ** The shape of a split *)

Lemma fullDays_S first n :
  fullDays first (S n) = (keyOfDay first, 1440) :: fullDays (first + 1) n.
Proof.
  unfold fullDays. simpl. rewrite Z.add_0_r. f_equal.
  rewrite <- seq_shift, map_map. apply map_ext. intros i.
  do 2 f_equal. lia.
Qed.

Lemma splitLoop_shape n : forall fuel currentDay outTime result,
  firstDayOfYear1 <= dayNumber currentDay ->
  dayNumber outTime = dayNumber currentDay + Z.of_nat n ->
  (n <= fuel)%nat ->
  keysBefore (dayNumber currentDay) result ->
  exists currentDay',
    splitLoop fuel currentDay outTime result
    = Ret (currentDay', result ++ fullDays (dayNumber currentDay) n)
    /\ dayNumber currentDay' = dayNumber outTime
    /\ keysBefore (dayNumber outTime) (result ++ fullDays (dayNumber currentDay) n).
Proof.
  induction n as [|n IH]; intros fuel cur out result Hce Hday Hfuel Hkeys.
  - exists cur. unfold fullDays. simpl. rewrite app_nil_r.
    assert (E : dayNumber cur = dayNumber out) by lia.
    rewrite splitLoop_eq, (dayKey_same_day _ _ E). repeat split; auto.
    rewrite <- E. assumption.
  - destruct fuel as [|fuel]; [lia|].
    assert (Hne : keyEqb (dayKey cur) (dayKey out) = false).
    { apply keyEqb_neq. rewrite !dayKey_keyOfDay. intros E.
      apply keyOfDay_inj in E; lia. }
    rewrite splitLoop_eq, Hne.
    assert (Eset : JsMap.set result (dayKey cur) 1440
                   = result ++ [(keyOfDay (dayNumber cur), 1440)]).
    { rewrite dayKey_keyOfDay. apply set_fresh.
      apply keysBefore_fresh with (bound := dayNumber cur); auto; lia. }
    destruct (IH fuel (addDays cur 1) out (JsMap.set result (dayKey cur) 1440))
      as (cur' & Hrun & Hd' & Hk').
    + rewrite dayNumber_addDays. lia.
    + rewrite dayNumber_addDays. lia.
    + lia.
    + rewrite dayNumber_addDays, dayKey_keyOfDay.
      apply keysBefore_set with (bound := dayNumber cur); auto; lia.
    + rewrite dayNumber_addDays in Hrun, Hk'. rewrite Hrun.
      rewrite Eset in *. rewrite <- app_assoc in *.
      exists cur'. rewrite fullDays_S. repeat split; auto.
Qed.

Lemma splitStayByDays_shape inTime outTime :
  startOfYear1 <= inTime -> inTime < outTime ->
  forall fuel, (Z.to_nat (dayNumber outTime - dayNumber inTime) <= fuel)%nat ->
  splitStayByDays fuel (ValidDate inTime) (ValidDate outTime)
  = Ret (calendarSplit inTime outTime).
Proof.
  intros Hce Hlt fuel Hfuel.
  pose proof (proj1 (dayNumber_startOfYear1 inTime) Hce) as Hce'.
  pose proof (dayNumber_mono (a := inTime) (b := outTime) ltac:(lia)) as Hmono.
  unfold splitStayByDays, calendarSplit. cbv zeta.
  destruct (dayNumber inTime =? dayNumber outTime) eqn:Eday.
  - apply Z.eqb_eq in Eday. rewrite (dayKey_same_day _ _ Eday).
    cbn [JsMap.set JsMap.empty]. rewrite differenceInMinutes_nonneg by lia.
    rewrite dayKey_keyOfDay. reflexivity.
  - apply Z.eqb_neq in Eday.
    assert (Hne : keyEqb (dayKey inTime) (dayKey outTime) = false).
    { apply keyEqb_neq. rewrite !dayKey_keyOfDay. intros E.
      apply keyOfDay_inj in E; lia. }
    rewrite Hne.
    set (n := Z.to_nat (dayNumber outTime - dayNumber inTime - 1)).
    destruct (@splitLoop_shape n fuel (addDays inTime 1) outTime
                (JsMap.set JsMap.empty (dayKey inTime)
                   (differenceInMinutes (endOfDay inTime) inTime)))
      as (cur' & Hrun & Hd' & Hk').
    + rewrite dayNumber_addDays. lia.
    + rewrite dayNumber_addDays. lia.
    + lia.
    + rewrite dayNumber_addDays, dayKey_keyOfDay. cbn [JsMap.set JsMap.empty].
      apply keysBefore_singleton. assumption.
    + rewrite Hrun. cbn [bind]. rewrite (dayKey_same_day _ _ Hd').
      rewrite (dayKey_keyOfDay cur'), Hd', set_fresh
        by (apply keysBefore_fresh with (bound := dayNumber outTime); auto; lia).
      assert (Ha : 0 <= inTime mod millisecondsInDay < millisecondsInDay)
        by (apply Z.mod_pos_bound; reflexivity).
      assert (Hb : 0 <= outTime mod millisecondsInDay < millisecondsInDay)
        by (apply Z.mod_pos_bound; reflexivity).
      rewrite !differenceInMinutes_nonneg by (unfold endOfDay, startOfDay; lia).
      rewrite dayNumber_addDays, dayKey_keyOfDay. cbn [JsMap.set JsMap.empty app].
      unfold endOfDay, startOfDay.
      replace (inTime - inTime mod millisecondsInDay + (millisecondsInDay - 1) - inTime)
        with (millisecondsInDay - 1 - inTime mod millisecondsInDay) by lia.
      replace (outTime - (outTime - outTime mod millisecondsInDay))
        with (outTime mod millisecondsInDay) by lia.
      reflexivity.
Qed.

Lemma splitLoop_nonneg fuel : forall currentDay outTime result st,
  allValues nonNegative result ->
  splitLoop fuel currentDay outTime result = Ret st ->
  allValues nonNegative (snd st).
Proof.
  induction fuel as [|fuel IH]; intros cur out result st Hres Hrun;
    rewrite splitLoop_eq in Hrun;
    destruct (keyEqb (dayKey cur) (dayKey out)).
  - inversion Hrun; subst. assumption.
  - discriminate.
  - inversion Hrun; subst. assumption.
  - apply IH in Hrun; [assumption|].
    apply allValues_set; [assumption|unfold nonNegative; lia].
Qed.

Lemma differenceInMinutes_sign later earlier :
  earlier <= later -> 0 <= differenceInMinutes later earlier.
Proof.
  intros Hle. rewrite differenceInMinutes_nonneg by assumption.
  unfold millisecondsInMinute. zdiv.
Qed.

Lemma splitStayByDays_nonneg inTime outTime fuel m :
  isBefore inTime outTime = true ->
  splitStayByDays fuel inTime outTime = Ret m ->
  allValues nonNegative m.
Proof.
  intros Hb. apply isBefore_true in Hb as (ti & to & -> & -> & Hlt).
  unfold splitStayByDays.
  assert (Ha : 0 <= ti mod millisecondsInDay < millisecondsInDay)
    by (apply Z.mod_pos_bound; reflexivity).
  assert (Hb : 0 <= to mod millisecondsInDay < millisecondsInDay)
    by (apply Z.mod_pos_bound; reflexivity).
  destruct (keyEqb (dayKey ti) (dayKey to)) eqn:Esame.
  - intros E. inversion E. cbn [JsMap.set JsMap.empty].
    constructor; [|constructor]. apply differenceInMinutes_sign. lia.
  - destruct (splitLoop fuel _ _ _) as [[cur' result']| |] eqn:Hrun;
      cbn [bind]; try discriminate.
    apply splitLoop_nonneg in Hrun.
    + cbn [snd] in Hrun.
      destruct (keyEqb (dayKey cur') (dayKey to)); intros E; inversion E; subst;
        [|assumption].
      apply allValues_set; [assumption|].
      apply differenceInMinutes_sign. unfold startOfDay. lia.
    + cbn [JsMap.set JsMap.empty]. constructor; [|constructor].
      apply differenceInMinutes_sign. unfold endOfDay, startOfDay. lia.
Qed.

Lemma fullDays_values first n : allValues minutesOfADay (fullDays first n).
Proof.
  unfold fullDays, allValues. apply Forall_forall. intros e He.
  apply in_map_iff in He as (i & <- & _). unfold minutesOfADay. simpl. lia.
Qed.

Lemma calendarSplit_values inTime outTime :
  inTime < outTime -> allValues minutesOfADay (calendarSplit inTime outTime).
Proof.
  intros Hlt. unfold calendarSplit. cbv zeta.
  assert (Ha : 0 <= inTime mod millisecondsInDay < millisecondsInDay)
    by (apply Z.mod_pos_bound; reflexivity).
  assert (Hb : 0 <= outTime mod millisecondsInDay < millisecondsInDay)
    by (apply Z.mod_pos_bound; reflexivity).
  destruct (dayNumber inTime =? dayNumber outTime) eqn:Eday.
  - apply Z.eqb_eq in Eday. constructor; [|constructor].
    unfold minutesOfADay, dayNumber, millisecondsInDay, millisecondsInMinute in *.
    cbn [snd]. zdiv.
  - constructor.
    + unfold minutesOfADay, millisecondsInDay, millisecondsInMinute in *.
      cbn [snd]. zdiv.
    + apply Forall_app. split; [apply fullDays_values|].
      constructor; [|constructor].
      unfold minutesOfADay, millisecondsInDay, millisecondsInMinute in *.
      cbn [snd]. zdiv.
Qed.

(** The loop does not reach a check-out day that is before the current
    day: whatever the steps given, it has not ended. *)
Lemma splitLoop_not_ended fuel : forall currentDay outTime result,
  firstDayOfYear1 <= dayNumber outTime ->
  dayNumber outTime < dayNumber currentDay ->
  splitLoop fuel currentDay outTime result = OutOfFuel.
Proof.
  induction fuel as [|fuel IH]; intros cur out result Hce Hlt;
    rewrite splitLoop_eq;
    (assert (Hne : keyEqb (dayKey cur) (dayKey out) = false)
      by (apply keyEqb_neq; rewrite !dayKey_keyOfDay; intros E;
          apply keyOfDay_inj in E; lia));
    rewrite Hne; [reflexivity|].
  apply IH; [assumption|]. rewrite dayNumber_addDays. lia.
Qed.

Lemma splitStayByDays_not_ended inTime outTime fuel :
  startOfYear1 <= outTime -> dayNumber outTime < dayNumber inTime ->
  splitStayByDays fuel (ValidDate inTime) (ValidDate outTime) = OutOfFuel.
Proof.
  intros Hce Hlt. apply dayNumber_startOfYear1 in Hce.
  unfold splitStayByDays.
  assert (Hne : keyEqb (dayKey inTime) (dayKey outTime) = false)
    by (apply keyEqb_neq; rewrite !dayKey_keyOfDay; intros E;
        apply keyOfDay_inj in E; lia).
  rewrite Hne, splitLoop_not_ended; [reflexivity|assumption|].
  rewrite dayNumber_addDays. lia.
Qed.

(* ------------------------------------------------------------------ *)
(** ** The first of the latest check-ins *)

Lemma hd_sort_first l :
  Forall (fun r => timestamp r <> InvalidDate) l ->
  forall m, hd_error (sort byTimeDesc l) = Some m ->
  exists l1 l2, l = l1 ++ m :: l2
    /\ forall r, In r l1 -> isBefore (timestamp r) (timestamp m) = true.
Proof.
  induction l as [|a l IH]; intros Hvalid m Hm; [discriminate|].
  inversion Hvalid as [|? ? Ha Hl]; subst.
  simpl in Hm. rewrite hd_insertSorted in Hm.
  destruct (hd_error (sort byTimeDesc l)) as [y|] eqn:Ehd.
  - destruct (IH Hl y eq_refl) as (l1 & l2 & El & Hl1).
    assert (Hy : timestamp y <> InvalidDate).
    { rewrite Forall_forall in Hl. apply Hl. rewrite El.
      apply in_or_app. right. left. reflexivity. }
    unfold byTimeDesc in Hm.
    destruct (timestamp y) as [ty|] eqn:Ey; [|congruence].
    destruct (timestamp a) as [ta|] eqn:Ea; [|congruence].
    destruct (ty - ta <=? 0) eqn:Ecmp; inversion Hm; subst m.
    + exists [], l. split; [reflexivity|]. intros r [].
    + apply Z.leb_gt in Ecmp. exists (a :: l1), l2. split; [rewrite El; reflexivity|].
      rewrite Ey. intros r [Er|Hr]; [subst r|apply Hl1; assumption].
      rewrite Ea. simpl. apply Z.ltb_lt. lia.
  - inversion Hm; subst m. exists [], l. split; [reflexivity|]. intros r [].
Qed.

Lemma filter_split {A : Type} (p : A -> bool) l : forall f1 x f2,
  filter p l = f1 ++ x :: f2 ->
  exists l1 l2, l = l1 ++ x :: l2 /\ filter p l1 = f1 /\ filter p l2 = f2.
Proof.
  induction l as [|a l IH]; intros f1 x f2 E; simpl in E.
  - destruct f1; discriminate.
  - destruct (p a) eqn:Ea.
    + destruct f1 as [|b f1]; simpl in E; inversion E; subst.
      * exists [], l. repeat split; reflexivity.
      * destruct (IH _ _ _ H1) as (l1 & l2 & El & E1 & E2).
        exists (b :: l1), l2. subst. simpl. rewrite Ea. repeat split; reflexivity.
    + destruct (IH _ _ _ E) as (l1 & l2 & El & E1 & E2).
      exists (a :: l1), l2. subst. simpl. rewrite Ea. repeat split; reflexivity.
Qed.

Lemma matchingInRecord_first_seen inRecords outRecord m :
  matchingInRecord inRecords outRecord = Some m ->
  exists before after,
    inRecords = before ++ m :: after
    /\ forall r, In r before ->
         isBefore (timestamp r) (timestamp outRecord) = true ->
         isBefore (timestamp r) (timestamp m) = true.
Proof.
  unfold matchingInRecord. intros Hm.
  set (p := fun inRecord => isBefore (timestamp inRecord) (timestamp outRecord)) in *.
  destruct (@hd_sort_first (filter p inRecords)) with (m := m)
    as (f1 & f2 & Ef & Hf1); [|assumption|].
  - apply Forall_forall. intros x Hx. apply filter_In in Hx as [_ Hx].
    apply isBefore_true in Hx as (tx & _ & Ex & _). congruence.
  - apply filter_split in Ef as (l1 & l2 & El & E1 & E2).
    exists l1, l2. split; [assumption|]. intros r Hr Hb.
    apply Hf1. rewrite <- E1. apply filter_In. auto.
Qed.

(* ------------------------------------------------------------------ *)
(** ** Contributions of the check-outs, in any order *)

Lemma processOut_contributions fuel inRecords dm outRecord :
  processOut fuel inRecords dm outRecord
  = (c <- contributions fuel inRecords outRecord ;; Ret (fold_left addEntry c dm)).
Proof.
  unfold processOut, contributions.
  destruct (negb (truthy (duration outRecord))); [reflexivity|].
  destruct (matchingInRecord inRecords outRecord); [reflexivity|].
  destruct (formatDateKey (timestamp outRecord)); reflexivity.
Qed.

Lemma forEachM_contributions fuel inRecords outRecords : forall dm,
  forEachM (processOut fuel inRecords) outRecords dm
  = (cs <- allContributions fuel inRecords outRecords ;;
     Ret (fold_left addEntry cs dm)).
Proof.
  induction outRecords as [|o l IH]; intros dm; simpl; [reflexivity|].
  rewrite processOut_contributions.
  destruct (contributions fuel inRecords o) as [c| |]; simpl; try reflexivity.
  rewrite IH.
  destruct (allContributions fuel inRecords l) as [cs| |]; simpl; try reflexivity.
  rewrite fold_left_app. reflexivity.
Qed.

Lemma statsDailyMinutes_contributions fuel records :
  statsDailyMinutes fuel records
  = (cs <- allContributions fuel (filter isIn records) (filter isOut records) ;;
     Ret (fold_left addEntry cs JsMap.empty)).
Proof.
  unfold statsDailyMinutes. rewrite classify_filter. apply forEachM_contributions.
Qed.

Lemma totals_fold (dm : JsMap.t DayKey Z) : forall a b,
  fst (fold_left
         (fun (acc : Z * Z) (entry : DayKey * Z) =>
            let '(totalTime, longestStay) := acc in
            (totalTime + snd entry, Z.max longestStay (snd entry)))
         dm (a, b))
  = a + sumMinutes dm.
Proof.
  induction dm as [|e dm IH]; intros a b; simpl.
  - unfold sumMinutes. simpl. lia.
  - rewrite IH, sumMinutes_cons. lia.
Qed.

Lemma calculateStats_eq fuel records :
  calculateStats fuel records
  = if (length records =? 0)%nat then Ret zeroStats
    else
      dm <- statsDailyMinutes fuel records ;;
      Ret {| totalTime := sumMinutes dm;
             averageTime := average (sumMinutes dm) (JsMap.size dm);
             daysPresent := JsMap.size dm |}.
Proof.
  unfold calculateStats. destruct (length records =? 0)%nat; [reflexivity|].
  destruct (statsDailyMinutes fuel records) as [dm| |]; simpl; try reflexivity.
  pose proof (totals_fold dm 0 0) as E.
  destruct (fold_left _ dm (0, 0)) as [t l]. simpl in E. subst t. reflexivity.
Qed.

(** Sums and keys of accumulated entries. *)
Lemma sumMinutes_fold_addEntry cs : forall dm,
  sumMinutes (fold_left addEntry cs dm) = sumMinutes dm + sumMinutes cs.
Proof.
  induction cs as [|e cs IH]; intros dm; simpl.
  - unfold sumMinutes at 3. simpl. lia.
  - rewrite IH. unfold addEntry. rewrite sumMinutes_addMinutes, sumMinutes_cons. lia.
Qed.

Lemma sumMinutes_perm (a b : list (DayKey * Z)) :
  Permutation a b -> sumMinutes a = sumMinutes b.
Proof.
  induction 1 as [|x a b _ IH|x y a|a b c _ IH1 _ IH2].
  - reflexivity.
  - rewrite !sumMinutes_cons, IH. reflexivity.
  - rewrite !sumMinutes_cons. lia.
  - congruence.
Qed.

Lemma in_keys_fold_addEntry cs : forall dm x,
  In x (JsMap.keys (fold_left addEntry cs dm))
  <-> In x (JsMap.keys dm) \/ In x (map fst cs).
Proof.
  induction cs as [|e cs IH]; intros dm x; simpl; [tauto|].
  rewrite IH. unfold addEntry, addMinutes. rewrite in_keys_set. intuition congruence.
Qed.

Lemma NoDup_keys_fold_addEntry cs : forall dm,
  NoDup (JsMap.keys dm) -> NoDup (JsMap.keys (fold_left addEntry cs dm)).
Proof.
  induction cs as [|e cs IH]; intros dm Hnd; simpl; [assumption|].
  apply IH. unfold addEntry, addMinutes. apply NoDup_keys_set. assumption.
Qed.

Lemma size_fold_addEntry_perm (a b : list (DayKey * Z)) :
  Permutation a b ->
  JsMap.size (fold_left addEntry a JsMap.empty)
  = JsMap.size (fold_left addEntry b JsMap.empty).
Proof.
  intros Hp. unfold JsMap.size.
  rewrite <- (length_map fst (fold_left addEntry a _)),
          <- (length_map fst (fold_left addEntry b _)).
  apply Permutation_length. apply NoDup_Permutation.
  - apply NoDup_keys_fold_addEntry. constructor.
  - apply NoDup_keys_fold_addEntry. constructor.
  - intros x. fold (JsMap.keys (fold_left addEntry a JsMap.empty)).
    fold (JsMap.keys (fold_left addEntry b JsMap.empty)).
    rewrite !in_keys_fold_addEntry.
    assert (Hm : Permutation (map fst a) (map fst b)) by (apply Permutation_map; assumption).
    split; intros [H|H]; auto; right.
    + apply (Permutation_in _ Hm H).
    + apply (Permutation_in _ (Permutation_sym Hm) H).
Qed.

(** Matching under a permutation of the ['in'] records. *)
Lemma isBefore_antisym a b c :
  isBefore a c = true -> isBefore b c = true ->
  isBefore a b = false -> isBefore b a = false -> a = b.
Proof.
  intros Ha Hb Hab Hba.
  apply isBefore_true in Ha as (ta & tc & -> & _ & _).
  apply isBefore_true in Hb as (tb & _ & -> & _ & _).
  simpl in Hab, Hba. apply Z.ltb_ge in Hab, Hba. f_equal. lia.
Qed.

Lemma matchingInRecord_perm ins ins' outRecord :
  Permutation ins ins' ->
  option_map timestamp (matchingInRecord ins outRecord)
  = option_map timestamp (matchingInRecord ins' outRecord).
Proof.
  intros Hp.
  destruct (matchingInRecord ins outRecord) as [m|] eqn:Em;
    destruct (matchingInRecord ins' outRecord) as [m'|] eqn:Em'; simpl.
  - apply matchingInRecord_Some in Em as (Hin & Hb & Hlatest).
    apply matchingInRecord_Some in Em' as (Hin' & Hb' & Hlatest').
    f_equal. apply isBefore_antisym with (c := timestamp outRecord); auto.
    + apply Hlatest; [apply (Permutation_in _ (Permutation_sym Hp) Hin')|assumption].
    + apply Hlatest'; [apply (Permutation_in _ Hp Hin)|assumption].
  - apply matchingInRecord_Some in Em as (Hin & Hb & _).
    rewrite matchingInRecord_None in Em'.
    rewrite (Em' m (Permutation_in _ Hp Hin)) in Hb. discriminate.
  - apply matchingInRecord_Some in Em' as (Hin' & Hb' & _).
    rewrite matchingInRecord_None in Em.
    rewrite (Em m' (Permutation_in _ (Permutation_sym Hp) Hin')) in Hb'. discriminate.
  - reflexivity.
Qed.

Lemma contributions_perm fuel ins ins' outRecord :
  Permutation ins ins' ->
  contributions fuel ins outRecord = contributions fuel ins' outRecord.
Proof.
  intros Hp. unfold contributions.
  destruct (negb (truthy (duration outRecord))); [reflexivity|].
  pose proof (matchingInRecord_perm outRecord Hp) as E.
  destruct (matchingInRecord ins outRecord), (matchingInRecord ins' outRecord);
    simpl in E; try discriminate; [|reflexivity].
  inversion E as [E']. rewrite E'. reflexivity.
Qed.

Lemma allContributions_ins_perm fuel ins ins' outs :
  Permutation ins ins' ->
  allContributions fuel ins outs = allContributions fuel ins' outs.
Proof.
  intros Hp. induction outs as [|o l IH]; simpl; [reflexivity|].
  rewrite (contributions_perm fuel o Hp), IH. reflexivity.
Qed.

Lemma allContributions_outs_perm fuel ins outs outs' :
  Permutation outs outs' ->
  forall cs, allContributions fuel ins outs = Ret cs ->
  exists cs', allContributions fuel ins outs' = Ret cs' /\ Permutation cs cs'.
Proof.
  induction 1 as [|x a b _ IH|x y a|a b c _ IH1 _ IH2]; intros cs Hcs; simpl in *.
  - inversion Hcs. exists []. auto.
  - destruct (contributions fuel ins x) as [cx| |]; simpl in *; try discriminate.
    destruct (allContributions fuel ins a) as [ca| |]; simpl in *; try discriminate.
    destruct (IH ca eq_refl) as (cb & -> & Hp). simpl.
    inversion Hcs. eexists. split; [reflexivity|].
    apply Permutation_app_head. assumption.
  - destruct (contributions fuel ins y) as [cy| |]; simpl in *; try discriminate.
    destruct (contributions fuel ins x) as [cx| |]; simpl in *; try discriminate.
    destruct (allContributions fuel ins a) as [ca| |]; simpl in *; try discriminate.
    inversion Hcs. eexists. split; [reflexivity|].
    rewrite !app_assoc. apply Permutation_app_tail. apply Permutation_app_comm.
  - destruct (IH1 cs Hcs) as (cb & Hb & Hp1).
    destruct (IH2 cb Hb) as (cc & Hc & Hp2).
    exists cc. split; [assumption|]. apply (perm_trans Hp1 Hp2).
Qed.

Lemma filter_perm {A : Type} (p : A -> bool) (a b : list A) :
  Permutation a b -> Permutation (filter p a) (filter p b).
Proof.
  induction 1 as [|x a b _ IH|x y a|a b c _ IH1 _ IH2]; simpl.
  - constructor.
  - destruct (p x); [constructor|]; assumption.
  - destruct (p x), (p y); try reflexivity. apply perm_swap.
  - apply (perm_trans IH1 IH2).
Qed.

Lemma calculateStats_perm fuel records records' stats :
  Permutation records records' ->
  calculateStats fuel records = Ret stats ->
  calculateStats fuel records' = Ret stats.
Proof.
  intros Hp. rewrite !calculateStats_eq, <- (Permutation_length Hp).
  destruct (length records =? 0)%nat; [auto|].
  rewrite !statsDailyMinutes_contributions.
  destruct (allContributions fuel (filter isIn records) (filter isOut records))
    as [cs| |] eqn:Ecs; simpl; try discriminate.
  rewrite (allContributions_ins_perm fuel (filter isOut records)
             (filter_perm isIn Hp)) in Ecs.
  destruct (allContributions_outs_perm fuel (filter isIn records')
              (filter_perm isOut Hp) Ecs) as (cs' & -> & Hcs).
  simpl. intros E. inversion E. clear E.
  rewrite !sumMinutes_fold_addEntry, (sumMinutes_perm Hcs),
          (size_fold_addEntry_perm Hcs).
  reflexivity.
Qed.

(* ------------------------------------------------------------------ *)
(** ** Signs, the records that count, totals *)

Lemma get_allValues {K V : Type} `{Key K} (P : V -> Prop) (m : JsMap.t K V) k v :
  allValues P m -> JsMap.get m k = Some v -> P v.
Proof.
  unfold allValues. induction m as [|[k' v'] m IH]; simpl; [discriminate|].
  intros Hall. inversion Hall; subst.
  destruct (keyEqb k' k); [intros E; inversion E; subst; assumption|auto].
Qed.

Lemma addMinutes_nonneg (m : JsMap.t DayKey Z) k x :
  allValues nonNegative m -> 0 <= x -> allValues nonNegative (addMinutes m k x).
Proof.
  intros Hm Hx. unfold addMinutes. apply allValues_set; [assumption|].
  unfold nonNegative. destruct (JsMap.get m k) as [v|] eqn:E; simpl; [|lia].
  assert (Hv : nonNegative v) by apply (@get_allValues DayKey Z _ nonNegative m k v Hm E).
  unfold nonNegative in Hv. lia.
Qed.

Lemma fold_addEntry_nonneg cs : forall dm,
  allValues nonNegative dm -> allValues nonNegative cs ->
  allValues nonNegative (fold_left addEntry cs dm).
Proof.
  induction cs as [|e cs IH]; intros dm Hdm Hcs; simpl; [assumption|].
  inversion Hcs; subst. apply IH; [|assumption].
  apply addMinutes_nonneg; assumption.
Qed.

Lemma sumMinutes_nonneg (m : JsMap.t DayKey Z) :
  allValues nonNegative m -> 0 <= sumMinutes m.
Proof.
  induction m as [|e m IH]; intros Hm.
  - unfold sumMinutes. simpl. lia.
  - inversion Hm; subst. rewrite sumMinutes_cons.
    unfold nonNegative in *. specialize (IH H2). lia.
Qed.

Lemma contributions_nonneg fuel ins o c :
  (forall d, duration o = Some d -> 0 <= d) ->
  contributions fuel ins o = Ret c -> allValues nonNegative c.
Proof.
  intros Hd. unfold contributions.
  destruct (negb (truthy (duration o))).
  - intros E; inversion E. constructor.
  - destruct (matchingInRecord ins o) as [m|] eqn:Em.
    + apply matchingInRecord_Some in Em as (_ & Hb & _).
      apply splitStayByDays_nonneg. assumption.
    + destruct (formatDateKey (timestamp o)); simpl; try discriminate.
      intros E; inversion E. constructor; [|constructor].
      unfold nonNegative. simpl. destruct (duration o); simpl; [auto|lia].
Qed.

Lemma allContributions_nonneg fuel ins outs : forall cs,
  durationsNonNegative outs ->
  allContributions fuel ins outs = Ret cs -> allValues nonNegative cs.
Proof.
  induction outs as [|o l IH]; intros cs Hd; simpl.
  - intros E; inversion E. constructor.
  - destruct (contributions fuel ins o) as [c| |] eqn:Ec; simpl; try discriminate.
    destruct (allContributions fuel ins l) as [cl| |]; simpl; try discriminate.
    intros E; inversion E. apply Forall_app. split.
    + apply (contributions_nonneg fuel ins o); [|assumption].
      intros d. apply Hd. left; reflexivity.
    + apply IH; [|reflexivity]. intros r d Hr. apply Hd. right; assumption.
Qed.

Lemma statsDailyMinutes_nonneg fuel records dm :
  durationsNonNegative records ->
  statsDailyMinutes fuel records = Ret dm -> allValues nonNegative dm.
Proof.
  intros Hd. rewrite statsDailyMinutes_contributions.
  destruct (allContributions _ _ _) as [cs| |] eqn:Ecs; simpl; try discriminate.
  intros E; inversion E. apply fold_addEntry_nonneg; [constructor|].
  apply (allContributions_nonneg fuel (filter isIn records) (outs := filter isOut records));
    [|assumption].
  intros r d Hr. apply Hd. apply filter_In in Hr. tauto.
Qed.

Lemma periodDailyMinutes_nonneg records dm :
  durationsNonNegative records ->
  periodDailyMinutes records = Ret dm -> allValues nonNegative dm.
Proof.
  intros Hd. unfold periodDailyMinutes.
  assert (H0 : allValues nonNegative (@JsMap.empty DayKey Z)) by constructor.
  revert H0 Hd. generalize (@JsMap.empty DayKey Z).
  induction records as [|r l IH]; intros dm0 H0 Hd; simpl.
  - intros E; inversion E; subst. assumption.
  - destruct (String.eqb (type r) "out" && truthy (duration r)).
    + destruct (formatDateKey (timestamp r)); simpl; try discriminate.
      apply IH.
      * apply addMinutes_nonneg; [assumption|].
        destruct (duration r) as [d|] eqn:Er; simpl; [|lia].
        apply (Hd r d); [left; reflexivity|assumption].
      * intros x d Hx. apply Hd. right; assumption.
    + simpl. apply IH; [assumption|]. intros x d Hx. apply Hd. right; assumption.
Qed.

Lemma filter_filter_impl {A : Type} (p q : A -> bool) l :
  (forall x, p x = true -> q x = true) -> filter p (filter q l) = filter p l.
Proof.
  intros Hpq. induction l as [|a l IH]; simpl; [reflexivity|].
  destruct (q a) eqn:Eq; simpl.
  - destruct (p a); rewrite IH; reflexivity.
  - destruct (p a) eqn:Ep; [|assumption].
    rewrite (Hpq a Ep) in Eq. discriminate.
Qed.

Lemma calculateStats_other_types fuel records :
  calculateStats fuel (filter (fun r => isIn r || isOut r) records)
  = calculateStats fuel records.
Proof.
  rewrite !calculateStats_eq. unfold statsDailyMinutes. rewrite !classify_filter.
  rewrite !filter_filter_impl
    by (intros x Hx; rewrite Hx; auto using orb_true_r).
  destruct records as [|r l]; [reflexivity|].
  destruct (filter _ (r :: l)) as [|r' l'] eqn:Ef; [|reflexivity].
  assert (Ein : filter isIn (r :: l) = []).
  { rewrite <- (@filter_filter_impl _ isIn (fun r => isIn r || isOut r))
      by (intros x Hx; rewrite Hx; reflexivity).
    rewrite Ef. reflexivity. }
  assert (Eout : filter isOut (r :: l) = []).
  { rewrite <- (@filter_filter_impl _ isOut (fun r => isIn r || isOut r))
      by (intros x Hx; rewrite Hx; apply orb_true_r).
    rewrite Ef. reflexivity. }
  rewrite Ein, Eout. reflexivity.
Qed.

Lemma forEachM_periodStep_counted records : forall dm,
  forEachM periodStep (filter counted records) dm = forEachM periodStep records dm.
Proof.
  induction records as [|r l IH]; intros dm; simpl; [reflexivity|].
  unfold counted at 1, isOut. unfold periodStep at 2.
  destruct (String.eqb (type r) "out" && truthy (duration r)) eqn:E.
  - simpl. unfold periodStep at 1. rewrite E.
    destruct (formatDateKey (timestamp r)); simpl; auto.
  - simpl. apply IH.
Qed.

Lemma calculatePeriodStats_counted records startDate endDate :
  calculatePeriodStats (filter counted records) startDate endDate
  = calculatePeriodStats records startDate endDate.
Proof.
  unfold calculatePeriodStats. rewrite !periodDailyMinutes_forEach.
  rewrite forEachM_periodStep_counted. reflexivity.
Qed.

Lemma forEachM_processOut_no_in fuel records : forall dm,
  forEachM (processOut fuel []) (filter isOut records) dm
  = forEachM periodStep records dm.
Proof.
  induction records as [|r l IH]; intros dm; [reflexivity|].
  cbn [filter forEachM]. destruct (isOut r) eqn:Et.
  - assert (E : processOut fuel [] dm r = periodStep dm r).
    { unfold processOut, periodStep. unfold isOut in Et. rewrite Et. simpl.
      destruct (truthy (duration r)); reflexivity. }
    cbn [forEachM]. rewrite E. destruct (periodStep dm r); simpl; auto.
  - assert (E : periodStep dm r = Ret dm).
    { unfold periodStep. unfold isOut in Et. rewrite Et. reflexivity. }
    rewrite E. simpl. apply IH.
Qed.

Lemma calculateStats_no_checkin fuel records startDate endDate :
  filter isIn records = [] ->
  calculateStats fuel records
  = (periodStats <- calculatePeriodStats records startDate endDate ;;
     Ret (total periodStats)).
Proof.
  intros Hno. rewrite calculateStats_eq. unfold calculatePeriodStats.
  destruct records as [|r l]; [reflexivity|].
  cbn [length Nat.eqb]. unfold statsDailyMinutes.
  rewrite classify_filter, Hno, forEachM_processOut_no_in, periodDailyMinutes_forEach.
  destruct (forEachM periodStep (r :: l) JsMap.empty) as [dm| |]; simpl; try reflexivity.
  unfold periodRollup. destruct (partitionDays dm). reflexivity.
Qed.

Lemma sumMinutes_filter_split (p : DayKey * Z -> bool) (m : JsMap.t DayKey Z) :
  sumMinutes (filter (fun e => negb (p e)) m) + sumMinutes (filter p m) = sumMinutes m.
Proof.
  induction m as [|e m IH]; simpl; [reflexivity|].
  destruct (p e); simpl; rewrite !sumMinutes_cons; lia.
Qed.

Lemma periodDailyMinutes_sum records : forall dm0 dm,
  forEachM periodStep records dm0 = Ret dm ->
  sumMinutes dm = sumMinutes dm0 + sumDurations (filter counted records).
Proof.
  induction records as [|r l IH]; intros dm0 dm; simpl.
  - intros E; inversion E. lia.
  - unfold periodStep at 1, counted at 1, isOut.
    destruct (String.eqb (type r) "out" && truthy (duration r)); simpl.
    + destruct (formatDateKey (timestamp r)); simpl; try discriminate.
      intros E. rewrite (IH _ _ E), sumMinutes_addMinutes. lia.
    + apply IH.
Qed.

Lemma dailyStats_map dailyMinutes :
  NoDup (JsMap.keys dailyMinutes) ->
  dailyStats dailyMinutes
  = map (fun entry =>
           (fst entry,
            {| totalTime := snd entry; averageTime := inject_Z (snd entry);
               daysPresent := 1 |}))
      dailyMinutes.
Proof.
  unfold dailyStats. intros Hnd.
  enough (G : forall l (acc : JsMap.t DayKey Stats),
    NoDup (JsMap.keys l) ->
    (forall k, In k (JsMap.keys l) -> ~ In k (JsMap.keys acc)) ->
    fold_left
      (fun (daily : JsMap.t DayKey Stats) (entry : DayKey * Z) =>
         let '(dateKey, minutes) := entry in
         JsMap.set daily dateKey
           {| totalTime := minutes; averageTime := inject_Z minutes; daysPresent := 1 |})
      l acc
    = acc ++ map (fun entry =>
           (fst entry,
            {| totalTime := snd entry; averageTime := inject_Z (snd entry);
               daysPresent := 1 |})) l)
    by (apply (G dailyMinutes JsMap.empty Hnd); intros k _ []).
  induction l as [|[k v] l IH]; intros acc Hl Hfresh; simpl.
  - rewrite app_nil_r. reflexivity.
  - inversion Hl as [|? ? Hk Hl']; subst.
    rewrite set_fresh
      by (apply get_None_keys; apply Hfresh; left; reflexivity).
    rewrite IH; [rewrite <- app_assoc; reflexivity|assumption|].
    intros k' Hk'. unfold JsMap.keys. rewrite map_app, in_app_iff. simpl.
    intros [Hin|[<-|[]]]; [|apply Hk; assumption].
    apply (Hfresh k'); [right; assumption|assumption].
Qed.

(* ------------------------------------------------------------------ *)
(** ** The grouping loop of the rollups *)

Section RollupSpec.
Context {G : Type} `{Key G} (formatKey : Date -> outcome G).

Lemma groupDaysOf_app g a b :
  groupDaysOf formatKey g (a ++ b) = groupDaysOf formatKey g a ++ groupDaysOf formatKey g b.
Proof. apply filter_app. Qed.

Lemma groupDaysOf_snoc g seen k v :
  groupDaysOf formatKey g (seen ++ [(k, v)])
  = groupDaysOf formatKey g seen
    ++ match formatKey (parseISO k) with
       | Ret g' => if keyEqb g' g then [(k, v)] else []
       | _ => []
       end.
Proof.
  rewrite groupDaysOf_app. f_equal. unfold groupDaysOf, inGroup. simpl.
  destruct (formatKey (parseISO k)); reflexivity.
Qed.

Lemma groupDaysOf_keys g seen k :
  In k (JsMap.keys (groupDaysOf formatKey g seen)) -> In k (JsMap.keys seen).
Proof.
  unfold JsMap.keys, groupDaysOf. rewrite !in_map_iff.
  intros (e & Ee & He). apply filter_In in He. exists e. tauto.
Qed.

Lemma JsSet_add_fresh (s : JsSet.t DayKey) k : ~ In k s -> JsSet.add s k = s ++ [k].
Proof.
  intros Hk. unfold JsSet.add, JsSet.has.
  destruct (existsb (keyEqb k) s) eqn:E; [|reflexivity].
  apply existsb_exists in E as (x & Hx & Ex). apply keyEqb_spec in Ex. subst x.
  contradiction.
Qed.

Lemma groupStep_state seen entry st :
  ~ In (fst entry) (JsMap.keys seen) ->
  groupState formatKey seen st -> groupState formatKey (seen ++ [entry]) (groupStep formatKey st entry).
Proof.
  destruct st as [totals days], entry as [k v]. intros Hfresh [Hnd Hst].
  unfold groupStep. cbn [fst snd] in *.
  destruct (formatKey (parseISO k)) as [g0| |] eqn:Eg.
  - split; cbn [fst snd].
    + unfold addMinutes. apply NoDup_keys_set. assumption.
    + intros g. rewrite groupDaysOf_snoc, Eg.
      destruct (Hst g) as [Ht Hd]. destruct (Hst g0) as [Ht0 Hd0].
      destruct (keyEqb g0 g) eqn:E.
      * apply keyEqb_spec in E. subst g0. unfold addMinutes.
        rewrite get_set_same, Ht. unfold JsMap.has. rewrite Hd.
        assert (Hk : ~ In k (JsMap.keys (groupDaysOf formatKey g seen)))
          by (intros Hin; apply Hfresh; eapply groupDaysOf_keys; eassumption).
        destruct (groupDaysOf formatKey g seen) as [|e l] eqn:Egd; cbn [negb].
        -- rewrite !get_set_same. simpl app. split; reflexivity.
        -- rewrite Hd, get_set_same. split.
           ++ cbn [app orZero]. f_equal.
              change (e :: l ++ [(k, v)]) with ((e :: l) ++ [(k, v)]).
              rewrite sumMinutes_app. unfold sumMinutes at 3. simpl. lia.
           ++ rewrite JsSet_add_fresh by assumption.
              cbn [app]. f_equal.
              change (e :: l ++ [(k, v)]) with ((e :: l) ++ [(k, v)]).
              unfold JsMap.keys. rewrite map_app. reflexivity.
      * apply keyEqb_false in E. rewrite app_nil_r. unfold addMinutes.
        rewrite get_set_other by assumption. split; [assumption|].
        destruct (negb (JsMap.has days g0)) eqn:Ehas.
        -- rewrite get_set_same, !get_set_other by assumption. assumption.
        -- destruct (JsMap.get days g0); [rewrite get_set_other by assumption|];
             assumption.
  - split; [assumption|]. intros g. rewrite groupDaysOf_snoc, Eg, app_nil_r.
    apply Hst.
  - split; [assumption|]. intros g. rewrite groupDaysOf_snoc, Eg, app_nil_r.
    apply Hst.
Qed.
End RollupSpec.

(* ------------------------------------------------------------------ *)
(** ** The rollup, group by group *)

Section RollupProofs.
Context {G : Type} `{Key G} (formatKey : Date -> outcome G).

Lemma groupFold_state rest : forall seen st,
  NoDup (JsMap.keys (seen ++ rest)) ->
  groupState formatKey seen st ->
  groupState formatKey (seen ++ rest) (fold_left (groupStep formatKey) rest st).
Proof.
  induction rest as [|entry rest IH]; intros seen st Hnd Hst; simpl.
  - rewrite app_nil_r. assumption.
  - replace (seen ++ entry :: rest) with ((seen ++ [entry]) ++ rest) in *
      by (rewrite <- app_assoc; reflexivity).
    apply IH; [assumption|]. apply groupStep_state; [|assumption].
    unfold JsMap.keys in Hnd. rewrite !map_app in Hnd. simpl in Hnd.
    rewrite <- app_assoc in Hnd. apply NoDup_remove_2 in Hnd.
    intros Hin. apply Hnd. apply in_or_app. left. assumption.
Qed.

(** The loop of lines 178-185 (and 203-210). *)
Lemma statsFold_get (days : JsMap.t G (JsSet.t DayKey)) totals : forall acc g,
  NoDup (JsMap.keys totals) ->
  (forall k, In k (JsMap.keys totals) -> JsMap.get acc k = None) ->
  JsMap.get
    (fold_left
       (fun (stats : JsMap.t G Stats) (entry : G * Z) =>
          let '(key, total) := entry in
          let n := match JsMap.get days key with
                   | Some s => JsSet.size s
                   | None => O
                   end in
          JsMap.set stats key
            {| totalTime := total; averageTime := average total n; daysPresent := n |})
       totals acc) g
  = match JsMap.get totals g with
    | Some total =>
        let n := match JsMap.get days g with
                 | Some s => JsSet.size s
                 | None => O
                 end in
        Some {| totalTime := total; averageTime := average total n; daysPresent := n |}
    | None => JsMap.get acc g
    end.
Proof.
  induction totals as [|[k t] totals IH]; intros acc g Hnd Hacc; simpl; [reflexivity|].
  inversion Hnd as [|? ? Hk Hnd']; subst.
  rewrite IH; [|assumption|].
  - destruct (keyEqb k g) eqn:E.
    + apply keyEqb_spec in E. subst k.
      assert (Hg : JsMap.get totals g = None) by (apply get_None_keys; assumption).
      rewrite Hg, get_set_same. reflexivity.
    + apply keyEqb_false in E.
      destruct (JsMap.get totals g); [reflexivity|].
      apply get_set_other. assumption.
  - intros k' Hk'. rewrite get_set_other.
    + apply Hacc. right. assumption.
    + intros ->. contradiction.
Qed.

Lemma rollup_get dailyMinutes g :
  NoDup (JsMap.keys dailyMinutes) ->
  JsMap.get (rollup formatKey dailyMinutes) g
  = groupStats (groupDaysOf formatKey g dailyMinutes).
Proof.
  intros Hnd. unfold rollup.
  assert (Hst : groupState formatKey ([] ++ dailyMinutes)
                  (fold_left (groupStep formatKey) dailyMinutes
                     (JsMap.empty, JsMap.empty))).
  { apply groupFold_state; [assumption|]. split; [constructor|].
    intros g'. split; reflexivity. }
  simpl app in Hst.
  destruct (fold_left (groupStep formatKey) dailyMinutes (JsMap.empty, JsMap.empty))
    as [totals days].
  destruct Hst as [Hnt Hst]. cbn [fst snd] in *.
  rewrite statsFold_get; [|assumption|intros; reflexivity].
  destruct (Hst g) as [-> ->]. unfold groupStats.
  destruct (groupDaysOf formatKey g dailyMinutes) as [|e l]; [reflexivity|].
  cbv zeta. unfold JsSet.size, JsMap.keys. rewrite length_map. reflexivity.
Qed.
End RollupProofs.

(* ------------------------------------------------------------------ *)
(** ** The rollup, summed up *)

Lemma sumTotalTime_map {K : Type} (f : K * Z -> Stats) (totals : JsMap.t K Z) :
  (forall e, totalTime (f e) = snd e) ->
  sumTotalTime (map (fun e => (fst e, f e)) totals) = sumMinutes totals.
Proof.
  intros Hf. induction totals as [|e totals IH]; [reflexivity|].
  rewrite sumMinutes_cons, <- IH. unfold sumTotalTime. cbn [map fold_right snd].
  rewrite Hf. reflexivity.
Qed.

Lemma sumDaysPresent_map {K : Type} (f : K * Z -> Stats) (n : K -> nat)
  (totals : JsMap.t K Z) :
  (forall e, In e totals -> daysPresent (f e) = n (fst e)) ->
  sumDaysPresent (map (fun e => (fst e, f e)) totals)
  = fold_right (fun k acc => (n k + acc)%nat) O (JsMap.keys totals).
Proof.
  intros Hf. induction totals as [|e totals IH]; [reflexivity|].
  simpl. rewrite (Hf e (or_introl eq_refl)). f_equal.
  apply IH. intros e' He'. apply Hf. right. assumption.
Qed.

Section RollupSums.
Context {G : Type} `{Key G} (formatKey : Date -> outcome G).
Hypothesis formatKey_valid :
  forall date, (exists g, formatKey date = Ret g) <-> date <> InvalidDate.

Lemma inGroup_parses g e : inGroup formatKey g e = true -> parses e = true.
Proof.
  unfold inGroup, parses. destruct (parseISO (fst e)) eqn:Ep; [reflexivity|].
  destruct (formatKey InvalidDate) as [g'| |] eqn:Ef; try discriminate.
  intros _. exfalso. apply (proj1 (formatKey_valid InvalidDate)); eauto.
Qed.

Lemma parses_group e :
  parses e = true -> exists g, formatKey (parseISO (fst e)) = Ret g.
Proof.
  unfold parses. destruct (parseISO (fst e)) eqn:Ep; [|discriminate].
  intros _. apply formatKey_valid. discriminate.
Qed.

(** The rollup as a list: one entry per group, in the order the groups
    first appear. *)
Lemma statsFold_map (days : JsMap.t G (JsSet.t DayKey)) totals : forall acc,
  NoDup (JsMap.keys totals) ->
  (forall k, In k (JsMap.keys totals) -> ~ In k (JsMap.keys acc)) ->
  fold_left
    (fun (stats : JsMap.t G Stats) (entry : G * Z) =>
       let '(key, total) := entry in
       let n := match JsMap.get days key with
                | Some s => JsSet.size s
                | None => O
                end in
       JsMap.set stats key
         {| totalTime := total; averageTime := average total n; daysPresent := n |})
    totals acc
  = acc ++ map (fun entry =>
                  let n := match JsMap.get days (fst entry) with
                           | Some s => JsSet.size s
                           | None => O
                           end in
                  (fst entry,
                   {| totalTime := snd entry; averageTime := average (snd entry) n;
                      daysPresent := n |}))
             totals.
Proof.
  induction totals as [|[k t] totals IH]; intros acc Hnd Hfresh; simpl.
  - rewrite app_nil_r. reflexivity.
  - inversion Hnd as [|? ? Hk Hnd']; subst.
    rewrite set_fresh by (apply get_None_keys; apply Hfresh; left; reflexivity).
    rewrite IH; [rewrite <- app_assoc; reflexivity|assumption|].
    intros k' Hk'. unfold JsMap.keys. rewrite map_app, in_app_iff. simpl.
    intros [Hin|[<-|[]]]; [|contradiction].
    apply (Hfresh k'); [right; assumption|assumption].
Qed.

Lemma count_groups (ks : list G) (dm : JsMap.t DayKey Z) :
  NoDup ks ->
  (forall e g, In e dm -> formatKey (parseISO (fst e)) = Ret g -> In g ks) ->
  fold_right (fun k acc => (length (groupDaysOf formatKey k dm) + acc)%nat) O ks
  = length (filter parses dm).
Proof.
  intros Hnd. induction dm as [|e dm IH]; intros Hks.
  - clear. induction ks as [|k ks IHk]; [reflexivity|]. simpl. exact IHk.
  - assert (IH' := IH (fun e' g Hin => Hks e' g (or_intror Hin))). clear IH.
    assert (Hone : forall ks', NoDup ks' ->
      fold_right (fun k acc => (length (groupDaysOf formatKey k (e :: dm)) + acc)%nat) O ks'
      = ((if existsb (fun k => inGroup formatKey k e) ks' then 1 else 0)
         + fold_right (fun k acc => (length (groupDaysOf formatKey k dm) + acc)%nat) O ks')%nat).
    { induction ks' as [|k ks' IHk]; intros Hnd'; [reflexivity|].
      inversion Hnd' as [|? ? Hk Hnd'']; subst. cbn [fold_right existsb].
      rewrite (IHk Hnd''). unfold groupDaysOf. cbn [filter].
      destruct (inGroup formatKey k e) eqn:Ek;
        destruct (existsb (fun k0 => inGroup formatKey k0 e) ks') eqn:Ex;
        cbn [length orb]; try lia.
      exfalso. apply existsb_exists in Ex as (k' & Hk' & Ek').
      unfold inGroup in Ek, Ek'.
      destruct (formatKey (parseISO (fst e))); try discriminate.
      apply keyEqb_spec in Ek, Ek'. subst. contradiction. }
    rewrite (Hone ks Hnd), IH'. cbn [filter].
    destruct (parses e) eqn:Ep.
    + destruct (parses_group e Ep) as [g Eg].
      assert (Hg : In g ks) by (apply (Hks e g); [left; reflexivity|assumption]).
      assert (Ex : existsb (fun k => inGroup formatKey k e) ks = true).
      { apply existsb_exists. exists g. split; [assumption|].
        unfold inGroup. rewrite Eg. apply keyEqb_refl. }
      rewrite Ex. reflexivity.
    + destruct (existsb (fun k => inGroup formatKey k e) ks) eqn:Ex; [|reflexivity].
      apply existsb_exists in Ex as (k & _ & Ek).
      apply inGroup_parses in Ek. congruence.
Qed.

Lemma groupFold_sum rest : forall st,
  sumMinutes (fst (fold_left (groupStep formatKey) rest st))
  = sumMinutes (fst st) + sumMinutes (filter parses rest).
Proof.
  induction rest as [|[k v] rest IH]; intros [totals days]; simpl.
  - unfold sumMinutes at 3. simpl. lia.
  - rewrite IH. unfold parses at 2. cbn [fst].
    destruct (parseISO k) eqn:Ep.
    + destruct (proj2 (formatKey_valid (ValidDate time)) ltac:(discriminate)) as [g Eg].
      rewrite Eg. cbn [fst]. rewrite sumMinutes_addMinutes, sumMinutes_cons. simpl. lia.
    + destruct (formatKey InvalidDate) as [g| |] eqn:Ef; cbn [fst]; try lia.
      exfalso. apply (proj1 (formatKey_valid InvalidDate)); eauto.
Qed.

Lemma rollup_sums dailyMinutes :
  NoDup (JsMap.keys dailyMinutes) ->
  sumTotalTime (rollup formatKey dailyMinutes) = sumMinutes (filter parses dailyMinutes)
  /\ sumDaysPresent (rollup formatKey dailyMinutes)
     = length (filter parses dailyMinutes).
Proof.
  intros Hnd. unfold rollup.
  assert (Hst : groupState formatKey ([] ++ dailyMinutes)
                  (fold_left (groupStep formatKey) dailyMinutes
                     (JsMap.empty, JsMap.empty))).
  { apply groupFold_state; [assumption|]. split; [constructor|].
    intros g'. split; reflexivity. }
  simpl app in Hst.
  pose proof (groupFold_sum dailyMinutes (JsMap.empty, JsMap.empty)) as Hsum.
  destruct (fold_left (groupStep formatKey) dailyMinutes (JsMap.empty, JsMap.empty))
    as [totals days].
  destruct Hst as [Hnt Hst]. cbn [fst snd] in *.
  rewrite statsFold_map; [|assumption|intros k _ []].
  unfold JsMap.empty. cbn [app]. split.
  - rewrite (sumTotalTime_map
               (fun entry : G * Z =>
                  {| totalTime := snd entry;
                     averageTime := average (snd entry)
                       match JsMap.get days (fst entry) with
                       | Some s => JsSet.size s
                       | None => O
                       end;
                     daysPresent := match JsMap.get days (fst entry) with
                                    | Some s => JsSet.size s
                                    | None => O
                                    end |}))
      by reflexivity.
    unfold sumMinutes at 2 in Hsum. simpl in Hsum. exact Hsum.
  - rewrite (sumDaysPresent_map
               (fun entry : G * Z =>
                  {| totalTime := snd entry;
                     averageTime := average (snd entry)
                       match JsMap.get days (fst entry) with
                       | Some s => JsSet.size s
                       | None => O
                       end;
                     daysPresent := match JsMap.get days (fst entry) with
                                    | Some s => JsSet.size s
                                    | None => O
                                    end |})
               (fun k => length (groupDaysOf formatKey k dailyMinutes))).
    + apply count_groups; [assumption|].
      intros e g He Eg. destruct (Hst g) as [Ht _].
      destruct (groupDaysOf formatKey g dailyMinutes) as [|e' l] eqn:Egd.
      * exfalso. assert (Hin : In e (groupDaysOf formatKey g dailyMinutes)).
        { apply filter_In. split; [assumption|]. unfold inGroup. rewrite Eg.
          apply keyEqb_refl. }
        rewrite Egd in Hin. destruct Hin.
      * eapply get_Some_keys. eassumption.
    + intros [k t] Hk. cbn [daysPresent fst]. destruct (Hst k) as [Ht Hd]. rewrite Hd.
      destruct (groupDaysOf formatKey k dailyMinutes) as [|e l] eqn:Egd.
      * exfalso. assert (Hin : In k (JsMap.keys totals)).
        { unfold JsMap.keys. apply in_map_iff. exists (k, t). auto. }
        apply get_None_keys in Ht. contradiction.
      * unfold JsSet.size, JsMap.keys. rewrite length_map. reflexivity.
Qed.
End RollupSums.

Lemma formatWeekKey_valid date :
  (exists g, formatWeekKey date = Ret g) <-> date <> InvalidDate.
Proof.
  destruct date as [t|]; simpl.
  - split; [discriminate|]. intros _.
    destruct (civilFromDays (dayNumber t)) as [[y m] d]. eauto.
  - split; [intros [g E]; discriminate|congruence].
Qed.

Lemma formatMonthKey_valid date :
  (exists g, formatMonthKey date = Ret g) <-> date <> InvalidDate.
Proof.
  destruct date as [t|]; simpl.
  - split; [discriminate|]. intros _.
    destruct (civilFromDays (dayNumber t)) as [[y m] d]. eauto.
  - split; [intros [g E]; discriminate|congruence].
Qed.

(* ------------------------------------------------------------------ *)
(** ** The days of a split *)

(** The days from [first] on, [n] of them. *)
Lemma fullDays_keys first n :
  JsMap.keys (fullDays first n)
  = map (fun i => keyOfDay (first + Z.of_nat i)) (seq 0 n).
Proof. unfold JsMap.keys, fullDays. rewrite map_map. reflexivity. Qed.

Lemma days_shift (first : Z) n :
  map (fun i => keyOfDay (first + Z.of_nat i)) (seq 1 n)
  = map (fun i => keyOfDay (first + 1 + Z.of_nat i)) (seq 0 n).
Proof.
  rewrite <- seq_shift, map_map. apply map_ext. intros i. f_equal. lia.
Qed.

Lemma calendarSplit_keys inTime outTime :
  inTime <= outTime ->
  JsMap.keys (calendarSplit inTime outTime)
  = map (fun i => keyOfDay (dayNumber inTime + Z.of_nat i))
      (seq 0 (S (Z.to_nat (dayNumber outTime - dayNumber inTime)))).
Proof.
  intros Hle. pose proof (dayNumber_mono Hle) as Hmono.
  unfold calendarSplit. cbv zeta.
  destruct (dayNumber inTime =? dayNumber outTime) eqn:Eday.
  - apply Z.eqb_eq in Eday. rewrite <- Eday, Z.sub_diag. simpl.
    rewrite Z.add_0_r. reflexivity.
  - apply Z.eqb_neq in Eday.
    set (n := Z.to_nat (dayNumber outTime - dayNumber inTime - 1)).
    replace (Z.to_nat (dayNumber outTime - dayNumber inTime)) with (S n) by lia.
    change (seq 0 (S (S n))) with (0%nat :: seq 1 (S n)).
    rewrite seq_S. cbn [map]. rewrite map_app, days_shift, <- fullDays_keys.
    unfold JsMap.keys. cbn [map fst]. rewrite map_app, Z.add_0_r.
    cbn [map fst]. do 4 f_equal. lia.
Qed.

Lemma days_NoDup n : forall first,
  firstDayOfYear1 <= first ->
  NoDup (map (fun i => keyOfDay (first + Z.of_nat i)) (seq 0 n)).
Proof.
  induction n as [|n IH]; intros first Hce; [constructor|].
  cbn [seq map]. rewrite days_shift. constructor.
  - rewrite in_map_iff. intros (i & E & _). apply keyOfDay_inj in E; lia.
  - apply IH. lia.
Qed.

Lemma splitLoop_values (P : Z -> Prop) fuel : forall currentDay outTime result st,
  P 1440 -> allValues P result ->
  splitLoop fuel currentDay outTime result = Ret st ->
  allValues P (snd st).
Proof.
  induction fuel as [|fuel IH]; intros cur out result st H1440 Hres Hrun;
    rewrite splitLoop_eq in Hrun;
    destruct (keyEqb (dayKey cur) (dayKey out)).
  - inversion Hrun; subst. assumption.
  - discriminate.
  - inversion Hrun; subst. assumption.
  - apply IH in Hrun; [assumption|assumption|].
    apply allValues_set; assumption.
Qed.

Lemma filter_all {A : Type} (p : A -> bool) l :
  (forall x, In x l -> p x = true) -> filter p l = l.
Proof.
  induction l as [|a l IH]; intros Hall; simpl; [reflexivity|].
  rewrite (Hall a (or_introl eq_refl)), IH; [reflexivity|].
  intros x Hx. apply Hall. right. assumption.
Qed.

Lemma truthy_positive d : 0 < d -> truthy (Some d) = true.
Proof. intros Hd. simpl. destruct (d =? 0) eqn:E; [apply Z.eqb_eq in E; lia|reflexivity]. Qed.

(* ================================================================== *)
(** * Further properties of the code *)

(** X1.  [compareMembersStats] returns the [{name, totalTime}] pairs of the
    entries of the map, each as often as it is there, in descending order
    of [totalTime]. *)
Theorem compareMembersStats_sorted_permutation :
  forall membersStats : JsMap.t string Stats,
    Permutation (compareMembersStats membersStats) (memberTotals membersStats)
    /\ StronglySorted (fun a b => snd b <= snd a) (compareMembersStats membersStats).
Proof.
  intros membersStats. rewrite compareMembersStats_eq. split.
  - apply sort_perm.
  - apply sort_sorted.
Qed.

(** X2.  [compareMembersStats] is stable: the members with one and the same
    [totalTime] come in the order the map holds them. *)
Theorem compareMembersStats_stable :
  forall (membersStats : JsMap.t string Stats) (t : Z),
    filter (fun entry => snd entry =? t) (compareMembersStats membersStats)
    = filter (fun entry => snd entry =? t) (memberTotals membersStats).
Proof.
  intros membersStats t. rewrite compareMembersStats_eq. apply sort_stable.
Qed.

(** X3.  For a check-in from 1952-01-01 on (from where on the offset of
    the zone does not change) and a later check-out before the year 10000,
    [splitStayByDays] returns, given a loop step per day in between, exactly
    the split written out in [calendarSplit]: one entry per calendar day
    from the day of the check-in to the day of the check-out, in that order
    and each day once; 1440 minutes for every day in between. *)
Theorem splitStayByDays_calendar_split :
  forall (inTime outTime : Z) (fuel : nat),
    zoneSettled <= inTime -> inTime < outTime -> outTime < startOfYear10000 ->
    (Z.to_nat (dayNumber outTime - dayNumber inTime) <= fuel)%nat ->
    splitStayByDays fuel (ValidDate inTime) (ValidDate outTime)
    = Ret (calendarSplit inTime outTime)
    /\ JsMap.keys (calendarSplit inTime outTime)
       = map (fun i => keyOfDay (dayNumber inTime + Z.of_nat i))
           (seq 0 (S (Z.to_nat (dayNumber outTime - dayNumber inTime))))
    /\ NoDup (JsMap.keys (calendarSplit inTime outTime)).
Proof.
  intros inTime outTime fuel Hzone Hlt Hend Hfuel.
  assert (Hce : startOfYear1 <= inTime) by (pose proof zoneSettled_year1; lia).
  split; [|split].
  - apply splitStayByDays_shape; assumption.
  - apply calendarSplit_keys. lia.
  - rewrite calendarSplit_keys by lia. apply days_NoDup.
    apply dayNumber_startOfYear1. assumption.
Qed.

Lemma splitStayByDays_calendar_split_witness :
  splitStayByDays 3 (ValidDate (at_ 2024 3 10 22 30 0 0))
                    (ValidDate (at_ 2024 3 13 6 15 0 0))
  = Ret (calendarSplit (at_ 2024 3 10 22 30 0 0) (at_ 2024 3 13 6 15 0 0))
  /\ JsMap.keys (calendarSplit (at_ 2024 3 10 22 30 0 0) (at_ 2024 3 13 6 15 0 0))
     = map (fun i => keyOfDay (dayNumber (at_ 2024 3 10 22 30 0 0) + Z.of_nat i))
         (seq 0 (S (Z.to_nat (dayNumber (at_ 2024 3 13 6 15 0 0)
                              - dayNumber (at_ 2024 3 10 22 30 0 0)))))
  /\ NoDup (JsMap.keys
              (calendarSplit (at_ 2024 3 10 22 30 0 0) (at_ 2024 3 13 6 15 0 0))).
Proof.
  apply splitStayByDays_calendar_split.
  - vm_compute. discriminate.
  - reflexivity.
  - reflexivity.
  - vm_compute. lia.
Defined.

(** X4.  For a check-in from 1952-01-01 on (from where on the offset of
    the zone does not change) and a later check-out before the year 10000,
    every minute value [splitStayByDays] returns is between 0 and 1440. *)
Theorem splitStayByDays_minutes_of_a_day :
  forall (inTime outTime : Z) (fuel : nat) (m : JsMap.t DayKey Z),
    zoneSettled <= inTime -> inTime < outTime -> outTime < startOfYear10000 ->
    splitStayByDays fuel (ValidDate inTime) (ValidDate outTime) = Ret m ->
    allValues minutesOfADay m.
Proof.
  intros inTime outTime fuel m Hzone Hlt Hend.
  assert (Hce : startOfYear1 <= inTime) by (pose proof zoneSettled_year1; lia).
  unfold splitStayByDays.
  pose proof (proj1 (dayNumber_startOfYear1 inTime) Hce) as Hce'.
  pose proof (dayNumber_mono (a := inTime) (b := outTime) ltac:(lia)) as Hmono.
  assert (Ha : 0 <= inTime mod millisecondsInDay < millisecondsInDay)
    by (apply Z.mod_pos_bound; reflexivity).
  assert (Hb : 0 <= outTime mod millisecondsInDay < millisecondsInDay)
    by (apply Z.mod_pos_bound; reflexivity).
  destruct (keyEqb (dayKey inTime) (dayKey outTime)) eqn:Esame.
  - apply keyEqb_spec in Esame. rewrite !dayKey_keyOfDay in Esame.
    apply keyOfDay_inj in Esame; [|lia|lia].
    intros E. inversion E. cbn [JsMap.set JsMap.empty].
    constructor; [|constructor]. cbn [snd].
    rewrite differenceInMinutes_nonneg by lia.
    unfold minutesOfADay, dayNumber, millisecondsInDay, millisecondsInMinute in *.
    zdiv.
  - destruct (splitLoop fuel _ _ _) as [[cur' result']| |] eqn:Hrun;
      cbn [bind]; try discriminate.
    apply (@splitLoop_values minutesOfADay) in Hrun.
    + cbn [snd] in Hrun.
      destruct (keyEqb (dayKey cur') (dayKey outTime)); intros E; inversion E; subst;
        [|assumption].
      apply allValues_set; [assumption|].
      rewrite differenceInMinutes_nonneg by (unfold startOfDay; lia).
      unfold minutesOfADay, startOfDay, millisecondsInDay, millisecondsInMinute in *.
      zdiv.
    + unfold minutesOfADay. lia.
    + cbn [JsMap.set JsMap.empty]. constructor; [|constructor]. cbn [snd].
      rewrite differenceInMinutes_nonneg by (unfold endOfDay, startOfDay; lia).
      unfold minutesOfADay, endOfDay, startOfDay, millisecondsInDay,
        millisecondsInMinute in *.
      zdiv.
Qed.

Lemma splitStayByDays_minutes_of_a_day_witness :
  allValues minutesOfADay
    [((2024, 3, 10), 59); ((2024, 3, 11), 1440); ((2024, 3, 12), 60)].
Proof.
  apply (@splitStayByDays_minutes_of_a_day
           (at_ 2024 3 10 23 0 0 0) (at_ 2024 3 12 1 0 0 0) 5%nat).
  - vm_compute. discriminate.
  - reflexivity.
  - reflexivity.
  - reflexivity.
Defined.

(** X5.  When the check-out falls on an earlier calendar day than the
    check-in (both of the years 1 to 9999), the loop of [splitStayByDays]
    does not reach the day of the check-out: after as many steps as those
    years have days (3652059, each of which has put a day of 1440 minutes
    in the map) it has not ended. *)
Theorem splitStayByDays_reversed_runs_on :
  forall (inTime outTime : Z) (fuel : nat),
    startOfYear1 <= outTime -> dayNumber outTime < dayNumber inTime ->
    inTime < startOfYear10000 ->
    Z.of_nat fuel <= daysOfFourDigitYears ->
    splitStayByDays fuel (ValidDate inTime) (ValidDate outTime) = OutOfFuel.
Proof.
  intros inTime outTime fuel Hce Hlt _ _. apply splitStayByDays_not_ended; assumption.
Qed.

Lemma splitStayByDays_reversed_runs_on_witness :
  splitStayByDays 1000 (ValidDate (at_ 2024 3 11 1 0 0 0))
                       (ValidDate (at_ 2024 3 10 23 0 0 0)) = OutOfFuel.
Proof.
  apply splitStayByDays_reversed_runs_on.
  - vm_compute. discriminate.
  - reflexivity.
  - reflexivity.
  - vm_compute. discriminate.
Defined.

(** X6.  When several ['in'] records share the latest timestamp before a
    check-out, [calculateStats] matches the first of them in the order of
    the record list: every ['in'] record listed before the match that is
    earlier than the check-out is strictly earlier than the match. *)
Theorem matchingInRecord_first_of_latest :
  forall (inRecords : list Record_) (outRecord matching : Record_),
    matchingInRecord inRecords outRecord = Some matching ->
    exists before after,
      inRecords = before ++ matching :: after
      /\ forall r, In r before ->
           isBefore (timestamp r) (timestamp outRecord) = true ->
           isBefore (timestamp r) (timestamp matching) = true.
Proof.
  intros inRecords outRecord matching. apply matchingInRecord_first_seen.
Qed.

Lemma matchingInRecord_first_of_latest_witness :
  exists before after,
    [mkIn 1000;
     {| id := "a"; memberId := "m"; type := "in"; timestamp := ValidDate 5000;
        duration := None |};
     {| id := "b"; memberId := "m"; type := "in"; timestamp := ValidDate 5000;
        duration := None |}]
    = before
      ++ {| id := "a"; memberId := "m"; type := "in"; timestamp := ValidDate 5000;
            duration := None |} :: after
    /\ forall r, In r before ->
         isBefore (timestamp r) (timestamp (mkOut 9000 (Some 1))) = true ->
         isBefore (timestamp r)
           (timestamp {| id := "a"; memberId := "m"; type := "in";
                         timestamp := ValidDate 5000; duration := None |}) = true.
Proof.
  apply matchingInRecord_first_of_latest. reflexivity.
Defined.

(** X7.  The result of [calculateStats] does not depend on the order of the
    records: for records from 1952-01-01 to the end of the year 9999 whose
    booked minutes (the integers the check-outs add to the daily mapping)
    stay within 2^53 in sum of absolute values, so that the code adds them
    exactly in whatever order, when [calculateStats] returns on a record
    list, it returns the same statistics on every permutation of the
    list. *)
Theorem calculateStats_any_order :
  forall (fuel : nat) (records records' : list Record_) (stats : Stats)
         (booked : list (DayKey * Z)),
    Permutation records records' ->
    (forall r, In r records -> settledDate (timestamp r)) ->
    allContributions fuel (filter isIn records) (filter isOut records) = Ret booked ->
    exactSum (map snd booked) ->
    calculateStats fuel records = Ret stats ->
    calculateStats fuel records' = Ret stats.
Proof.
  intros fuel records records' stats booked Hperm _ _ _.
  apply calculateStats_perm. assumption.
Qed.

Lemma calculateStats_any_order_witness :
  calculateStats 5 [mkOut (at_ 2024 3 11 1 0 0 0) (Some 120);
                    mkIn (at_ 2024 3 10 23 0 0 0)]
  = Ret {| totalTime := 119; averageTime := 119 # 2; daysPresent := 2 |}.
Proof.
  apply (@calculateStats_any_order 5%nat overnight _ _
           [((2024, 3, 10), 59); ((2024, 3, 11), 60)]).
  - apply perm_swap.
  - intros r [<-|[<-|[]]]; simpl; split; vm_compute; congruence.
  - reflexivity.
  - vm_compute. discriminate.
  - reflexivity.
Defined.

(** X8.  [calculateStats] ignores the records whose type is neither ['in']
    nor ['out']: leaving them out of the list changes nothing, also when
    nothing is left. *)
Theorem calculateStats_ignores_other_types :
  forall (fuel : nat) (records : list Record_),
    calculateStats fuel (filter (fun r => isIn r || isOut r) records)
    = calculateStats fuel records.
Proof. intros fuel records. apply calculateStats_other_types. Qed.

(** X9.  When no record holds a negative duration, [calculateStats]
    attributes no negative minutes to any day, and its [totalTime] is not
    negative. *)
Theorem calculateStats_never_negative :
  forall (fuel : nat) (records : list Record_),
    durationsNonNegative records ->
    (forall dailyMinutes,
       statsDailyMinutes fuel records = Ret dailyMinutes ->
       allValues nonNegative dailyMinutes)
    /\ (forall stats, calculateStats fuel records = Ret stats -> 0 <= totalTime stats).
Proof.
  intros fuel records Hd. split.
  - intros dm Hdm. eapply statsDailyMinutes_nonneg; eassumption.
  - intros stats. rewrite calculateStats_eq.
    destruct (length records =? 0)%nat.
    + intros E. inversion E. simpl. lia.
    + destruct (statsDailyMinutes fuel records) as [dm| |] eqn:Edm; simpl;
        try discriminate.
      intros E. inversion E. cbn [totalTime]. apply sumMinutes_nonneg.
      eapply statsDailyMinutes_nonneg; eassumption.
Qed.

Lemma calculateStats_never_negative_witness :
  (forall dailyMinutes,
     statsDailyMinutes 5 overnight = Ret dailyMinutes ->
     allValues nonNegative dailyMinutes)
  /\ (forall stats, calculateStats 5 overnight = Ret stats -> 0 <= totalTime stats).
Proof.
  apply calculateStats_never_negative.
  intros r d [<-|[<-|[]]] E; inversion E. lia.
Defined.

(** X10.  When no record holds a negative duration, [calculatePeriodStats]
    attributes no negative minutes to any day, and the [totalTime] of
    weekday, weekend and total is not negative. *)
Theorem calculatePeriodStats_never_negative :
  forall (records : list Record_) (startDate endDate : Date) (periodStats : PeriodStats),
    durationsNonNegative records ->
    calculatePeriodStats records startDate endDate = Ret periodStats ->
    allValues (fun s => 0 <= totalTime s) (daily periodStats)
    /\ 0 <= totalTime (weekday periodStats)
    /\ 0 <= totalTime (weekend periodStats)
    /\ 0 <= totalTime (total periodStats).
Proof.
  intros records startDate endDate periodStats Hd. unfold calculatePeriodStats.
  destruct (periodDailyMinutes records) as [dm| |] eqn:Hdm; simpl; try discriminate.
  intros E. inversion E. clear E.
  assert (Hnn : allValues nonNegative dm)
    by (eapply periodDailyMinutes_nonneg; eassumption).
  pose proof (periodDailyMinutes_NoDup _ Hdm) as Hnd.
  unfold periodRollup. rewrite partitionDays_filter by assumption.
  cbn [daily weekday weekend total totalTime].
  assert (Hf : forall p : DayKey * Z -> bool, allValues nonNegative (filter p dm)).
  { intros p. unfold allValues in *. rewrite Forall_forall in *.
    intros e He. apply Hnn. apply filter_In in He. tauto. }
  repeat split; try (apply sumMinutes_nonneg; auto).
  rewrite dailyStats_map by assumption. unfold allValues in *.
  rewrite Forall_forall in *. intros e He. apply in_map_iff in He as (x & <- & Hx).
  apply (Hnn x Hx).
Qed.

Lemma calculatePeriodStats_never_negative_witness :
  allValues (fun s => 0 <= totalTime s) (daily (periodRollup [((2024, 3, 11), 120)]))
  /\ 0 <= totalTime (weekday (periodRollup [((2024, 3, 11), 120)]))
  /\ 0 <= totalTime (weekend (periodRollup [((2024, 3, 11), 120)]))
  /\ 0 <= totalTime (total (periodRollup [((2024, 3, 11), 120)])).
Proof.
  apply (@calculatePeriodStats_never_negative overnight InvalidDate InvalidDate).
  - intros r d [<-|[<-|[]]] E; inversion E. lia.
  - reflexivity.
Defined.

(** X11.  On a record list without any ['in'] record, [calculateStats]
    returns what [calculatePeriodStats] returns as [total], a thrown error
    included. *)
Theorem calculateStats_without_checkin :
  forall (fuel : nat) (records : list Record_) (startDate endDate : Date),
    filter isIn records = [] ->
    calculateStats fuel records
    = (periodStats <- calculatePeriodStats records startDate endDate ;;
       Ret (total periodStats)).
Proof.
  intros fuel records startDate endDate. apply calculateStats_no_checkin.
Qed.

Lemma calculateStats_without_checkin_witness :
  calculateStats 0 [mkOut (at_ 2024 3 10 10 0 0 0) (Some 30);
                    mkOut (at_ 2024 3 10 18 0 0 0) (Some 45)]
  = (periodStats <- calculatePeriodStats
                      [mkOut (at_ 2024 3 10 10 0 0 0) (Some 30);
                       mkOut (at_ 2024 3 10 18 0 0 0) (Some 45)]
                      InvalidDate InvalidDate ;;
     Ret (total periodStats)).
Proof.
  apply calculateStats_without_checkin. reflexivity.
Defined.

(** X12.  [calculatePeriodStats] reads the ['out'] records with a non-zero
    duration only: leaving all other records out of the list (every ['in']
    record among them) changes nothing. *)
Theorem calculatePeriodStats_reads_checkouts_only :
  forall (records : list Record_) (startDate endDate : Date),
    calculatePeriodStats (filter counted records) startDate endDate
    = calculatePeriodStats records startDate endDate.
Proof. intros. apply calculatePeriodStats_counted. Qed.

(** X13.  When the durations of the ['out'] records with a non-zero
    duration (integers) stay within 2^53 in sum of absolute values, so that
    the code adds them exactly in whatever grouping: in the result of
    [calculatePeriodStats] the [totalTime] of total is the sum of those
    durations, and it is the [totalTime] of weekday plus that of weekend. *)
Theorem calculatePeriodStats_totals :
  forall (records : list Record_) (startDate endDate : Date) (periodStats : PeriodStats),
    exactSum (map (fun r => orZero (duration r)) (filter counted records)) ->
    calculatePeriodStats records startDate endDate = Ret periodStats ->
    totalTime (total periodStats) = sumDurations (filter counted records)
    /\ totalTime (total periodStats)
       = totalTime (weekday periodStats) + totalTime (weekend periodStats).
Proof.
  intros records startDate endDate periodStats _. unfold calculatePeriodStats.
  destruct (periodDailyMinutes records) as [dm| |] eqn:Hdm; simpl; try discriminate.
  intros E. inversion E. clear E.
  pose proof (periodDailyMinutes_NoDup _ Hdm) as Hnd.
  unfold periodRollup. rewrite partitionDays_filter by assumption.
  cbn [weekday weekend total totalTime]. split.
  - rewrite periodDailyMinutes_forEach in Hdm.
    rewrite (periodDailyMinutes_sum _ _ Hdm). unfold sumMinutes at 1. simpl. lia.
  - symmetry. apply sumMinutes_filter_split.
Qed.

Lemma calculatePeriodStats_totals_witness :
  totalTime (total (periodRollup [((2024, 3, 11), 120)]))
  = sumDurations (filter counted overnight)
  /\ totalTime (total (periodRollup [((2024, 3, 11), 120)]))
     = totalTime (weekday (periodRollup [((2024, 3, 11), 120)]))
       + totalTime (weekend (periodRollup [((2024, 3, 11), 120)])).
Proof.
  apply (@calculatePeriodStats_totals overnight InvalidDate InvalidDate).
  - vm_compute. discriminate.
  - reflexivity.
Defined.

(** X14.  The [daily] map of [calculatePeriodStats] has one entry per day
    of the daily mapping, in its order:
    {totalTime: minutes, averageTime: minutes, daysPresent: 1}. *)
Theorem calculatePeriodStats_daily :
  forall (records : list Record_) (startDate endDate : Date) (periodStats : PeriodStats),
    calculatePeriodStats records startDate endDate = Ret periodStats ->
    exists dailyMinutes,
      periodDailyMinutes records = Ret dailyMinutes
      /\ daily periodStats
         = map (fun entry =>
                  (fst entry,
                   {| totalTime := snd entry; averageTime := inject_Z (snd entry);
                      daysPresent := 1 |}))
             dailyMinutes.
Proof.
  intros records startDate endDate periodStats. unfold calculatePeriodStats.
  destruct (periodDailyMinutes records) as [dm| |] eqn:Hdm; simpl; try discriminate.
  intros E. inversion E. clear E. exists dm. split; [reflexivity|].
  unfold periodRollup. destruct (partitionDays dm). cbn [daily].
  apply dailyStats_map. apply (periodDailyMinutes_NoDup _ Hdm).
Qed.

Lemma calculatePeriodStats_daily_witness :
  exists dailyMinutes,
    periodDailyMinutes overnight = Ret dailyMinutes
    /\ daily (periodRollup [((2024, 3, 11), 120)])
       = map (fun entry =>
                (fst entry,
                 {| totalTime := snd entry; averageTime := inject_Z (snd entry);
                    daysPresent := 1 |}))
           dailyMinutes.
Proof.
  apply (@calculatePeriodStats_daily overnight InvalidDate InvalidDate).
  reflexivity.
Defined.

Lemma parses_fourDigitYear time minutes :
  startOfYear1 <= time < startOfYear10000 -> parses (dayKey time, minutes) = true.
Proof.
  intros Hyears. unfold parses. cbn [fst].
  rewrite parseISO_fourDigitYear by assumption. reflexivity.
Qed.

(** X15.  When the durations of the ['out'] records with a non-zero
    duration (integers) stay within 2^53 in sum of absolute values, so that
    the code adds them exactly: in the result of [calculatePeriodStats] the
    entry of [weekly] under a week key is the statistics of the days of the
    daily mapping whose date, as [parseISO] reads it from the key, has that
    week key (the sum of their minutes, their number, and the quotient),
    and there is no entry for a week without such a day; the same holds for
    [monthly] and the month keys.  A day whose key [parseISO] does not read
    is in no week and no month. *)
Theorem calculatePeriodStats_rollup_groups :
  forall (records : list Record_) (startDate endDate : Date) (periodStats : PeriodStats),
    exactSum (map (fun r => orZero (duration r)) (filter counted records)) ->
    calculatePeriodStats records startDate endDate = Ret periodStats ->
    exists dailyMinutes,
      periodDailyMinutes records = Ret dailyMinutes
      /\ (forall weekKey,
            JsMap.get (weekly periodStats) weekKey
            = groupStats (groupDaysOf formatWeekKey weekKey dailyMinutes))
      /\ (forall monthKey,
            JsMap.get (monthly periodStats) monthKey
            = groupStats (groupDaysOf formatMonthKey monthKey dailyMinutes)).
Proof.
  intros records startDate endDate periodStats _. unfold calculatePeriodStats.
  destruct (periodDailyMinutes records) as [dm| |] eqn:Hdm; simpl; try discriminate.
  intros E. inversion E. clear E. exists dm. split; [reflexivity|].
  pose proof (periodDailyMinutes_NoDup _ Hdm) as Hnd.
  unfold periodRollup. destruct (partitionDays dm). cbn [weekly monthly].
  split; intros key; apply rollup_get; assumption.
Qed.

Lemma calculatePeriodStats_rollup_groups_witness :
  exists dailyMinutes,
    periodDailyMinutes overnight = Ret dailyMinutes
    /\ (forall weekKey,
          JsMap.get (weekly (periodRollup [((2024, 3, 11), 120)])) weekKey
          = groupStats (groupDaysOf formatWeekKey weekKey dailyMinutes))
    /\ (forall monthKey,
          JsMap.get (monthly (periodRollup [((2024, 3, 11), 120)])) monthKey
          = groupStats (groupDaysOf formatMonthKey monthKey dailyMinutes)).
Proof.
  apply (@calculatePeriodStats_rollup_groups overnight InvalidDate InvalidDate).
  - vm_compute. discriminate.
  - reflexivity.
Defined.

(** X16.  When the durations of the ['out'] records with a non-zero
    duration (integers) stay within 2^53 in sum of absolute values, so that
    the code adds them exactly in whatever grouping: in the result of
    [calculatePeriodStats] the [totalTime] of the entries of [weekly] add
    up to the minutes of the days whose key [parseISO] reads, and their
    [daysPresent] to the number of those days; so do those of [monthly].
    When every such record is of the years 1 to 9999, these sums are the
    [totalTime] and the [daysPresent] of total: the rollups lose and repeat
    nothing. *)
Theorem calculatePeriodStats_rollup_sums :
  forall (records : list Record_) (startDate endDate : Date) (periodStats : PeriodStats),
    exactSum (map (fun r => orZero (duration r)) (filter counted records)) ->
    calculatePeriodStats records startDate endDate = Ret periodStats ->
    exists dailyMinutes,
      periodDailyMinutes records = Ret dailyMinutes
      /\ sumTotalTime (weekly periodStats) = sumMinutes (filter parses dailyMinutes)
      /\ sumDaysPresent (weekly periodStats) = length (filter parses dailyMinutes)
      /\ sumTotalTime (monthly periodStats) = sumMinutes (filter parses dailyMinutes)
      /\ sumDaysPresent (monthly periodStats) = length (filter parses dailyMinutes)
      /\ ((forall r, In r records -> counted r = true ->
             fourDigitYear (timestamp r)) ->
          sumTotalTime (weekly periodStats) = totalTime (total periodStats)
          /\ sumDaysPresent (weekly periodStats) = daysPresent (total periodStats)
          /\ sumTotalTime (monthly periodStats) = totalTime (total periodStats)
          /\ sumDaysPresent (monthly periodStats) = daysPresent (total periodStats)).
Proof.
  intros records startDate endDate periodStats _. unfold calculatePeriodStats.
  destruct (periodDailyMinutes records) as [dm| |] eqn:Hdm; simpl; try discriminate.
  intros E. inversion E. clear E. exists dm. split; [reflexivity|].
  pose proof (periodDailyMinutes_NoDup _ Hdm) as Hnd.
  pose proof (periodDailyMinutes_keys _ Hdm) as Hkeys.
  unfold periodRollup. destruct (partitionDays dm).
  cbn [weekly monthly total totalTime daysPresent].
  destruct (@rollup_sums _ _ formatWeekKey formatWeekKey_valid dm Hnd) as [Hw1 Hw2].
  destruct (@rollup_sums _ _ formatMonthKey formatMonthKey_valid dm Hnd) as [Hm1 Hm2].
  split; [assumption|]. split; [assumption|]. split; [assumption|].
  split; [assumption|]. intros Hyears.
  rewrite Hw1, Hw2, Hm1, Hm2, filter_all.
  - repeat split; reflexivity.
  - intros [key minutes] He.
    assert (Hk : In key (JsMap.keys dm))
      by (unfold JsMap.keys; apply (in_map fst) in He; exact He).
    apply Hkeys in Hk as (r & Hr & Hc & Ek).
    destruct (fourDigitYear_valid _ (Hyears r Hr Hc)) as (time & Ets & Ht).
    rewrite Ets in Ek. simpl in Ek. inversion Ek.
    apply parses_fourDigitYear. assumption.
Qed.

Lemma calculatePeriodStats_rollup_sums_witness :
  exists dailyMinutes,
    periodDailyMinutes overnight = Ret dailyMinutes
    /\ sumTotalTime (weekly (periodRollup [((2024, 3, 11), 120)]))
       = sumMinutes (filter parses dailyMinutes)
    /\ sumDaysPresent (weekly (periodRollup [((2024, 3, 11), 120)]))
       = length (filter parses dailyMinutes)
    /\ sumTotalTime (monthly (periodRollup [((2024, 3, 11), 120)]))
       = sumMinutes (filter parses dailyMinutes)
    /\ sumDaysPresent (monthly (periodRollup [((2024, 3, 11), 120)]))
       = length (filter parses dailyMinutes)
    /\ ((forall r, In r overnight -> counted r = true ->
           fourDigitYear (timestamp r)) ->
        sumTotalTime (weekly (periodRollup [((2024, 3, 11), 120)]))
        = totalTime (total (periodRollup [((2024, 3, 11), 120)]))
        /\ sumDaysPresent (weekly (periodRollup [((2024, 3, 11), 120)]))
           = daysPresent (total (periodRollup [((2024, 3, 11), 120)]))
        /\ sumTotalTime (monthly (periodRollup [((2024, 3, 11), 120)]))
           = totalTime (total (periodRollup [((2024, 3, 11), 120)]))
        /\ sumDaysPresent (monthly (periodRollup [((2024, 3, 11), 120)]))
           = daysPresent (total (periodRollup [((2024, 3, 11), 120)]))).
Proof.
  apply (@calculatePeriodStats_rollup_sums overnight InvalidDate InvalidDate).
  - vm_compute. discriminate.
  - reflexivity.
Defined.

(** X17.  Two valid dates from 0001-01-01 on have the same [formatDateKey]
    exactly when they fall on the same local calendar day. *)
Theorem formatDateKey_same_day :
  forall a b : Z,
    startOfYear1 <= a -> startOfYear1 <= b ->
    (formatDateKey (ValidDate a) = formatDateKey (ValidDate b)
     <-> dayNumber a = dayNumber b).
Proof.
  intros a b Ha Hb. apply dayNumber_startOfYear1 in Ha, Hb.
  unfold formatDateKey. split.
  - intros E. assert (E' : dayKey a = dayKey b) by congruence.
    rewrite !dayKey_keyOfDay in E'.
    apply keyOfDay_inj in E'; assumption.
  - intros E. rewrite !dayKey_keyOfDay, E. reflexivity.
Qed.

Lemma formatDateKey_same_day_witness :
  formatDateKey (ValidDate (at_ 2024 3 10 0 0 0 0))
  = formatDateKey (ValidDate (at_ 2024 3 10 23 59 59 999))
  <-> dayNumber (at_ 2024 3 10 0 0 0 0) = dayNumber (at_ 2024 3 10 23 59 59 999).
Proof.
  apply formatDateKey_same_day; vm_compute; discriminate.
Defined.

(** X18.  For a valid date of the years 1 to 9999, [parseISO] reads the
    day key [formatDateKey] gives back as the local midnight of that day,
    and formatting that date gives the key again; so the week and the month
    key of the day exist ([format] does not throw in the rollups). *)
Theorem parseISO_formatDateKey_round_trip :
  forall time : Z,
    startOfYear1 <= time -> fst (fst (dayKey time)) <= 9999 ->
    parseISO (dayKey time) = ValidDate (startOfDay time)
    /\ formatDateKey (parseISO (dayKey time)) = Ret (dayKey time)
    /\ (exists weekKey, formatWeekKey (parseISO (dayKey time)) = Ret weekKey)
    /\ (exists monthKey, formatMonthKey (parseISO (dayKey time)) = Ret monthKey).
Proof.
  intros time Hce Hy. rewrite (parseISO_dayKey Hce Hy). split; [reflexivity|]. split.
  - unfold formatDateKey. rewrite !dayKey_keyOfDay, dayNumber_startOfDay. reflexivity.
  - split.
    + apply formatWeekKey_valid. discriminate.
    + apply formatMonthKey_valid. discriminate.
Qed.

Lemma parseISO_formatDateKey_round_trip_witness :
  parseISO (dayKey (at_ 2024 3 10 23 0 0 0))
  = ValidDate (startOfDay (at_ 2024 3 10 23 0 0 0))
  /\ formatDateKey (parseISO (dayKey (at_ 2024 3 10 23 0 0 0)))
     = Ret (dayKey (at_ 2024 3 10 23 0 0 0))
  /\ (exists weekKey,
        formatWeekKey (parseISO (dayKey (at_ 2024 3 10 23 0 0 0))) = Ret weekKey)
  /\ (exists monthKey,
        formatMonthKey (parseISO (dayKey (at_ 2024 3 10 23 0 0 0))) = Ret monthKey).
Proof.
  apply parseISO_formatDateKey_round_trip; vm_compute; discriminate.
Defined.

(* ------------------------------------------------------------------ *)
(** ** Records written by [addRecord] *)

Lemma statsDailyMinutes_skip_falsy fuel before outRecord after :
  type outRecord = "out"%string -> truthy (duration outRecord) = false ->
  statsDailyMinutes fuel (before ++ outRecord :: after)
  = statsDailyMinutes fuel (before ++ after).
Proof.
  intros Etype Edur. unfold statsDailyMinutes.
  rewrite !classify_filter, !filter_app. simpl.
  unfold isIn at 2, isOut at 2. rewrite Etype. simpl.
  rewrite !forEachM_app. simpl.
  destruct (forEachM _ (filter isOut before) JsMap.empty); simpl; auto.
  unfold processOut at 1. rewrite Edur. simpl. reflexivity.
Qed.

Lemma periodDailyMinutes_skip_falsy before record after :
  truthy (duration record) = false ->
  periodDailyMinutes (before ++ record :: after) = periodDailyMinutes (before ++ after).
Proof.
  intros Edur. rewrite !periodDailyMinutes_forEach, !forEachM_app.
  destruct (forEachM periodStep before JsMap.empty) as [dm| |]; simpl; auto.
  unfold periodStep at 1. rewrite Edur, andb_false_r. reflexivity.
Qed.

Lemma roundMinutes_positive ms : 0 < ms -> 0 <= roundMinutes ms.
Proof. intros H. unfold roundMinutes, millisecondsInMinute. zdiv. Qed.

(** X19.  A stay written by [addRecord] and read back: for a check-in from
    1952-01-01 on (from where on the offset of the zone does not change)
    and a later check-out before the year 10000 for which
    [getLastInRecord] found that check-in, the stored duration is the
    rounded elapsed minutes; [calculatePeriodStats] on the two records
    returns it as the [totalTime] of total unchanged, and [calculateStats]
    returns a [totalTime] at most the stored duration and at least two
    minutes less. *)
Theorem addRecord_duration_in_statistics :
  forall (memberId inId outId : string) (inTime outTime : Z) (fuel : nat)
         (startDate endDate : Date),
    zoneSettled <= inTime -> inTime < outTime -> outTime < startOfYear10000 ->
    (Z.to_nat (dayNumber outTime - dayNumber inTime) <= fuel)%nat ->
    exists stored stats periodStats,
      duration (toRecord outId (newRecordDoc (Some inTime) memberId "out" outTime))
      = Some stored
      /\ stored = roundMinutes (outTime - inTime)
      /\ calculateStats fuel
           [toRecord inId (newRecordDoc None memberId "in" inTime);
            toRecord outId (newRecordDoc (Some inTime) memberId "out" outTime)]
         = Ret stats
      /\ stored - 2 <= totalTime stats <= stored
      /\ calculatePeriodStats
           [toRecord inId (newRecordDoc None memberId "in" inTime);
            toRecord outId (newRecordDoc (Some inTime) memberId "out" outTime)]
           startDate endDate
         = Ret periodStats
      /\ totalTime (total periodStats) = stored.
Proof.
  intros memberId inId outId inTime outTime fuel startDate endDate Hzone Hlt Hend
    Hfuel.
  assert (Hce : startOfYear1 <= inTime) by (pose proof zoneSettled_year1; lia).
  pose proof (@roundMinutes_positive (outTime - inTime) ltac:(lia)) as Hpos.
  destruct (splitStayByDays_sum Hce Hlt Hfuel) as (m & Hm & Hbounds).
  set (stored := roundMinutes (outTime - inTime)) in *.
  set (inRecord := toRecord inId (newRecordDoc None memberId "in" inTime)).
  set (outRecord := toRecord outId (newRecordDoc (Some inTime) memberId "out" outTime)).
  assert (Edur : duration outRecord = Some stored).
  { subst outRecord. unfold toRecord, newRecordDoc. cbn.
    f_equal. fold stored. lia. }
  assert (Ein : timestamp inRecord = ValidDate inTime) by reflexivity.
  assert (Eout : timestamp outRecord = ValidDate outTime) by reflexivity.
  assert (Ematch : matchingInRecord [inRecord] outRecord = Some inRecord).
  { unfold matchingInRecord. cbn [filter]. rewrite Ein, Eout.
    unfold isBefore. rewrite (proj2 (Z.ltb_lt _ _) Hlt). reflexivity. }
  assert (Estats : statsDailyMinutes fuel [inRecord; outRecord]
                   = if stored =? 0 then Ret [] else Ret (fold_left addEntry m [])).
  { rewrite statsDailyMinutes_contributions.
    change (filter isIn [inRecord; outRecord]) with [inRecord].
    change (filter isOut [inRecord; outRecord]) with [outRecord].
    cbn [allContributions]. unfold contributions. rewrite Edur. cbn [truthy].
    destruct (stored =? 0); cbn [negb]; [reflexivity|].
    rewrite Ematch, Ein, Eout, Hm. cbn [bind]. rewrite app_nil_r. reflexivity. }
  assert (Eperiod : periodDailyMinutes [inRecord; outRecord]
                    = if stored =? 0 then Ret []
                      else Ret [(dayKey outTime, stored)]).
  { rewrite periodDailyMinutes_forEach. cbn [forEachM].
    change (periodStep JsMap.empty inRecord) with (Ret (@JsMap.empty DayKey Z)).
    cbn [bind]. unfold periodStep. rewrite Edur, Eout.
    change (String.eqb (type outRecord) "out") with true. cbn [andb truthy].
    destruct (stored =? 0); reflexivity. }
  clearbody stored inRecord outRecord.
  destruct (stored =? 0) eqn:E0.
  - apply Z.eqb_eq in E0.
    exists stored, zeroStats, (periodRollup []).
    split; [assumption|]. split; [reflexivity|]. split.
    { rewrite calculateStats_eq. cbn [length Nat.eqb]. rewrite Estats. reflexivity. }
    split; [unfold zeroStats; cbn [totalTime]; lia|]. split.
    { unfold calculatePeriodStats. rewrite Eperiod. reflexivity. }
    rewrite E0. reflexivity.
  - eexists stored, _, (periodRollup [(dayKey outTime, stored)]).
    split; [assumption|]. split; [reflexivity|]. split.
    { rewrite calculateStats_eq. cbn [length Nat.eqb]. rewrite Estats. reflexivity. }
    split.
    { cbn [totalTime]. rewrite sumMinutes_fold_addEntry.
      unfold sumMinutes at 1. simpl. lia. }
    split.
    { unfold calculatePeriodStats. rewrite Eperiod. reflexivity. }
    unfold periodRollup. destruct (partitionDays _). cbn [total totalTime].
    unfold sumMinutes. simpl. reflexivity.
Qed.

Lemma addRecord_duration_in_statistics_witness :
  exists stored stats periodStats,
    duration (toRecord "o" (newRecordDoc (Some (at_ 2024 3 10 23 0 0 0)) "m" "out"
                              (at_ 2024 3 11 1 0 0 0)))
    = Some stored
    /\ stored = roundMinutes (at_ 2024 3 11 1 0 0 0 - at_ 2024 3 10 23 0 0 0)
    /\ calculateStats 1
         [toRecord "i" (newRecordDoc None "m" "in" (at_ 2024 3 10 23 0 0 0));
          toRecord "o" (newRecordDoc (Some (at_ 2024 3 10 23 0 0 0)) "m" "out"
                          (at_ 2024 3 11 1 0 0 0))]
       = Ret stats
    /\ stored - 2 <= totalTime stats <= stored
    /\ calculatePeriodStats
         [toRecord "i" (newRecordDoc None "m" "in" (at_ 2024 3 10 23 0 0 0));
          toRecord "o" (newRecordDoc (Some (at_ 2024 3 10 23 0 0 0)) "m" "out"
                          (at_ 2024 3 11 1 0 0 0))]
         InvalidDate InvalidDate
       = Ret periodStats
    /\ totalTime (total periodStats) = stored.
Proof.
  apply addRecord_duration_in_statistics.
  - vm_compute. discriminate.
  - reflexivity.
  - reflexivity.
  - vm_compute. lia.
Defined.

(** X20.  A check-out [addRecord] writes when [getLastInRecord] found no
    check-in, or one less than 30 seconds before (or after) the check-out,
    is stored with duration 0, and a record with duration 0 counts nowhere:
    with or without it in the record list, [calculateStats] and
    [calculatePeriodStats] build the same daily mappings. *)
Theorem addRecord_zero_duration_uncounted :
  forall (lastInRecord : option Z) (memberId outId : string) (outTime : Z)
         (fuel : nat) (before after : list Record_),
    (forall lastIn, lastInRecord = Some lastIn -> outTime - lastIn < 30000) ->
    duration (toRecord outId (newRecordDoc lastInRecord memberId "out" outTime))
    = Some 0
    /\ statsDailyMinutes fuel
         (before ++ toRecord outId (newRecordDoc lastInRecord memberId "out" outTime)
                 :: after)
       = statsDailyMinutes fuel (before ++ after)
    /\ periodDailyMinutes
         (before ++ toRecord outId (newRecordDoc lastInRecord memberId "out" outTime)
                 :: after)
       = periodDailyMinutes (before ++ after).
Proof.
  intros lastInRecord memberId outId outTime fuel before after Hshort.
  assert (Edur : duration (toRecord outId
                             (newRecordDoc lastInRecord memberId "out" outTime))
                 = Some 0).
  { unfold toRecord, newRecordDoc. cbn.
    destruct lastInRecord as [lastIn|]; cbn; [|reflexivity].
    specialize (Hshort lastIn eq_refl). f_equal.
    unfold roundMinutes, millisecondsInMinute. zdiv. }
  split; [assumption|]. split.
  - apply statsDailyMinutes_skip_falsy.
    + unfold toRecord, newRecordDoc. cbn. destruct lastInRecord; reflexivity.
    + rewrite Edur. reflexivity.
  - apply periodDailyMinutes_skip_falsy. rewrite Edur. reflexivity.
Qed.

Lemma addRecord_zero_duration_uncounted_witness :
  duration (toRecord "o" (newRecordDoc (Some (at_ 2024 3 10 9 0 0 0)) "m" "out"
                            (at_ 2024 3 10 9 0 29 999)))
  = Some 0
  /\ statsDailyMinutes 5
       ([mkIn (at_ 2024 3 10 9 0 0 0)]
          ++ toRecord "o" (newRecordDoc (Some (at_ 2024 3 10 9 0 0 0)) "m" "out"
                             (at_ 2024 3 10 9 0 29 999)) :: [])
     = statsDailyMinutes 5 ([mkIn (at_ 2024 3 10 9 0 0 0)] ++ [])
  /\ periodDailyMinutes
       ([mkIn (at_ 2024 3 10 9 0 0 0)]
          ++ toRecord "o" (newRecordDoc (Some (at_ 2024 3 10 9 0 0 0)) "m" "out"
                             (at_ 2024 3 10 9 0 29 999)) :: [])
     = periodDailyMinutes ([mkIn (at_ 2024 3 10 9 0 0 0)] ++ []).
Proof.
  apply addRecord_zero_duration_uncounted.
  intros lastIn E. inversion E. vm_compute. reflexivity.
Defined.

